(** * Hourly production, stoppage and OEE engine of [server/routes/analytics.js]

    A shallow embedding of the four route handlers of the analytics router
    (production timeline, stoppage submission, production assignment and
    machine statistics) together with the properties of the specification
    that are about them, and of the client code that calls them: the cell
    colour and the stoppage form of [ProductionTimeline.tsx], the request
    function of [api.ts] and the two write handlers of [MachineView.tsx].

    Modelling conventions.
    - A JS string is a [string], one [ascii] per code unit (code units
      below 256).  A value that may be [undefined] or [null] is an [option].
    - Integer quantities (hours, minutes, unit counts, millisecond
      timestamps) are [Z]; the ratios of the statistics are exact rationals
      [Qc], and a ratio that JS would make [NaN] or infinite is [None].
    - A calendar date ["YYYY-MM-DD"] is the number of that day since the
      epoch, and the server's local time zone is UTC, so that a day is
      [DAY] milliseconds and local and UTC calendar days coincide.
    - The document store is explicit state: every handler maps the store
      and the request to a reply and the store after the request.  The
      socket events and the breakdown e-mail, which never touch the store
      or the reply, are left out, and so are failures of the storage
      layer.  A request has the types of its form: the hour, the duration
      and the defective units are numbers, the date is a day.  A [Date]
      built from a string that does not parse is an Invalid Date, [None].
    - [hourlyData] is the document array of a record.  A slot that [find]
      returns is the stored subdocument: it is aliased by its index and
      updated in place, and so are its [stoppages].  [push] stores a
      subdocument cast from the plain object it is given, so that what a
      handler writes to that object after the push does not reach the
      record. *)

From Stdlib Require Import ZArith QArith Qcanon Qround Ascii Lia Lqa.
From stdpp Require Import base option list gmap strings pretty.

Local Open Scope string_scope.
Local Open Scope list_scope.
Local Open Scope Z_scope.

(** ** JS primitives used by the handlers *)

Module Js.

(** [x || 0] on a number that may be undefined. *)
Definition or0 (x : option Z) : Z :=
  match x with Some z => z | None => 0 end.

(** Truthiness of a string that may be undefined: the empty string is
    falsy. *)
Definition truthy (s : option string) : bool :=
  match s with
  | Some s => negb (String.eqb s "")
  | None => false
  end.

(** [a || b] on two values that may be undefined, for references. *)
Definition or_else {A} (a b : option A) : option A :=
  match a with Some _ => a | None => b end.

(** [s || d] on a string that may be undefined. *)
Definition str_or (s : option string) (d : string) : string :=
  match s with
  | Some v => if String.eqb v "" then d else v
  | None => d
  end.

Definition code (c : ascii) : N := N_of_ascii c.

(** WhiteSpace and LineTerminator code units below 256: TAB, LF, VT, FF,
    CR, SP and NBSP. *)
Definition isWhiteSpace (c : ascii) : bool :=
  ((9 <=? code c)%N && (code c <=? 13)%N)
  || (code c =? 32)%N || (code c =? 160)%N.

(** The class [\d]. *)
Definition isDigit (c : ascii) : bool :=
  (48 <=? code c)%N && (code c <=? 57)%N.

Fixpoint trimStart (s : string) : string :=
  match s with
  | EmptyString => EmptyString
  | String c s' => if isWhiteSpace c then trimStart s' else s
  end.

Fixpoint trimEnd (s : string) : string :=
  match s with
  | EmptyString => EmptyString
  | String c s' =>
      match trimEnd s' with
      | EmptyString =>
          if isWhiteSpace c then EmptyString else String c EmptyString
      | t => String c t
      end
  end.

(** [String.prototype.trim]. *)
Definition trim (s : string) : string := trimEnd (trimStart s).

Fixpoint allDigits (s : string) : bool :=
  match s with
  | EmptyString => true
  | String c s' => isDigit c && allDigits s'
  end.

(** [/^\d+$/.test(s)]. *)
Definition digitsOnly (s : string) : bool :=
  negb (String.eqb s "") && allDigits s.

(** [s.split(sep)[0]]: the part of [s] before the first [sep]. *)
Fixpoint splitHead (sep : ascii) (s : string) : string :=
  match s with
  | EmptyString => EmptyString
  | String c s' =>
      if Ascii.eqb c sep then EmptyString else String c (splitHead sep s')
  end.

(** Value of a digit in the given radix (10 or 16). *)
Definition digitValue (radix : Z) (c : ascii) : option Z :=
  let n := Z.of_N (code c) in
  if isDigit c then Some (n - 48)
  else if (radix =? 16)%Z && (97 <=? n) && (n <=? 102) then Some (n - 87)
  else if (radix =? 16)%Z && (65 <=? n) && (n <=? 70) then Some (n - 55)
  else None.

(** The longest prefix of digits, read in [radix]; [None] when there is
    no digit at all. *)
Fixpoint readDigits (radix : Z) (acc : option Z) (s : string) : option Z :=
  match s with
  | EmptyString => acc
  | String c s' =>
      match digitValue radix c with
      | Some d => readDigits radix (Some (radix * or0 acc + d)) s'
      | None => acc
      end
  end.

(** [parseInt(s)] without a radix argument; [None] is [NaN]. *)
Definition parseInt (s : string) : option Z :=
  let t := trimStart s in
  let '(sign, u) :=
    match t with
    | String "-" r => (-1, r)
    | String "+" r => (1, r)
    | _ => (1, t)
    end in
  let '(radix, v) :=
    match u with
    | String "0" (String "x" r) => (16, r)
    | String "0" (String "X" r) => (16, r)
    | _ => (10, u)
    end in
  (fun n => sign * n) <$> readDigits radix None v.

(** Comparisons of numbers one of which may be [NaN]: false on [NaN]. *)
Definition le (a b : option Z) : bool :=
  match a, b with Some x, Some y => x <=? y | _, _ => false end.
Definition lt (a b : option Z) : bool :=
  match a, b with Some x, Some y => x <? y | _, _ => false end.
Definition ge (a b : option Z) : bool := le b a.

End Js.

(** ** Data model *)

Definition ObjectId := string.

(** Milliseconds in a day, an hour and a minute. *)
Definition DAY : Z := 86400000.
Definition HOUR : Z := 3600000.
Definition MINUTE : Z := 1000 * 60.

Record Stoppage := {
  s_id : option ObjectId;
  s_reason : string;
  s_description : option string;
  s_startTime : option Z;
  s_endTime : option Z;
  s_duration : option Z;
  s_isPending : bool;
  s_isClassified : bool;
  s_sapNotificationNumber : option string
}.

Record HourSlot := {
  h_hour : Z;
  h_unitsProduced : option Z;
  h_defectiveUnits : option Z;
  h_status : option string;
  h_runningMinutes : option Z;
  h_stoppageMinutes : option Z;
  h_operatorId : option ObjectId;
  h_moldId : option ObjectId;
  h_stoppages : list Stoppage
}.

Record ProductionRecord := {
  r_machineId : ObjectId;
  r_startTime : Z;
  r_unitsProduced : Z;
  r_defectiveUnits : Z;
  r_operatorId : option ObjectId;
  r_moldId : option ObjectId;
  r_hourlyData : list HourSlot
}.

Record Machine := {
  m_name : string;
  m_status : string;
  m_departmentId : option ObjectId
}.

Record Mold := {
  productionCapacityPerHour : option Z
}.

Record Shift := {
  sh_startTime : string;
  sh_endTime : string
}.

(** The authenticated requester, [req.user]. *)
Record User := {
  u_role : string;
  u_departmentId : option ObjectId
}.

(** A document of the user collection. *)
Record UserDoc := {
  ud_id : ObjectId;
  ud_username : string
}.

(** One hour of the timeline reply and one day of it. *)
Record TimelineHour := {
  t_hour : Z;
  t_unitsProduced : Z;
  t_defectiveUnits : Z;
  t_status : string;
  t_operator : option UserDoc;
  t_mold : option Mold;
  t_stoppages : list Stoppage;
  t_runningMinutes : Z;
  t_stoppageMinutes : Z
}.

Record DayData := {
  d_date : Z;
  d_hours : list TimelineHour
}.

(** The statistics reply; a field is [None] when JS would hold a value
    that is not a finite number. *)
Record Stats := {
  st_totalUnitsProduced : Z;
  st_totalDefectiveUnits : Z;
  st_oee : option Z;
  st_mtbf : option Z;
  st_mttr : option Z;
  st_availability : option Z;
  st_quality : option Z;
  st_performance : option Z;
  st_currentStatus : string;
  st_totalRunningMinutes : Z;
  st_totalStoppageMinutes : Z;
  st_breakdownStoppages : Z;
  st_totalBreakdownMinutes : Z
}.

(** Replies of the handlers: an HTTP status with its body. *)
Inductive Body :=
  | Message (msg : string)
  | TimelineBody (t : list DayData)
  | StatsBody (s : Stats).

Definition Reply := (Z * Body)%type.

(** The collections of the document store.  [config] is the list of
    shifts of the single configuration document, when there is one. *)
Record Db := {
  machines : gmap ObjectId Machine;
  molds : gmap ObjectId Mold;
  users : list UserDoc;
  config : option (list Shift);
  records : list ProductionRecord
}.

Definition set_records (db : Db) (rs : list ProductionRecord) : Db :=
  {| machines := machines db; molds := molds db; users := users db;
     config := config db; records := rs |}.

Definition set_hourlyData (r : ProductionRecord) (hs : list HourSlot)
  : ProductionRecord :=
  {| r_machineId := r_machineId r; r_startTime := r_startTime r;
     r_unitsProduced := r_unitsProduced r;
     r_defectiveUnits := r_defectiveUnits r;
     r_operatorId := r_operatorId r; r_moldId := r_moldId r;
     r_hourlyData := hs |}.

Definition set_r_defectiveUnits (r : ProductionRecord) (d : Z)
  : ProductionRecord :=
  {| r_machineId := r_machineId r; r_startTime := r_startTime r;
     r_unitsProduced := r_unitsProduced r;
     r_defectiveUnits := d;
     r_operatorId := r_operatorId r; r_moldId := r_moldId r;
     r_hourlyData := r_hourlyData r |}.

Definition set_stoppages (h : HourSlot) (ss : list Stoppage) : HourSlot :=
  {| h_hour := h_hour h; h_unitsProduced := h_unitsProduced h;
     h_defectiveUnits := h_defectiveUnits h; h_status := h_status h;
     h_runningMinutes := h_runningMinutes h;
     h_stoppageMinutes := h_stoppageMinutes h;
     h_operatorId := h_operatorId h; h_moldId := h_moldId h;
     h_stoppages := ss |}.

Definition set_stoppageMinutes (h : HourSlot) (m : option Z) : HourSlot :=
  {| h_hour := h_hour h; h_unitsProduced := h_unitsProduced h;
     h_defectiveUnits := h_defectiveUnits h; h_status := h_status h;
     h_runningMinutes := h_runningMinutes h;
     h_stoppageMinutes := m;
     h_operatorId := h_operatorId h; h_moldId := h_moldId h;
     h_stoppages := h_stoppages h |}.

Definition set_status (h : HourSlot) (s : option string) : HourSlot :=
  {| h_hour := h_hour h; h_unitsProduced := h_unitsProduced h;
     h_defectiveUnits := h_defectiveUnits h; h_status := s;
     h_runningMinutes := h_runningMinutes h;
     h_stoppageMinutes := h_stoppageMinutes h;
     h_operatorId := h_operatorId h; h_moldId := h_moldId h;
     h_stoppages := h_stoppages h |}.

Definition set_h_defectiveUnits (h : HourSlot) (d : option Z) : HourSlot :=
  {| h_hour := h_hour h; h_unitsProduced := h_unitsProduced h;
     h_defectiveUnits := d; h_status := h_status h;
     h_runningMinutes := h_runningMinutes h;
     h_stoppageMinutes := h_stoppageMinutes h;
     h_operatorId := h_operatorId h; h_moldId := h_moldId h;
     h_stoppages := h_stoppages h |}.

(** ** The store: find-or-create and save *)

(** The filter of [ProductionRecord.findOne] in the two write handlers:
    same machine, start time from 00:00:00.000 included to 23:59:59.999
    excluded of the requested day. *)
Definition onDay (machineId : ObjectId) (date : Z) (r : ProductionRecord)
  : Prop :=
  r_machineId r = machineId
  ∧ date * DAY ≤ r_startTime r
  ∧ r_startTime r < date * DAY + (DAY - 1).

Global Instance onDay_dec machineId date r : Decision (onDay machineId date r).
Proof. unfold onDay. apply _. Defined.

(** [findOne]: the first matching document, with its place in the
    collection. *)
Definition findOne (db : Db) (machineId : ObjectId) (date : Z)
  : option (nat * ProductionRecord) :=
  list_find (onDay machineId date) (records db).

(** [new ProductionRecord({machineId, startTime, hourlyData: []})]; the
    record-level counters start at the schema's default 0. *)
Definition newRecord (machineId : ObjectId) (date : Z) : ProductionRecord :=
  {| r_machineId := machineId; r_startTime := date * DAY;
     r_unitsProduced := 0; r_defectiveUnits := 0;
     r_operatorId := None; r_moldId := None; r_hourlyData := [] |}.

Definition findOrCreate (db : Db) (machineId : ObjectId) (date : Z)
  : ProductionRecord :=
  match findOne db machineId date with
  | Some (_, r) => r
  | None => newRecord machineId date
  end.

(** [productionRecord.save()]: a document that was found replaces its
    stored version, a new one is inserted. *)
Definition save (db : Db) (found : option (nat * ProductionRecord))
  (r : ProductionRecord) : Db :=
  match found with
  | Some (i, _) => set_records db (<[i := r]> (records db))
  | None => set_records db (records db ++ [r])
  end.

(** ** Stoppage submission: [router.post('/stoppage')] *)

Record StoppageRequest := {
  sq_machineId : ObjectId;
  sq_hour : Z;
  sq_date : Z;
  sq_reason : string;
  sq_description : option string;
  sq_duration : Z;
  sq_pendingStoppageId : option string;
  sq_sapNotificationNumber : option string
}.

(** The sum [stoppages.reduce((sum, s) => sum + (s.duration || 0), 0)]. *)
Definition sumDurations (ss : list Stoppage) : Z :=
  fold_left (fun sum s => sum + Js.or0 (s_duration s)) ss 0.

(** The slot created when the hour has none yet. *)
Definition newStoppageSlot (hour : Z) : HourSlot :=
  {| h_hour := hour; h_unitsProduced := Some 0; h_defectiveUnits := Some 0;
     h_status := Some "stoppage"; h_runningMinutes := Some 0;
     h_stoppageMinutes := Some 0; h_operatorId := None; h_moldId := None;
     h_stoppages := [] |}.

(** What [hourData] refers to after the find-or-create of a slot: the
    subdocument that [find] returned, by its index in [hourlyData], or the
    plain object that was built and pushed, of which the document array
    holds a copy of its own. *)
Inductive SlotRef :=
  | Stored (i : nat)
  | Detached.

(** Find-or-create of a slot: what [hourData] refers to, and the array
    after the possible push. *)
Definition findOrPushSlot (hour : Z) (fresh : HourSlot) (hs : list HourSlot)
  : SlotRef * list HourSlot :=
  match list_find (fun h => h_hour h = hour) hs with
  | Some (i, _) => (Stored i, hs)
  | None => (Detached, hs ++ [fresh])
  end.

(** The effect on [hourlyData] of the writes [f] that a handler makes
    through [hourData]: they change the stored subdocument, and are lost
    to the record when [hourData] is the plain object. *)
Definition writeHourData (f : HourSlot → HourSlot) (hourData : SlotRef)
  (hs : list HourSlot) : list HourSlot :=
  match hourData with
  | Stored i => alter f i hs
  | Detached => hs
  end.

(** The predicate of [findIndex] on the stoppages of the slot. *)
Definition pendingMatch (pendingStoppageId : string) (s : Stoppage) : Prop :=
  s_id s = Some pendingStoppageId ∨ s_reason s = "unclassified".

Global Instance pendingMatch_dec p s : Decision (pendingMatch p s).
Proof. unfold pendingMatch. apply _. Defined.

(** [new Date(`${date}T${hour.toString().padStart(2, '0')}:00:00`)]: the
    time of day parses for the hours 00 to 24, and 24:00:00 is the
    midnight that ends the day; with any other hour the string does not
    parse and the date is invalid. *)
Definition hourStart (date hour : Z) : option Z :=
  if (0 <=? hour) && (hour <=? 24) then Some (date * DAY + hour * HOUR)
  else None.

(** The stoppage object built by the two appending branches; it starts at
    [date]T[hour]:00:00, ends [duration] minutes later, and gets the SAP
    number only for a breakdown. *)
Definition newStoppage (rq : StoppageRequest) : Stoppage :=
  let stoppageStart := hourStart (sq_date rq) (sq_hour rq) in
  {| s_id := None;
     s_reason := sq_reason rq;
     s_description := sq_description rq;
     s_startTime := stoppageStart;
     s_endTime := (fun start => start + sq_duration rq * 60 * 1000)
                    <$> stoppageStart;
     s_duration := Some (sq_duration rq);
     s_isPending := false;
     s_isClassified := true;
     s_sapNotificationNumber :=
       if String.eqb (sq_reason rq) "breakdown"
       then sq_sapNotificationNumber rq else None |}.

(** The in-place update of the pending stoppage.  [t1] is the clock read
    for the elapsed time and [t2] the later one for [endTime]; the elapsed
    time is not a number when the stoppage has no valid start. *)
Definition finalize (rq : StoppageRequest) (t1 t2 : Z) (p : Stoppage)
  : Stoppage :=
  let actualDuration :=
    (fun start => (t1 - start) `div` MINUTE) <$> s_startTime p in
  {| s_id := s_id p;
     s_reason := sq_reason rq;
     s_description := sq_description rq;
     s_startTime := s_startTime p;
     s_endTime := Some t2;
     s_duration := actualDuration;
     s_isPending := false;
     s_isClassified := true;
     s_sapNotificationNumber :=
       if String.eqb (sq_reason rq) "breakdown"
       then sq_sapNotificationNumber rq else s_sapNotificationNumber p |}.

(** What the handler writes to [hourData] between the find-or-create and
    the save. *)
Definition stoppageOnSlot (rq : StoppageRequest) (t1 t2 : Z) (hourData : HourSlot)
  : HourSlot :=
  let hourData1 :=
    if Js.truthy (sq_pendingStoppageId rq) then
      match list_find (pendingMatch (default "" (sq_pendingStoppageId rq)))
              (h_stoppages hourData) with
      | Some (stoppageIndex, pendingStoppage) =>
          set_stoppages hourData
            (<[stoppageIndex := finalize rq t1 t2 pendingStoppage]>
               (h_stoppages hourData))
      | None =>
          set_stoppages hourData (h_stoppages hourData ++ [newStoppage rq])
      end
    else
      let pushed :=
        set_stoppages hourData (h_stoppages hourData ++ [newStoppage rq]) in
      set_stoppageMinutes pushed (Some (sumDurations (h_stoppages pushed))) in
  set_status hourData1 (Some "stoppage").

(** The two validations of the SAP notification number. *)
Definition sapMissing (rq : StoppageRequest) : bool :=
  String.eqb (sq_reason rq) "breakdown"
  && (negb (Js.truthy (sq_sapNotificationNumber rq))
      || String.eqb (Js.trim (default "" (sq_sapNotificationNumber rq))) "").

Definition sapMalformed (rq : StoppageRequest) : bool :=
  String.eqb (sq_reason rq) "breakdown"
  && Js.truthy (sq_sapNotificationNumber rq)
  && negb (Js.digitsOnly (Js.trim (default "" (sq_sapNotificationNumber rq)))).

(** The record as the handler leaves it just before [save]: every write
    after the find-or-create goes through [hourData]. *)
Definition stoppageRecord (db : Db) (rq : StoppageRequest) (t1 t2 : Z)
  : ProductionRecord :=
  let productionRecord := findOrCreate db (sq_machineId rq) (sq_date rq) in
  let '(hourData, hourlyData) :=
    findOrPushSlot (sq_hour rq) (newStoppageSlot (sq_hour rq))
      (r_hourlyData productionRecord) in
  set_hourlyData productionRecord
    (writeHourData (stoppageOnSlot rq t1 t2) hourData hourlyData).

Definition postStoppage (db : Db) (rq : StoppageRequest) (t1 t2 : Z)
  : Reply * Db :=
  if sapMissing rq then
    ((400, Message "SAP notification number is required for breakdown stoppages"), db)
  else if sapMalformed rq then
    ((400, Message "SAP notification number must contain only numbers"), db)
  else
    ((201, Message "Stoppage recorded successfully"),
     save db (findOne db (sq_machineId rq) (sq_date rq))
       (stoppageRecord db rq t1 t2)).

(** ** Production assignment: [router.post('/production-assignment')] *)

Record AssignmentRequest := {
  aq_machineId : ObjectId;
  aq_hour : Z;
  aq_date : Z;
  aq_operatorId : option string;
  aq_moldId : option string;
  aq_defectiveUnits : option Z;
  aq_applyToShift : bool
}.

Definition isHexDigit (c : ascii) : bool :=
  match Js.digitValue 16 c with Some _ => true | None => false end.

Fixpoint allHex (s : string) : bool :=
  match s with
  | EmptyString => true
  | String c s' => isHexDigit c && allHex s'
  end.

(** [mongoose.Types.ObjectId.isValid] on a string: 24 hexadecimal digits,
    or any 12 characters. *)
Definition isValidObjectId (s : string) : bool :=
  (Nat.eqb (String.length s) 24 && allHex s) || Nat.eqb (String.length s) 12.

(** [id && id.trim() !== '']: a reference was given in the request. *)
Definition provided (s : option string) : bool :=
  Js.truthy s && negb (String.eqb (Js.trim (default "" s)) "").

(** The validation of the operator: a well-formed id is taken as it is,
    anything else is looked up as a user name; [inr] is the message of the
    400 reply. *)
Definition resolveOperator (db : Db) (operatorId : option string)
  : option ObjectId + string :=
  if provided operatorId then
    let o := default "" operatorId in
    if isValidObjectId o then inl (Some o)
    else
      match find (fun u => String.eqb (ud_username u) o) (users db) with
      | Some user => inl (Some (ud_id user))
      | None => inr "Invalid operator specified"
      end
  else inl None.

(** The validation of the mold: a well-formed id or the 400 reply. *)
Definition resolveMold (moldId : option string) : option ObjectId + string :=
  if provided moldId then
    let m := default "" moldId in
    if isValidObjectId m then inl (Some m)
    else inr "Invalid mold ID specified"
  else inl None.

(** [parseInt(s.startTime.split(':')[0])] and the same for the end. *)
Definition startHourOf (s : Shift) : option Z :=
  Js.parseInt (Js.splitHead ":" (sh_startTime s)).
Definition endHourOf (s : Shift) : option Z :=
  Js.parseInt (Js.splitHead ":" (sh_endTime s)).

(** The predicate of [shifts.find]: the shift contains the hour. *)
Definition shiftContains (hour : Z) (s : Shift) : bool :=
  let startHour := startHourOf s in
  let endHour := endHourOf s in
  if Js.le startHour endHour
  then Js.ge (Some hour) startHour && Js.lt (Some hour) endHour
  else Js.ge (Some hour) startHour || Js.lt (Some hour) endHour.

(** [for (let h = a; h < b; h++) hoursToUpdate.push(h)]; the guard fails
    at once when a bound is [NaN]. *)
Definition hoursFrom (a b : option Z) : list Z :=
  match a, b with
  | Some x, Some y => seqZ x (y - x)
  | _, _ => []
  end.

Definition hoursToUpdate (shifts : list Shift) (hour : Z) (applyToShift : bool)
  : list Z :=
  if applyToShift then
    match find (shiftContains hour) shifts with
    | Some shift =>
        let startHour := startHourOf shift in
        let endHour := endHourOf shift in
        if Js.le startHour endHour then hoursFrom startHour endHour
        else if Js.ge (Some hour) startHour then hoursFrom startHour (Some 24)
        else if Js.lt (Some hour) endHour then hoursFrom (Some 0) endHour
        else []
    | None => [hour]
    end
  else [hour].

(** The slot created by the assignment for an hour that has none. *)
Definition newAssignmentSlot (targetHour : Z)
  (validOperatorId validMoldId : option ObjectId) : HourSlot :=
  {| h_hour := targetHour; h_unitsProduced := Some 0;
     h_defectiveUnits := Some 0; h_status := Some "inactive";
     h_runningMinutes := Some 0; h_stoppageMinutes := Some 0;
     h_operatorId := validOperatorId; h_moldId := validMoldId;
     h_stoppages := [] |}.

(** One turn of the loop over [hoursToUpdate]: the operator and the mold
    are put on the new object before it is pushed, the defective units are
    written through [hourData] after the find-or-create. *)
Definition assignHour (hour : Z) (defectiveUnits : option Z)
  (validOperatorId validMoldId : option ObjectId)
  (hourlyData : list HourSlot) (targetHour : Z) : list HourSlot :=
  let '(hourData, hourlyData1) :=
    findOrPushSlot targetHour
      (newAssignmentSlot targetHour validOperatorId validMoldId) hourlyData in
  if (targetHour =? hour) && bool_decide (is_Some defectiveUnits)
  then writeHourData (fun h => set_h_defectiveUnits h defectiveUnits)
         hourData hourlyData1
  else hourlyData1.

(** [hourlyData.reduce((sum, h) => sum + (h.defectiveUnits || 0), 0)]. *)
Definition sumDefective (hs : list HourSlot) : Z :=
  fold_left (fun sum h => sum + Js.or0 (h_defectiveUnits h)) hs 0.

(** The record as the handler leaves it just before [save]. *)
Definition assignmentRecord (db : Db) (rq : AssignmentRequest)
  (validOperatorId validMoldId : option ObjectId) : ProductionRecord :=
  let productionRecord := findOrCreate db (aq_machineId rq) (aq_date rq) in
  let shifts := default [] (config db) in
  let hourlyData :=
    fold_left
      (assignHour (aq_hour rq) (aq_defectiveUnits rq)
         validOperatorId validMoldId)
      (hoursToUpdate shifts (aq_hour rq) (aq_applyToShift rq))
      (r_hourlyData productionRecord) in
  set_r_defectiveUnits (set_hourlyData productionRecord hourlyData)
    (sumDefective hourlyData).

Definition postAssignment (db : Db) (rq : AssignmentRequest) : Reply * Db :=
  match resolveOperator db (aq_operatorId rq) with
  | inr msg => ((400, Message msg), db)
  | inl validOperatorId =>
      match resolveMold (aq_moldId rq) with
      | inr msg => ((400, Message msg), db)
      | inl validMoldId =>
          ((200, Message "Production assignment updated successfully"),
           save db (findOne db (aq_machineId rq) (aq_date rq))
             (assignmentRecord db rq validOperatorId validMoldId))
      end
  end.

(** ** Access check shared by the two read handlers *)

(** [populate]: a reference is replaced by the document it refers to, or
    by [null] when there is none. *)
Definition populateUser (db : Db) (ref : option ObjectId) : option UserDoc :=
  ref ≫= fun id => find (fun u => String.eqb (ud_id u) id) (users db).

Definition populateMold (db : Db) (ref : option ObjectId) : option Mold :=
  ref ≫= fun id => molds db !! id.

(** [inl] is the machine when the requester may read it, [inr] the reply
    that ends the request.  A machine whose department does not resolve
    makes the comparison throw, which the handler answers with 500. *)
Definition checkAccess (db : Db) (user : User) (machineId : ObjectId)
  : Machine + Reply :=
  match machines db !! machineId with
  | None => inr (404, Message "Machine not found")
  | Some machine =>
      if String.eqb (u_role user) "operator" then
        match m_departmentId machine with
        | None => inr (500, Message "Server error")
        | Some dep =>
            if bool_decide (u_departmentId user = Some dep) then inl machine
            else inr (403, Message "Access denied to this machine")
        end
      else inl machine
  end.

(** [ProductionRecord.find] of the read handlers: the records of the
    machine that start within the window, bounds included. *)
Definition findRecords (db : Db) (machineId : ObjectId) (startDate endDate : Z)
  : list ProductionRecord :=
  List.filter
    (fun r => String.eqb (r_machineId r) machineId
              && (startDate <=? r_startTime r) && (r_startTime r <=? endDate))
    (records db).

(** ** Production timeline: [router.get('/production-timeline/:machineId')] *)

(** The status computed from the minutes of the hour. *)
Definition derivedStatus (runningMinutes stoppageMinutes : Z) : string :=
  if 0 <? runningMinutes then
    if runningMinutes <? stoppageMinutes then "stoppage" else "running"
  else if 0 <? stoppageMinutes then "stoppage"
  else "inactive".

(** [dayRecord?.hourlyData?.find(h => h.hour === hour)]. *)
Definition findHourData (dayRecord : option ProductionRecord) (hour : Z)
  : option HourSlot :=
  dayRecord ≫= fun r =>
    snd <$> list_find (fun h => h_hour h = hour) (r_hourlyData r).

(** The object pushed for one hour of one day. *)
Definition timelineHour (db : Db) (dayRecord : option ProductionRecord)
  (hour : Z) : TimelineHour :=
  let hourData := findHourData dayRecord hour in
  let runningMinutes := Js.or0 (hourData ≫= h_runningMinutes) in
  let stoppageMinutes :=
    match hourData with
    | Some h => sumDurations (h_stoppages h)
    | None => 0
    end in
  let status := derivedStatus runningMinutes stoppageMinutes in
  {| t_hour := hour;
     t_unitsProduced := Js.or0 (hourData ≫= h_unitsProduced);
     t_defectiveUnits := Js.or0 (hourData ≫= h_defectiveUnits);
     t_status := Js.str_or (hourData ≫= h_status) status;
     t_operator :=
       Js.or_else (populateUser db (hourData ≫= h_operatorId))
         (populateUser db (dayRecord ≫= r_operatorId));
     t_mold :=
       Js.or_else (populateMold db (hourData ≫= h_moldId))
         (populateMold db (dayRecord ≫= r_moldId));
     t_stoppages := default [] (h_stoppages <$> hourData);
     t_runningMinutes := runningMinutes;
     t_stoppageMinutes := stoppageMinutes |}.

(** The first record that starts on the calendar day of [dayStart]. *)
Definition findDayRecord (productionRecords : list ProductionRecord)
  (dayStart : Z) : option ProductionRecord :=
  find (fun record => r_startTime record `div` DAY =? dayStart `div` DAY)
    productionRecords.

(** The body of the loop over the days: [d] is the loop variable. *)
Definition timelineDay (db : Db) (productionRecords : list ProductionRecord)
  (d : Z) : DayData :=
  let dayStart := d `div` DAY * DAY in
  let dayRecord := findDayRecord productionRecords dayStart in
  {| d_date := dayStart `div` DAY;
     d_hours := timelineHour db dayRecord <$> seqZ 0 24 |}.

(** The values taken by [d] in
    [for (d = startDate; d <= endDate; d.setDate(d.getDate() + 1))]. *)
Definition loopDays (startDate endDate : Z) : list Z :=
  (fun k => startDate + k * DAY) <$> seqZ 0 ((endDate - startDate) `div` DAY + 1).

Definition buildTimeline (db : Db) (productionRecords : list ProductionRecord)
  (startDate endDate : Z) : list DayData :=
  timelineDay db productionRecords <$> loopDays startDate endDate.

Definition getTimeline (db : Db) (user : User) (machineId : ObjectId) (now : Z)
  : Reply * Db :=
  let endDate := now in
  let startDate := endDate - 7 * DAY in
  match checkAccess db user machineId with
  | inr reply => (reply, db)
  | inl _ =>
      let productionRecords := findRecords db machineId startDate endDate in
      ((200, TimelineBody (buildTimeline db productionRecords startDate endDate)),
       db)
  end.

(** ** Machine statistics: [router.get('/machine-stats/:machineId')] *)

Local Open Scope Qc_scope.

Definition ofZ (z : Z) : Qc := Q2Qc (inject_Z z).

(** [0 < q] as a test. *)
Definition positive (q : Qc) : bool := (0 <? Qnum q)%Z.

(** JS division of finite numbers: not a finite number when the divisor
    is zero. *)
Definition jsdiv (a b : Qc) : option Qc :=
  if Qc_eq_dec b 0 then None else Some (a / b).

(** Product of two values that may not be finite numbers. *)
Definition jsmul (a b : option Qc) : option Qc :=
  match a, b with Some x, Some y => Some (x * y) | _, _ => None end.

(** [Math.round(x * 100)]: to the nearest integer, halves upwards, of the
    exact ratio; on doubles the product can fall just short of a half that
    the exact ratio reaches. *)
Definition roundPercent (x : option Qc) : option Z :=
  (fun q : Qc => Qfloor (q * ofZ 100 + Q2Qc (1 # 2))) <$> x.

Definition round (x : option Qc) : option Z :=
  (fun q : Qc => Qfloor (q + Q2Qc (1 # 2))) <$> x.

(** The six accumulators of the first pass. *)
Record Totals := {
  totalRunningMinutes : Z;
  totalStoppageMinutes : Z;
  totalStoppages : Z;
  breakdownStoppages : Z;
  totalBreakdownMinutes : Z;
  totalExpectedUnits : Qc
}.

Definition zeroTotals : Totals :=
  {| totalRunningMinutes := 0%Z; totalStoppageMinutes := 0%Z;
     totalStoppages := 0%Z; breakdownStoppages := 0%Z;
     totalBreakdownMinutes := 0%Z; totalExpectedUnits := 0 |}.

(** [hourData.moldId?.productionCapacityPerHour] when it is truthy. *)
Definition capacityOf (db : Db) (hourData : HourSlot) : option Z :=
  match populateMold db (h_moldId hourData) ≫= productionCapacityPerHour with
  | Some c => if (c =? 0)%Z then None else Some c
  | None => None
  end.

(** The body of the inner [forEach] over the stoppages. *)
Definition countStoppage (t : Totals) (stoppage : Stoppage) : Totals :=
  if String.eqb (s_reason stoppage) "breakdown" then
    {| totalRunningMinutes := totalRunningMinutes t;
       totalStoppageMinutes := totalStoppageMinutes t;
       totalStoppages := totalStoppages t;
       breakdownStoppages := (breakdownStoppages t + 1)%Z;
       totalBreakdownMinutes :=
         (totalBreakdownMinutes t + Js.or0 (s_duration stoppage))%Z;
       totalExpectedUnits := totalExpectedUnits t |}
  else t.

(** The body of the first [forEach] over the hours. *)
Definition countHour (db : Db) (t : Totals) (hourData : HourSlot) : Totals :=
  let t1 :=
    {| totalRunningMinutes :=
         (totalRunningMinutes t + Js.or0 (h_runningMinutes hourData))%Z;
       totalStoppageMinutes :=
         (totalStoppageMinutes t + Js.or0 (h_stoppageMinutes hourData))%Z;
       totalStoppages :=
         (totalStoppages t + Z.of_nat (length (h_stoppages hourData)))%Z;
       breakdownStoppages := breakdownStoppages t;
       totalBreakdownMinutes := totalBreakdownMinutes t;
       totalExpectedUnits :=
         match capacityOf db hourData with
         | Some capacity =>
             let capacityPerMinute := ofZ capacity / ofZ 60 in
             totalExpectedUnits t
             + capacityPerMinute * ofZ (Js.or0 (h_runningMinutes hourData))
         | None => totalExpectedUnits t
         end |} in
  fold_left countStoppage (h_stoppages hourData) t1.

Definition firstPass (db : Db) (productionRecords : list ProductionRecord)
  : Totals :=
  fold_left (fun t record => fold_left (countHour db) (r_hourlyData record) t)
    productionRecords zeroTotals.

(** The body of the second [forEach] over the hours, on the same
    accumulator [totalExpectedUnits]. *)
Definition addCapacity (db : Db) (expected : Qc) (hourData : HourSlot) : Qc :=
  match capacityOf db hourData with
  | Some capacity => expected + ofZ capacity
  | None => expected
  end.

Definition secondPass (db : Db) (productionRecords : list ProductionRecord)
  (expected : Qc) : Qc :=
  fold_left
    (fun e record => fold_left (addCapacity db) (r_hourlyData record) e)
    productionRecords expected.

(** The ratios before rounding, and everything the reply is made of. *)
Record Ratios := {
  totalUnitsProduced : Z;
  totalDefectiveUnits : Z;
  totals : Totals;
  expectedUnits : Qc;
  availability : option Qc;
  quality : option Qc;
  performance : option Qc;
  oee : option Qc;
  mtbf : option Qc;
  mttr : option Qc
}.

Definition computeStats (db : Db) (productionRecords : list ProductionRecord)
  : Ratios :=
  let totalUnitsProduced :=
    fold_left (fun sum record => (sum + r_unitsProduced record)%Z)
      productionRecords 0%Z in
  let totalDefectiveUnits :=
    fold_left (fun sum record => (sum + r_defectiveUnits record)%Z)
      productionRecords 0%Z in
  let t := firstPass db productionRecords in
  let totalAvailableMinutes :=
    (totalRunningMinutes t + totalStoppageMinutes t)%Z in
  let availability :=
    if (0 <? totalAvailableMinutes)%Z
    then jsdiv (ofZ (totalRunningMinutes t)) (ofZ totalAvailableMinutes)
    else Some 0 in
  let quality :=
    if (0 <? totalUnitsProduced)%Z
    then jsdiv (ofZ (totalUnitsProduced - totalDefectiveUnits))
           (ofZ totalUnitsProduced)
    else Some 0 in
  let totalExpectedUnits :=
    secondPass db productionRecords (totalExpectedUnits t) in
  let performance :=
    if positive totalExpectedUnits
    then jsdiv (ofZ totalUnitsProduced) totalExpectedUnits
    else Some 0 in
  let oee := jsmul (jsmul availability quality) performance in
  let mtbf :=
    if (0 <? breakdownStoppages t)%Z
    then jsdiv (ofZ (totalRunningMinutes t)) (ofZ (breakdownStoppages t))
    else Some 0 in
  let mttr :=
    if (0 <? breakdownStoppages t)%Z
    then jsdiv (ofZ (totalBreakdownMinutes t)) (ofZ (breakdownStoppages t))
    else Some 0 in
  {| totalUnitsProduced := totalUnitsProduced;
     totalDefectiveUnits := totalDefectiveUnits;
     totals := t;
     expectedUnits := totalExpectedUnits;
     availability := availability;
     quality := quality;
     performance := performance;
     oee := oee;
     mtbf := mtbf;
     mttr := mttr |}.

Definition statsReply (machine : Machine) (r : Ratios) : Stats :=
  {| st_totalUnitsProduced := totalUnitsProduced r;
     st_totalDefectiveUnits := totalDefectiveUnits r;
     st_oee := roundPercent (oee r);
     st_mtbf := round (mtbf r);
     st_mttr := round (mttr r);
     st_availability := roundPercent (availability r);
     st_quality := roundPercent (quality r);
     st_performance := roundPercent (performance r);
     st_currentStatus := m_status machine;
     st_totalRunningMinutes := totalRunningMinutes (totals r);
     st_totalStoppageMinutes := totalStoppageMinutes (totals r);
     st_breakdownStoppages := breakdownStoppages (totals r);
     st_totalBreakdownMinutes := totalBreakdownMinutes (totals r) |}.

(** The start of the window for a period; an unknown period leaves the
    start at the end. *)
Definition periodStart (period : string) (endDate : Z) : Z :=
  if String.eqb period "24h" then (endDate - 24 * HOUR)%Z
  else if String.eqb period "7d" then (endDate - 7 * DAY)%Z
  else if String.eqb period "30d" then (endDate - 30 * DAY)%Z
  else endDate.

Definition getMachineStats (db : Db) (user : User) (machineId : ObjectId)
  (period : option string) (now : Z) : Reply * Db :=
  match checkAccess db user machineId with
  | inr reply => (reply, db)
  | inl machine =>
      let endDate := now in
      let startDate := periodStart (default "24h" period) endDate in
      let productionRecords := findRecords db machineId startDate endDate in
      ((200, StatsBody (statsReply machine (computeStats db productionRecords))),
       db)
  end.

Local Close Scope Qc_scope.

(** ** Observers and the statements of the specification *)

(** The slot that [hourData] refers to once the find-or-create of the
    hour is done. *)
Definition targetSlot (hour : Z) (fresh : HourSlot) (hs : list HourSlot)
  : HourSlot :=
  match list_find (fun h => h_hour h = hour) hs with
  | Some (_, h) => h
  | None => fresh
  end.

(** The slot a stoppage submission works on, before it is changed. *)
Definition stoppageTarget (db : Db) (rq : StoppageRequest) : HourSlot :=
  targetSlot (sq_hour rq) (newStoppageSlot (sq_hour rq))
    (r_hourlyData (findOrCreate db (sq_machineId rq) (sq_date rq))).

(** The slot of an hour of a day of a machine, as stored. *)
Definition slotOf (db : Db) (machineId : ObjectId) (date hour : Z)
  : option HourSlot :=
  findOne db machineId date ≫= fun found =>
    snd <$> list_find (fun h => h_hour h = hour) (r_hourlyData found.2).

(** The slot of its hour that a stoppage submission leaves in the record:
    the slot it found, after its writes, or the slot as it was pushed. *)
Definition stoppageSlot (db : Db) (rq : StoppageRequest) (t1 t2 : Z)
  : HourSlot :=
  match slotOf db (sq_machineId rq) (sq_date rq) (sq_hour rq) with
  | Some h => stoppageOnSlot rq t1 t2 h
  | None => newStoppageSlot (sq_hour rq)
  end.

(** [sum] of a list of integers. *)
Definition sumZ (l : list Z) : Z := foldr Z.add 0 l.

(** A SAP notification number that the validation turns down: missing,
    blank once trimmed, or with a character that is not a digit left
    after trimming. *)
Definition sapRejected (sap : option string) : Prop :=
  match sap with
  | None => True
  | Some s => Js.trim s = "" ∨ Js.allDigits (Js.trim s) = false
  end.

(** ** Concrete stores and requests *)

Definition emptyDb : Db :=
  {| machines := ∅; molds := ∅; users := []; config := None; records := [] |}.

(** A pending stoppage that began at 08:00 of day 19723. *)
Definition pendingStop : Stoppage :=
  {| s_id := Some "p1"; s_reason := "unclassified"; s_description := None;
     s_startTime := Some (19723 * DAY + 8 * HOUR); s_endTime := None;
     s_duration := Some 0; s_isPending := true; s_isClassified := false;
     s_sapNotificationNumber := None |}.

Definition pendingSlot : HourSlot :=
  {| h_hour := 8; h_unitsProduced := Some 0; h_defectiveUnits := Some 0;
     h_status := Some "stoppage"; h_runningMinutes := Some 0;
     h_stoppageMinutes := Some 0; h_operatorId := None; h_moldId := None;
     h_stoppages := [pendingStop] |}.

Definition pendingDb : Db :=
  {| machines := ∅; molds := ∅; users := []; config := None;
     records :=
       [ {| r_machineId := "m1"; r_startTime := 19723 * DAY;
            r_unitsProduced := 0; r_defectiveUnits := 0;
            r_operatorId := None; r_moldId := None;
            r_hourlyData := [pendingSlot] |} ] |}.

(** Ten minutes after the pending stoppage began. *)
Definition pendingNow : Z := 19723 * DAY + 8 * HOUR + 10 * MINUTE.

Definition finalizeRq : StoppageRequest :=
  {| sq_machineId := "m1"; sq_hour := 8; sq_date := 19723;
     sq_reason := "other"; sq_description := None; sq_duration := 0;
     sq_pendingStoppageId := Some "p1"; sq_sapNotificationNumber := None |}.

Definition missingRq : StoppageRequest :=
  {| sq_machineId := "m1"; sq_hour := 8; sq_date := 19723;
     sq_reason := "other"; sq_description := None; sq_duration := 15;
     sq_pendingStoppageId := Some "gone"; sq_sapNotificationNumber := None |}.

(** A store whose hour 8 has one classified stoppage of 5 minutes, with
    the minutes of the slot in step. *)
Definition classifiedStop : Stoppage :=
  {| s_id := Some "s1"; s_reason := "other"; s_description := None;
     s_startTime := Some (19723 * DAY + 8 * HOUR);
     s_endTime := Some (19723 * DAY + 8 * HOUR + 5 * MINUTE);
     s_duration := Some 5; s_isPending := false; s_isClassified := true;
     s_sapNotificationNumber := None |}.

Definition classifiedSlot : HourSlot :=
  {| h_hour := 8; h_unitsProduced := Some 0; h_defectiveUnits := Some 0;
     h_status := Some "stoppage"; h_runningMinutes := Some 0;
     h_stoppageMinutes := Some 5; h_operatorId := None; h_moldId := None;
     h_stoppages := [classifiedStop] |}.

Definition classifiedDb : Db :=
  {| machines := ∅; molds := ∅; users := []; config := None;
     records :=
       [ {| r_machineId := "m1"; r_startTime := 19723 * DAY;
            r_unitsProduced := 0; r_defectiveUnits := 0;
            r_operatorId := None; r_moldId := None;
            r_hourlyData := [classifiedSlot] |} ] |}.

Definition breakdownRq (sap : option string) : StoppageRequest :=
  {| sq_machineId := "m1"; sq_hour := 8; sq_date := 19723;
     sq_reason := "breakdown"; sq_description := None; sq_duration := 10;
     sq_pendingStoppageId := None; sq_sapNotificationNumber := sap |}.

Definition lettersRq : StoppageRequest := breakdownRq (Some "ABC123").
Definition paddedRq : StoppageRequest := breakdownRq (Some " 123").

(** The selection of the pending stoppage in the words of the
    specification: the stoppage with the referenced id, or, if there is
    none, the first unclassified one. *)
Definition specSelect (p : string) (ss : list Stoppage)
  : option (nat * Stoppage) :=
  match list_find (fun s => s_id s = Some p) ss with
  | Some x => Some x
  | None => list_find (fun s => s_reason s = "unclassified") ss
  end.

(** A second pending stoppage of the same hour, begun at 08:05. *)
Definition laterStop : Stoppage :=
  {| s_id := Some "p2"; s_reason := "unclassified"; s_description := None;
     s_startTime := Some (19723 * DAY + 8 * HOUR + 5 * MINUTE);
     s_endTime := None;
     s_duration := Some 0; s_isPending := true; s_isClassified := false;
     s_sapNotificationNumber := None |}.

Definition twoPendingDb : Db :=
  {| machines := ∅; molds := ∅; users := []; config := None;
     records :=
       [ {| r_machineId := "m1"; r_startTime := 19723 * DAY;
            r_unitsProduced := 0; r_defectiveUnits := 0;
            r_operatorId := None; r_moldId := None;
            r_hourlyData :=
              [set_stoppages pendingSlot [pendingStop; laterStop]] |} ] |}.

Definition laterRq : StoppageRequest :=
  {| sq_machineId := "m1"; sq_hour := 8; sq_date := 19723;
     sq_reason := "other"; sq_description := None; sq_duration := 0;
     sq_pendingStoppageId := Some "p2"; sq_sapNotificationNumber := None |}.

Definition assignRq : AssignmentRequest :=
  {| aq_machineId := "m1"; aq_hour := 23; aq_date := 19723;
     aq_operatorId := None; aq_moldId := None;
     aq_defectiveUnits := Some 4; aq_applyToShift := true |}.

(** An assignment of 4 defective units to hour 8 alone. *)
Definition defectRq : AssignmentRequest :=
  {| aq_machineId := "m1"; aq_hour := 8; aq_date := 19723;
     aq_operatorId := None; aq_moldId := None;
     aq_defectiveUnits := Some 4; aq_applyToShift := false |}.

Definition anyUser : User := {| u_role := "admin"; u_departmentId := None |}.

(** The derived status in the words of the specification. *)
Definition specStatus (runningMinutes stoppageMinutes : Z) : string :=
  if (runningMinutes =? 0) && (stoppageMinutes =? 0) then "inactive"
  else if runningMinutes <? stoppageMinutes then "stoppage"
  else "running".

(** The derived status as the handler has it for all numbers: inactive
    when neither the running minutes nor the stoppage minutes are
    positive, else stoppage when the stoppage minutes exceed the running
    minutes, else running. *)
Definition statusRule (runningMinutes stoppageMinutes : Z) : string :=
  if (runningMinutes <=? 0) && (stoppageMinutes <=? 0) then "inactive"
  else if runningMinutes <? stoppageMinutes then "stoppage"
  else "running".

(** [x] is the first element of [l], in the order of the list, that
    satisfies [P]. *)
Definition firstSuch {A} (P : A → Prop) (l : list A) (x : A) : Prop :=
  ∃ i, l !! i = Some x ∧ P x
       ∧ ∀ j y, l !! j = Some y → (j < i)%nat → ¬ P y.

(** A record that a timeline of the machine read at [now] can show on the
    calendar day [date]: a record of the machine that starts within the
    seven days before [now] and on that day. *)
Definition shownOn (machineId : ObjectId) (now date : Z)
  (r : ProductionRecord) : Prop :=
  r_machineId r = machineId
  ∧ now - 7 * DAY ≤ r_startTime r ≤ now
  ∧ date * DAY ≤ r_startTime r < date * DAY + DAY.

(** The record of a day in the timeline: the first stored record shown on
    that day, or none when there is no such record. *)
Definition dayRecordOf (db : Db) (machineId : ObjectId) (now date : Z)
  (dayRecord : option ProductionRecord) : Prop :=
  match dayRecord with
  | Some r => firstSuch (shownOn machineId now date) (records db) r
  | None => ∀ r, r ∈ records db → ¬ shownOn machineId now date r
  end.

(** The slot of an hour in the record of a day: the first slot of that
    hour, or none when the day has no record or the record no such slot. *)
Definition hourSlotOf (dayRecord : option ProductionRecord) (hour : Z)
  (hourData : option HourSlot) : Prop :=
  match hourData with
  | Some h =>
      ∃ r, dayRecord = Some r
           ∧ firstSuch (fun h => h_hour h = hour) (r_hourlyData r) h
  | None =>
      ∀ r, dayRecord = Some r → ∀ h, h ∈ r_hourlyData r → h_hour h ≠ hour
  end.

(** The zero-filled entry of an hour. *)
Definition emptyHour (hour : Z) : TimelineHour :=
  {| t_hour := hour; t_unitsProduced := 0; t_defectiveUnits := 0;
     t_status := "inactive"; t_operator := None; t_mold := None;
     t_stoppages := []; t_runningMinutes := 0; t_stoppageMinutes := 0 |}.

(** What the timeline says of an hour, given the slot of that hour when
    the day has one: without a slot everything is zero and the status is
    inactive; with one, the entry has the counters and the stoppages of
    the slot, the minutes of stoppage are the sum of the durations of its
    stoppages, an explicit status is kept, and without one the status is
    derived from the minutes by [statusRule]. *)
Definition hourEntrySpec (hourData : option HourSlot) (e : TimelineHour)
  : Prop :=
  match hourData with
  | None =>
      t_unitsProduced e = 0 ∧ t_defectiveUnits e = 0
      ∧ t_status e = "inactive" ∧ t_stoppages e = []
      ∧ t_runningMinutes e = 0 ∧ t_stoppageMinutes e = 0
  | Some h =>
      t_unitsProduced e = Js.or0 (h_unitsProduced h)
      ∧ t_defectiveUnits e = Js.or0 (h_defectiveUnits h)
      ∧ t_stoppages e = h_stoppages h
      ∧ t_runningMinutes e = Js.or0 (h_runningMinutes h)
      ∧ t_stoppageMinutes e
        = sumZ ((fun s => Js.or0 (s_duration s)) <$> h_stoppages h)
      ∧ (∀ s, h_status h = Some s → s ≠ "" → t_status e = s)
      ∧ (Js.truthy (h_status h) = false →
         t_status e = statusRule (t_runningMinutes e) (t_stoppageMinutes e))
  end.

(** A 22:00 to 06:00 shift. *)
Definition nightShift : Shift :=
  {| sh_startTime := "22:00"; sh_endTime := "06:00" |}.

(** The user and the mold that a reference resolves to: the first stored
    user with the id of the reference, the stored mold with that id.  A
    missing reference resolves to nothing, and so does a reference to a
    document that is not stored. *)
Definition resolvesUser (db : Db) (ref : option ObjectId) (u : UserDoc)
  : Prop :=
  ∃ id, ref = Some id ∧ firstSuch (fun u => ud_id u = id) (users db) u.

Definition resolvesMold (db : Db) (ref : option ObjectId) (m : Mold) : Prop :=
  ∃ id, ref = Some id ∧ molds db !! id = Some m.

(** The emitted operator or mold of an hour, given what the reference of
    the slot and the reference of the record resolve to: the value of the
    slot when there is one, the value of the record otherwise, and nothing
    only when there is neither. *)
Definition fallbackSpec {A} (slotValue recordValue : A → Prop)
  (emitted : option A) : Prop :=
  (∀ v, slotValue v → emitted = Some v)
  ∧ ((∀ v, ¬ slotValue v) → ∀ v, emitted = Some v ↔ recordValue v)
  ∧ (emitted = None ↔ (∀ v, ¬ slotValue v) ∧ (∀ v, ¬ recordValue v)).

(** A store with one machine, one mold, one operator and one day of
    production: hour 8 has its own operator and no mold, and carries no
    status of its own. *)
Definition plantSlot : HourSlot :=
  {| h_hour := 8; h_unitsProduced := Some 90; h_defectiveUnits := Some 2;
     h_status := None; h_runningMinutes := Some 50;
     h_stoppageMinutes := Some 0; h_operatorId := Some "u1"; h_moldId := None;
     h_stoppages :=
       [ {| s_id := Some "s1"; s_reason := "other"; s_description := None;
            s_startTime := Some (19723 * DAY + 8 * HOUR); s_endTime := None;
            s_duration := Some 10; s_isPending := false;
            s_isClassified := true; s_sapNotificationNumber := None |} ] |}.

Definition plantRecord : ProductionRecord :=
  {| r_machineId := "m1"; r_startTime := 19723 * DAY;
     r_unitsProduced := 90; r_defectiveUnits := 2;
     r_operatorId := Some "u2"; r_moldId := Some "k1";
     r_hourlyData := [plantSlot] |}.

Definition plantDb : Db :=
  {| machines :=
       {[ "m1" := {| m_name := "Press 1"; m_status := "running";
                     m_departmentId := Some "d1" |} ]};
     molds := {[ "k1" := {| productionCapacityPerHour := Some 120 |} ]};
     users := [ {| ud_id := "u1"; ud_username := "ann" |};
                {| ud_id := "u2"; ud_username := "bob" |} ];
     config := Some [nightShift];
     records := [plantRecord] |}.

(** Noon of the day of [plantRecord]. *)
Definition plantNow : Z := 19723 * DAY + 12 * HOUR.

(** The same plant when hour 8 did not run, has no status of its own, and
    carries one stoppage whose stored duration is negative. *)
Definition negativeSlot : HourSlot :=
  {| h_hour := 8; h_unitsProduced := Some 0; h_defectiveUnits := Some 0;
     h_status := None; h_runningMinutes := Some 0;
     h_stoppageMinutes := Some 0; h_operatorId := None; h_moldId := None;
     h_stoppages :=
       [ {| s_id := Some "s1"; s_reason := "other"; s_description := None;
            s_startTime := Some (19723 * DAY + 8 * HOUR); s_endTime := None;
            s_duration := Some (-5); s_isPending := false;
            s_isClassified := true; s_sapNotificationNumber := None |} ] |}.

Definition negativeDb : Db :=
  {| machines := machines plantDb; molds := molds plantDb;
     users := users plantDb; config := config plantDb;
     records := [set_hourlyData plantRecord [negativeSlot]] |}.

(** The same plant when the operator of hour 8 is a user that is no
    longer stored. *)
Definition danglingSlot : HourSlot :=
  {| h_hour := 8; h_unitsProduced := Some 90; h_defectiveUnits := Some 2;
     h_status := None; h_runningMinutes := Some 50;
     h_stoppageMinutes := Some 0; h_operatorId := Some "u9";
     h_moldId := None; h_stoppages := [] |}.

Definition danglingDb : Db :=
  {| machines := machines plantDb; molds := molds plantDb;
     users := users plantDb; config := config plantDb;
     records := [set_hourlyData plantRecord [danglingSlot]] |}.

(** What an assignment may do to a slot: leave it as it is or, when it
    is a slot of the requested hour, overwrite its defective units. *)
Definition keptSlot (hour : Z) (defectiveUnits : option Z) (h h' : HourSlot)
  : Prop :=
  h' = h ∨ (h_hour h = hour ∧ h' = set_h_defectiveUnits h defectiveUnits).

(** A slot that the assignment created: the fresh slot of its hour with
    the operator and the mold of the request, up to [keptSlot]. *)
Definition createdSlot (hour : Z) (defectiveUnits : option Z)
  (validOperatorId validMoldId : option ObjectId) (h' : HourSlot) : Prop :=
  keptSlot hour defectiveUnits
    (newAssignmentSlot (h_hour h') validOperatorId validMoldId) h'.

(** An assignment for the whole shift of hour 23, given by user name. *)
Definition shiftRq : AssignmentRequest :=
  {| aq_machineId := "m1"; aq_hour := 23; aq_date := 19723;
     aq_operatorId := Some "ann"; aq_moldId := None;
     aq_defectiveUnits := Some 4; aq_applyToShift := true |}.

(** [sum] of a list of rationals. *)
Definition sumQc (l : list Qc) : Qc := foldr Qcplus 0%Qc l.

(** All the hour slots of a record set, and all their stoppages. *)
Definition allHours (productionRecords : list ProductionRecord)
  : list HourSlot :=
  productionRecords ≫= r_hourlyData.

Definition allStoppages (productionRecords : list ProductionRecord)
  : list Stoppage :=
  allHours productionRecords ≫= h_stoppages.

(** The stoppages whose reason is breakdown. *)
Definition breakdowns (productionRecords : list ProductionRecord)
  : list Stoppage :=
  filter (fun s => s_reason s = "breakdown") (allStoppages productionRecords).

(** The capacity per hour of the mold assigned to a slot, when the slot
    has a mold that has one. *)
Definition rawCapacity (db : Db) (h : HourSlot) : option Z :=
  populateMold db (h_moldId h) ≫= productionCapacityPerHour.

(** The two contributions of an hour to the expected units in the words of
    the specification: the capacity per minute times the running minutes,
    and the flat capacity per hour. *)
Definition runningShare (db : Db) (h : HourSlot) : Qc :=
  match rawCapacity db h with
  | Some c => (ofZ c / ofZ 60 * ofZ (Js.or0 (h_runningMinutes h)))%Qc
  | None => 0%Qc
  end.

Definition flatShare (db : Db) (h : HourSlot) : Qc :=
  match rawCapacity db h with
  | Some c => ofZ c
  | None => 0%Qc
  end.

(** The scenario of the specification: eight hours of 60 running minutes
    with a mold of 120 units per hour, 1000 units produced, 50 defective,
    and two hours that also carry a 60 minute stoppage. *)
Definition shiftHour (hour : Z) (stopped : Z) : HourSlot :=
  {| h_hour := hour; h_unitsProduced := Some 125; h_defectiveUnits := Some 0;
     h_status := Some "running"; h_runningMinutes := Some 60;
     h_stoppageMinutes := Some stopped; h_operatorId := None;
     h_moldId := Some "k1"; h_stoppages := [] |}.

Definition oeeRecord : ProductionRecord :=
  {| r_machineId := "m1"; r_startTime := 19723 * DAY;
     r_unitsProduced := 1000; r_defectiveUnits := 50;
     r_operatorId := None; r_moldId := None;
     r_hourlyData :=
       [shiftHour 8 60; shiftHour 9 60; shiftHour 10 0; shiftHour 11 0;
        shiftHour 12 0; shiftHour 13 0; shiftHour 14 0; shiftHour 15 0] |}.

(** ** The timeline component and its forms: [ProductionTimeline.tsx] *)

(** The background colour of an hour cell. *)
Definition getStatusColor (isDarkMode : bool) (status : string)
  (hasStoppages : bool) : string :=
  if hasStoppages then (if isDarkMode then "bg-red-600" else "bg-red-500")
  else if String.eqb status "running"
  then (if isDarkMode then "bg-green-600" else "bg-green-500")
  else if String.eqb status "stoppage"
  then (if isDarkMode then "bg-red-600" else "bg-red-500")
  else if String.eqb status "stopped_yet_producing"
  then (if isDarkMode then "bg-orange-600" else "bg-orange-500")
  else if String.eqb status "inactive"
  then (if isDarkMode then "bg-gray-600" else "bg-gray-400")
  else (if isDarkMode then "bg-gray-600" else "bg-gray-400").

(** [getStatusColor(hour.status, hour.stoppages.length > 0)], the colour
    of the cell of a timeline entry. *)
Definition hourColor (isDarkMode : bool) (e : TimelineHour) : string :=
  getStatusColor isDarkMode (t_status e)
    (0 <? Z.of_nat (length (t_stoppages e))).

(** The state of the stoppage form. *)
Record StoppageForm := {
  f_reason : string;
  f_description : string;
  f_duration : Z;
  f_sapNotificationNumber : string
}.

(** The [disabled] attribute of the button that submits the form. *)
Definition submitDisabled (f : StoppageForm) : bool :=
  String.eqb (f_reason f) ""
  || (f_duration f =? 0)
  || (String.eqb (f_reason f) "breakdown"
      && String.eqb (f_sapNotificationNumber f) "").

(** [handleAddStoppage]: the form with the machine and the selected hour
    of the selected day; the component sends no pending reference. *)
Definition stoppageData (f : StoppageForm) (machineId : ObjectId)
  (day hour : Z) : StoppageRequest :=
  {| sq_machineId := machineId; sq_hour := hour; sq_date := day;
     sq_reason := f_reason f; sq_description := Some (f_description f);
     sq_duration := f_duration f; sq_pendingStoppageId := None;
     sq_sapNotificationNumber := Some (f_sapNotificationNumber f) |}.

(** ** The API client and the machine view: [api.ts], [MachineView.tsx] *)

(** [response.ok]: the status is in the range 200 to 299. *)
Definition responseOk (status : Z) : bool :=
  (200 <=? status) && (status <=? 299).

(** The [message] of a parsed body, when it has one. *)
Definition bodyMessage (b : Body) : option string :=
  match b with
  | Message m => Some m
  | _ => None
  end.

(** [ApiService.request] on the reply of the server: the parsed body, or
    the message of the error that is thrown. *)
Definition request (reply : Reply) : Body + string :=
  if responseOk reply.1 then inl reply.2
  else inr (Js.str_or (bodyMessage reply.2) ("HTTP " +:+ pretty reply.1)).

(** What the machine view shows after a write. *)
Inductive Toast :=
  | ToastSuccess (msg : string)
  | ToastError (msg : string).

(** [{...stoppage, machineId: id}]. *)
Definition withMachineId (stoppage : StoppageRequest) (id : ObjectId)
  : StoppageRequest :=
  {| sq_machineId := id; sq_hour := sq_hour stoppage;
     sq_date := sq_date stoppage; sq_reason := sq_reason stoppage;
     sq_description := sq_description stoppage;
     sq_duration := sq_duration stoppage;
     sq_pendingStoppageId := sq_pendingStoppageId stoppage;
     sq_sapNotificationNumber := sq_sapNotificationNumber stoppage |}.

(** [MachineView.handleAddStoppage] against the server: the toast shown
    and the store after the request. *)
Definition handleAddStoppage (db : Db) (id : ObjectId)
  (stoppage : StoppageRequest) (t1 t2 : Z) : Toast * Db :=
  let served := postStoppage db (withMachineId stoppage id) t1 t2 in
  match request served.1 with
  | inl _ => (ToastSuccess "Stoppage recorded successfully", served.2)
  | inr message => (ToastError message, served.2)
  end.

(** The state of the production form. *)
Record ProductionForm := {
  pf_operatorId : string;
  pf_moldId : string;
  pf_defectiveUnits : Z;
  pf_applyToShift : bool
}.

(** [{machineId, hour, date, ...data}]. *)
Definition productionData (machineId : ObjectId) (hour date : Z)
  (data : ProductionForm) : AssignmentRequest :=
  {| aq_machineId := machineId; aq_hour := hour; aq_date := date;
     aq_operatorId := Some (pf_operatorId data);
     aq_moldId := Some (pf_moldId data);
     aq_defectiveUnits := Some (pf_defectiveUnits data);
     aq_applyToShift := pf_applyToShift data |}.

(** [MachineView.handleUpdateProduction] against the server. *)
Definition handleUpdateProduction (db : Db) (machineId : ObjectId)
  (hour date : Z) (data : ProductionForm) : Toast * Db :=
  let served := postAssignment db (productionData machineId hour date data) in
  match request served.1 with
  | inl _ => (ToastSuccess "Production data updated", served.2)
  | inr message => (ToastError message, served.2)
  end.

(** The statistics of a machine without any record in the window. *)
Definition zeroStats (status : string) : Stats :=
  {| st_totalUnitsProduced := 0; st_totalDefectiveUnits := 0;
     st_oee := Some 0; st_mtbf := Some 0; st_mttr := Some 0;
     st_availability := Some 0; st_quality := Some 0;
     st_performance := Some 0; st_currentStatus := status;
     st_totalRunningMinutes := 0; st_totalStoppageMinutes := 0;
     st_breakdownStoppages := 0; st_totalBreakdownMinutes := 0 |}.

(** ** Invariants and observers of the store *)

(** The hours of the slots of a record. *)
Definition hoursOf (r : ProductionRecord) : list Z :=
  h_hour <$> r_hourlyData r.

(** Every record of the store has at most one slot per hour. *)
Definition distinctHours (db : Db) : Prop :=
  ∀ r, r ∈ records db → NoDup (hoursOf r).

(** The parts of the store that are not the production records. *)
Definition sameCollections (db db' : Db) : Prop :=
  machines db' = machines db ∧ molds db' = molds db
  ∧ users db' = users db ∧ config db' = config db.

(** The fields of a record that are not its hour slots. *)
Definition sameHeader (r r' : ProductionRecord) : Prop :=
  r_machineId r' = r_machineId r ∧ r_startTime r' = r_startTime r
  ∧ r_unitsProduced r' = r_unitsProduced r
  ∧ r_operatorId r' = r_operatorId r ∧ r_moldId r' = r_moldId r.

(** A slot that, if it is a slot of the requested hour and the request
    gives defective units, has these defective units. *)
Definition carriesDefective (hour : Z) (defectiveUnits : option Z)
  (h : HourSlot) : Prop :=
  h_hour h = hour → is_Some defectiveUnits →
  h_defectiveUnits h = defectiveUnits.

(** An operator given in the request that is neither a well-formed id
    nor the name of a user, and a mold given in the request that is not a
    well-formed id. *)
Definition operatorUnknown (db : Db) (operatorId : option string) : Prop :=
  provided operatorId = true
  ∧ isValidObjectId (default "" operatorId) = false
  ∧ ∀ u, u ∈ users db → ud_username u ≠ default "" operatorId.

Definition moldMalformed (moldId : option string) : Prop :=
  provided moldId = true ∧ isValidObjectId (default "" moldId) = false.

(** The red of a cell. *)
Definition red (isDarkMode : bool) : string :=
  if isDarkMode then "bg-red-600" else "bg-red-500".

(** * Properties *)

(** ** The store *)

Section Store.

Lemma onDay_newRecord machineId date : onDay machineId date (newRecord machineId date).
Proof. unfold onDay, newRecord; cbn [r_machineId r_startTime].
  split; [done|]. unfold DAY. lia.
Qed.

Lemma findOrCreate_onDay db machineId date :
  onDay machineId date (findOrCreate db machineId date).
Proof.
  unfold findOrCreate, findOne.
  destruct (list_find _ _) as [[i r]|] eqn:E.
  - apply list_find_Some in E. tauto.
  - apply onDay_newRecord.
Qed.

(** A saved record is the one a later [findOne] of the same machine and
    day returns. *)
Lemma findOne_save db machineId date r :
  onDay machineId date r →
  ∃ i, findOne (save db (findOne db machineId date) r) machineId date
       = Some (i, r).
Proof.
  intros Hr. unfold findOne at 2.
  destruct (list_find _ _) as [[i r0]|] eqn:E; unfold findOne; simpl.
  - apply list_find_Some in E as (Hl & _ & Hlt).
    exists i. apply list_find_Some. split; [|split]; [|done|].
    + apply list_lookup_insert_eq. by eapply lookup_lt_Some.
    + intros j y Hj Hji. rewrite list_lookup_insert_ne in Hj by lia. eauto.
  - exists (length (records db)). apply list_find_app_Some. right.
    split; [lia|]. split; [done|].
    rewrite Nat.sub_diag. simpl. by rewrite decide_True.
Qed.

(** The stored slot of an hour is the first slot of that hour in the
    record that the write handlers find or create, and after a write the
    first slot of that hour in the record that was saved. *)
Lemma slotOf_findOrCreate db machineId date x :
  slotOf db machineId date x
  = snd <$> list_find (fun h => h_hour h = x)
              (r_hourlyData (findOrCreate db machineId date)).
Proof.
  unfold slotOf, findOrCreate.
  by destruct (findOne db machineId date) as [[i r]|].
Qed.

Lemma slotOf_hour db machineId date x h :
  slotOf db machineId date x = Some h → h_hour h = x.
Proof.
  rewrite slotOf_findOrCreate.
  destruct (list_find _ _) as [[i h']|] eqn:E; [|done].
  intros [= <-]. apply list_find_Some in E. tauto.
Qed.

Lemma slotOf_save db machineId date r x :
  onDay machineId date r →
  slotOf (save db (findOne db machineId date) r) machineId date x
  = snd <$> list_find (fun h => h_hour h = x) (r_hourlyData r).
Proof.
  intros Hr. destruct (findOne_save db machineId date r Hr) as [i Hi].
  unfold slotOf. by rewrite Hi.
Qed.

(** With an existing record the collection keeps its length, and the
    documents at the other places are untouched. *)
Lemma save_other db found r j :
  (∀ i r0, found = Some (i, r0) → j ≠ i) →
  (j < length (records db))%nat →
  records (save db found r) !! j = records db !! j.
Proof.
  intros Hne Hj. destruct found as [[i r0]|]; simpl.
  - apply list_lookup_insert_ne. intros ->. by eapply Hne.
  - by apply lookup_app_l.
Qed.

End Store.

(** ** Find-or-create of an hour slot *)

Section Slots.

Implicit Types (hs : list HourSlot) (h : HourSlot).

(** A slot pushed for an hour that had none is the first slot of that
    hour. *)
Lemma list_find_pushed hour fresh hs :
  h_hour fresh = hour →
  list_find (fun h => h_hour h = hour) hs = None →
  list_find (fun h => h_hour h = hour) (hs ++ [fresh])
  = Some (length hs, fresh).
Proof.
  intros Hf E. apply list_find_app_Some. right. split; [lia|]. split; [done|].
  rewrite Nat.sub_diag. simpl. by rewrite decide_True.
Qed.

Lemma findOrPushSlot_find hour fresh hs :
  h_hour fresh = hour →
  ∃ i, list_find (fun h => h_hour h = hour) (findOrPushSlot hour fresh hs).2
       = Some (i, targetSlot hour fresh hs).
Proof.
  intros Hf. unfold findOrPushSlot, targetSlot.
  destruct (list_find _ hs) as [[i h]|] eqn:E; simpl; [by exists i|].
  exists (length hs). by apply list_find_pushed.
Qed.

(** Pushing a slot of another hour does not change which slot is the
    first of an hour. *)
Lemma list_find_pushed_other hour fresh hs :
  h_hour fresh ≠ hour →
  list_find (fun h => h_hour h = hour) (hs ++ [fresh])
  = list_find (fun h => h_hour h = hour) hs.
Proof.
  intros Hf. induction hs as [|x hs IH]; cbn.
  - by rewrite decide_False.
  - destruct (decide (h_hour x = hour)); [done|]. by rewrite IH.
Qed.

Lemma list_find_alter_hour hour (f : HourSlot → HourSlot) hs i h :
  (∀ x, h_hour (f x) = h_hour x) →
  list_find (fun h => h_hour h = hour) hs = Some (i, h) →
  list_find (fun h => h_hour h = hour) (alter f i hs) = Some (i, f h).
Proof.
  intros Hf (Hl & HP & Hlt)%list_find_Some.
  apply list_find_Some. split; [|split].
  - by rewrite list_lookup_alter_eq, Hl.
  - by rewrite Hf.
  - intros j y Hj Hji. rewrite list_lookup_alter_ne in Hj by lia. eauto.
Qed.

End Slots.

(** ** Stoppage submission *)

Section Stoppage.

Variables (db : Db) (rq : StoppageRequest) (t1 t2 : Z).

Local Abbreviation machineId := (sq_machineId rq).
Local Abbreviation date := (sq_date rq).
Local Abbreviation hour := (sq_hour rq).

Lemma stoppageOnSlot_hour h : h_hour (stoppageOnSlot rq t1 t2 h) = h_hour h.
Proof.
  unfold stoppageOnSlot.
  destruct (Js.truthy _); [destruct (list_find _ _) as [[??]|]|]; done.
Qed.

Lemma stoppageRecord_onDay :
  onDay machineId date (stoppageRecord db rq t1 t2).
Proof.
  pose proof (findOrCreate_onDay db machineId date) as H.
  unfold stoppageRecord. destruct (findOrPushSlot _ _ _). exact H.
Qed.

Lemma stoppageTarget_slotOf :
  stoppageTarget db rq = default (newStoppageSlot hour) (slotOf db machineId date hour).
Proof.
  rewrite slotOf_findOrCreate. unfold stoppageTarget, targetSlot.
  by destruct (list_find _ _) as [[i h]|].
Qed.

(** A target slot that has stoppages is a stored slot. *)
Lemma stoppageTarget_stored :
  h_stoppages (stoppageTarget db rq) ≠ [] →
  slotOf db machineId date hour = Some (stoppageTarget db rq).
Proof.
  rewrite stoppageTarget_slotOf.
  by destruct (slotOf db machineId date hour).
Qed.

Lemma stoppageRecord_slot :
  ∃ i, list_find (fun h => h_hour h = hour)
         (r_hourlyData (stoppageRecord db rq t1 t2))
       = Some (i, stoppageSlot db rq t1 t2).
Proof.
  unfold stoppageSlot. rewrite slotOf_findOrCreate.
  unfold stoppageRecord, findOrPushSlot.
  generalize (findOrCreate db machineId date). intros r.
  destruct (list_find (fun h => h_hour h = hour) (r_hourlyData r))
    as [[i h]|] eqn:E;
    cbn [r_hourlyData set_hourlyData writeHourData fmap option_fmap option_map snd].
  - exists i. apply list_find_alter_hour; [apply stoppageOnSlot_hour|done].
  - eexists. by apply list_find_pushed.
Qed.

(** A submission that passes the validation is answered 201, and the
    stored slot of its hour is then [stoppageSlot]. *)
Lemma postStoppage_slot :
  sapMissing rq = false → sapMalformed rq = false →
  (postStoppage db rq t1 t2).1 = (201, Message "Stoppage recorded successfully")
  ∧ slotOf (postStoppage db rq t1 t2).2 machineId date hour
    = Some (stoppageSlot db rq t1 t2).
Proof.
  intros H1 H2. unfold postStoppage. rewrite H1, H2. split; [done|].
  destruct (findOne_save db machineId date _ stoppageRecord_onDay) as [i Hi].
  destruct stoppageRecord_slot as [j Hj].
  unfold slotOf. simpl. rewrite Hi. simpl.
  by rewrite Hj.
Qed.

End Stoppage.

(** ** Sums *)

Section Sums.

Lemma fold_left_add_shift {A} (f : A → Z) (l : list A) (a : Z) :
  fold_left (fun sum x => sum + f x) l a = a + sumZ (f <$> l).
Proof.
  revert a. induction l as [|x l IH]; intros a; cbn [fold_left fmap list_fmap].
  - unfold sumZ. cbn [foldr]. lia.
  - rewrite IH. unfold sumZ. cbn [foldr]. lia.
Qed.

Lemma sumDurations_sumZ ss :
  sumDurations ss = sumZ ((fun s => Js.or0 (s_duration s)) <$> ss).
Proof. unfold sumDurations. by rewrite fold_left_add_shift. Qed.

Lemma sumDefective_sumZ hs :
  sumDefective hs = sumZ ((fun h => Js.or0 (h_defectiveUnits h)) <$> hs).
Proof. unfold sumDefective. by rewrite fold_left_add_shift. Qed.

Lemma sumZ_app l1 l2 : sumZ (l1 ++ l2) = sumZ l1 + sumZ l2.
Proof. unfold sumZ. induction l1; cbn [foldr app]; lia. Qed.

Lemma sumZ_nonneg l : Forall (fun z => 0 ≤ z) l → 0 ≤ sumZ l.
Proof. unfold sumZ. induction 1; cbn [foldr]; lia. Qed.

End Sums.

(** ** Stoppage minutes after a submission (C1) *)

Section StoppageMinutes.

Variables (rq : StoppageRequest) (t1 t2 : Z).

(** Without a pending reference the submission appends and recomputes the
    minutes of the slot from its stoppages. *)
Lemma stoppageOnSlot_append_minutes h :
  Js.truthy (sq_pendingStoppageId rq) = false →
  h_stoppages (stoppageOnSlot rq t1 t2 h) = h_stoppages h ++ [newStoppage rq]
  ∧ h_stoppageMinutes (stoppageOnSlot rq t1 t2 h)
    = Some (sumZ ((fun s => Js.or0 (s_duration s))
                    <$> h_stoppages (stoppageOnSlot rq t1 t2 h))).
Proof.
  intros Hp. unfold stoppageOnSlot. rewrite Hp. simpl.
  by rewrite sumDurations_sumZ.
Qed.

(** With a pending reference neither branch writes the minutes of the
    slot: they stay as they were found. *)
Lemma stoppageOnSlot_pending_minutes h :
  Js.truthy (sq_pendingStoppageId rq) = true →
  h_stoppageMinutes (stoppageOnSlot rq t1 t2 h) = h_stoppageMinutes h.
Proof.
  intros Hp. unfold stoppageOnSlot. rewrite Hp.
  by destruct (list_find _ _) as [[??]|].
Qed.

End StoppageMinutes.

(** C1, at two submissions that carry a pending reference, each for an
    hour whose slot is stored.  The first finalizes the pending stoppage of
    hour 8 ten minutes after it began: the stoppage then lasts 10 minutes
    while the slot still says 0.  The second names a stoppage that the slot
    of hour 8 does not have: a 15 minute stoppage is appended to the one of
    5 minutes that is there, and the minutes of the slot stay 5.  In both
    the submission succeeds and [stoppageMinutes] differs from the sum of
    the durations of the stoppages of the slot. *)
Theorem recordStoppage_pending_leaves_minutes_stale :
  ((postStoppage pendingDb finalizeRq pendingNow pendingNow).1
     = (201, Message "Stoppage recorded successfully")
   ∧ ∃ h, slotOf (postStoppage pendingDb finalizeRq pendingNow pendingNow).2
            "m1" 19723 8 = Some h
          ∧ h_stoppageMinutes h = Some 0
          ∧ sumZ ((fun s => Js.or0 (s_duration s)) <$> h_stoppages h) = 10)
  ∧ ((postStoppage classifiedDb missingRq pendingNow pendingNow).1
       = (201, Message "Stoppage recorded successfully")
     ∧ ∃ h, slotOf (postStoppage classifiedDb missingRq pendingNow pendingNow).2
              "m1" 19723 8 = Some h
            ∧ h_stoppageMinutes h = Some 5
            ∧ sumZ ((fun s => Js.or0 (s_duration s)) <$> h_stoppages h) = 20).
Proof.
  split; (split; [reflexivity|]); eexists; (split; [vm_compute; reflexivity|]);
    split; reflexivity.
Qed.

(** ** Validation of the SAP notification number (C3) *)

Section Validation.

Variables (db : Db) (rq : StoppageRequest) (t1 t2 : Z).

Lemma validation_passes :
  sapMissing rq = false → sapMalformed rq = false →
  postStoppage db rq t1 t2
  = ((201, Message "Stoppage recorded successfully"),
     save db (findOne db (sq_machineId rq) (sq_date rq))
       (stoppageRecord db rq t1 t2)).
Proof. intros H1 H2. unfold postStoppage. by rewrite H1, H2. Qed.

Lemma not_breakdown_passes :
  sq_reason rq ≠ "breakdown" → sapMissing rq = false ∧ sapMalformed rq = false.
Proof.
  intros H%String.eqb_neq. unfold sapMissing, sapMalformed. by rewrite H.
Qed.

End Validation.

(** C3, as amended: a breakdown submission whose SAP notification number
    is missing, is blank once trimmed, or has a character that is not a
    digit left after trimming is answered 400 and the store is returned
    as it was. *)
Theorem breakdown_sap_rejected db rq t1 t2 :
  sq_reason rq = "breakdown" →
  sapRejected (sq_sapNotificationNumber rq) →
  ∃ msg, postStoppage db rq t1 t2 = ((400, Message msg), db).
Proof.
  intros Hr Hs. unfold postStoppage.
  destruct (sapMissing rq) eqn:H1; [eauto|].
  assert (sapMalformed rq = true) as ->; [|eauto].
  unfold sapMissing, sapMalformed in *. rewrite Hr in *. simpl in *.
  apply orb_false_iff in H1 as [Ht%negb_false_iff Hblank].
  rewrite Ht. simpl. apply negb_true_iff.
  destruct (sq_sapNotificationNumber rq) as [s|]; [|done]. simpl in *.
  unfold Js.digitsOnly. rewrite Hblank. simpl.
  destruct Hs as [Hs|Hs]; [|done].
  rewrite Hs in Hblank. done.
Qed.

Lemma breakdown_sap_rejected_witness :
  ∃ msg, postStoppage emptyDb lettersRq 0 0 = ((400, Message msg), emptyDb).
Proof.
  apply (breakdown_sap_rejected emptyDb lettersRq 0 0).
  - reflexivity.
  - right. reflexivity.
Defined.

(** C3 as stated fails: [" 123"] has a character that is not a digit, yet
    the submission is accepted and a record is written. *)
Lemma breakdown_sap_padded_accepted :
  Js.allDigits " 123" = false
  ∧ sq_reason paddedRq = "breakdown"
  ∧ sq_sapNotificationNumber paddedRq = Some " 123"
  ∧ (postStoppage emptyDb paddedRq 0 0).1
    = (201, Message "Stoppage recorded successfully")
  ∧ length (records (postStoppage emptyDb paddedRq 0 0).2) = 1%nat
  ∧ records emptyDb = [].
Proof. repeat split; reflexivity. Qed.

(** ** Finalizing a pending stoppage (C4) *)

(** C4, as amended: with a pending reference, the stoppage that is
    finalized is the first one of the slot that has the referenced id or
    is unclassified.  It is updated in place: the end time is the clock,
    the duration the whole minutes elapsed since its own start, whatever
    duration it had, it is no longer pending and it is classified. *)
Theorem pending_first_match_finalized db rq t1 t2 p i s :
  sapMissing rq = false → sapMalformed rq = false →
  sq_pendingStoppageId rq = Some p → p ≠ "" →
  h_stoppages (stoppageTarget db rq) !! i = Some s →
  pendingMatch p s →
  (∀ j s', h_stoppages (stoppageTarget db rq) !! j = Some s' →
           (j < i)%nat → ¬ pendingMatch p s') →
  ∃ h' s',
    slotOf (postStoppage db rq t1 t2).2
      (sq_machineId rq) (sq_date rq) (sq_hour rq) = Some h'
    ∧ h_stoppages h' = <[i := s']> (h_stoppages (stoppageTarget db rq))
    ∧ s_endTime s' = Some t2
    ∧ s_duration s' = (fun start => (t1 - start) `div` 60000) <$> s_startTime s
    ∧ s_isPending s' = false
    ∧ s_isClassified s' = true
    ∧ s_id s' = s_id s
    ∧ s_startTime s' = s_startTime s
    ∧ s_reason s' = sq_reason rq
    ∧ s_description s' = sq_description rq.
Proof.
  intros H1 H2 Hp Hne Hi Hm Hfirst.
  destruct (postStoppage_slot db rq t1 t2 H1 H2) as [_ Hslot].
  exists (stoppageOnSlot rq t1 t2 (stoppageTarget db rq)), (finalize rq t1 t2 s).
  split.
  { rewrite Hslot. unfold stoppageSlot.
    rewrite stoppageTarget_stored; [done|]. intros Hnil.
    by rewrite Hnil in Hi. }
  split; [|by repeat split].
  unfold stoppageOnSlot. rewrite Hp. simpl.
  apply String.eqb_neq in Hne. rewrite Hne. simpl.
  assert (list_find (pendingMatch p) (h_stoppages (stoppageTarget db rq))
          = Some (i, s)) as ->; [|done].
  apply list_find_Some. eauto.
Qed.

Lemma pending_first_match_finalized_witness :
  ∃ h' s',
    slotOf (postStoppage pendingDb finalizeRq pendingNow (pendingNow + 1)).2
      "m1" 19723 8 = Some h'
    ∧ h_stoppages h' = <[0%nat := s']> [pendingStop]
    ∧ s_endTime s' = Some (pendingNow + 1)
    ∧ s_duration s'
      = Some ((pendingNow - (19723 * DAY + 8 * HOUR)) `div` 60000)
    ∧ s_isPending s' = false
    ∧ s_isClassified s' = true
    ∧ s_id s' = Some "p1"
    ∧ s_startTime s' = s_startTime pendingStop
    ∧ s_reason s' = "other"
    ∧ s_description s' = None.
Proof.
  apply (pending_first_match_finalized pendingDb finalizeRq pendingNow
           (pendingNow + 1) "p1" 0%nat pendingStop).
  - reflexivity.
  - reflexivity.
  - reflexivity.
  - discriminate.
  - reflexivity.
  - left. reflexivity.
  - intros j s' _ Hj. lia.
Defined.

(** C4 as stated fails: the stoppage with the referenced id ["p2"] is in
    the slot, and it is the one the specification selects, yet the
    submission finalizes the unclassified stoppage before it and leaves the
    referenced one pending. *)
Lemma pending_id_match_shadowed :
  specSelect "p2" [pendingStop; laterStop] = Some (1%nat, laterStop)
  ∧ ∃ h, slotOf (postStoppage twoPendingDb laterRq pendingNow pendingNow).2
           "m1" 19723 8 = Some h
         ∧ h_stoppages h
           = [finalize laterRq pendingNow pendingNow pendingStop; laterStop]
         ∧ s_isPending laterStop = true.
Proof.
  split; [reflexivity|]. eexists. split; [vm_compute; reflexivity|].
  split; reflexivity.
Qed.

(** ** Unknown machines (C9) *)

Section UnknownMachine.

Variables (db : Db) (machineId : ObjectId).
Hypothesis Hunknown : machines db !! machineId = None.

Lemma checkAccess_unknown user :
  checkAccess db user machineId = inr (404, Message "Machine not found").
Proof. unfold checkAccess. by rewrite Hunknown. Qed.

End UnknownMachine.

Lemma assignmentRecord_onDay db rq op mold :
  onDay (aq_machineId rq) (aq_date rq) (assignmentRecord db rq op mold).
Proof. exact (findOrCreate_onDay db (aq_machineId rq) (aq_date rq)). Qed.

(** C9, as amended: the two read handlers answer 404 for a machine that
    does not resolve and leave the store as it is; the two write handlers
    do not look the machine up: a valid submission or assignment succeeds
    and saves a record under the given machine id. *)
Theorem unknown_machine_reads_fail_writes_save
  db machineId user now period rqS t1 t2 rqA op mold :
  machines db !! machineId = None →
  sq_machineId rqS = machineId → 0 ≤ sq_hour rqS < 24 →
  sapMissing rqS = false → sapMalformed rqS = false →
  aq_machineId rqA = machineId →
  resolveOperator db (aq_operatorId rqA) = inl op →
  resolveMold (aq_moldId rqA) = inl mold →
  getTimeline db user machineId now
  = ((404, Message "Machine not found"), db)
  ∧ getMachineStats db user machineId period now
    = ((404, Message "Machine not found"), db)
  ∧ (postStoppage db rqS t1 t2).1
    = (201, Message "Stoppage recorded successfully")
  ∧ (∃ i r, findOne (postStoppage db rqS t1 t2).2 machineId (sq_date rqS)
            = Some (i, r) ∧ r_machineId r = machineId)
  ∧ (postAssignment db rqA).1
    = (200, Message "Production assignment updated successfully")
  ∧ (∃ i r, findOne (postAssignment db rqA).2 machineId (aq_date rqA)
            = Some (i, r) ∧ r_machineId r = machineId).
Proof.
  intros Hm HS _ H1 H2 HA Hop Hmold.
  split; [|split; [|split; [|split; [|split]]]].
  - unfold getTimeline. by rewrite checkAccess_unknown.
  - unfold getMachineStats. by rewrite checkAccess_unknown.
  - by rewrite validation_passes.
  - rewrite validation_passes by done. cbn [snd]. rewrite <- HS.
    destruct (findOne_save db (sq_machineId rqS) (sq_date rqS) _
                (stoppageRecord_onDay db rqS t1 t2)) as [i Hi].
    exists i, (stoppageRecord db rqS t1 t2). split; [done|].
    apply stoppageRecord_onDay.
  - unfold postAssignment. by rewrite Hop, Hmold.
  - unfold postAssignment. rewrite Hop, Hmold. cbn [snd]. rewrite <- HA.
    destruct (findOne_save db (aq_machineId rqA) (aq_date rqA) _
                (assignmentRecord_onDay db rqA op mold)) as [i Hi].
    exists i, (assignmentRecord db rqA op mold). split; [done|].
    apply assignmentRecord_onDay.
Qed.

Lemma unknown_machine_reads_fail_writes_save_witness :
  getTimeline emptyDb anyUser "m1" pendingNow
  = ((404, Message "Machine not found"), emptyDb)
  ∧ getMachineStats emptyDb anyUser "m1" (Some "7d") pendingNow
    = ((404, Message "Machine not found"), emptyDb)
  ∧ (postStoppage emptyDb missingRq 0 0).1
    = (201, Message "Stoppage recorded successfully")
  ∧ (∃ i r, findOne (postStoppage emptyDb missingRq 0 0).2 "m1" 19723
            = Some (i, r) ∧ r_machineId r = "m1")
  ∧ (postAssignment emptyDb assignRq).1
    = (200, Message "Production assignment updated successfully")
  ∧ (∃ i r, findOne (postAssignment emptyDb assignRq).2 "m1" 19723
            = Some (i, r) ∧ r_machineId r = "m1").
Proof.
  apply (unknown_machine_reads_fail_writes_save emptyDb "m1" anyUser pendingNow
           (Some "7d") missingRq 0 0 assignRq None None);
    first [reflexivity | simpl; lia].
Defined.

(** C9 as stated fails: no machine resolves in the empty store, yet the
    stoppage submission and the production assignment for machine ["m1"]
    succeed and each creates a record for it. *)
Lemma unknown_machine_write_creates_record :
  machines emptyDb !! "m1" = None
  ∧ (postStoppage emptyDb missingRq 0 0).1
    = (201, Message "Stoppage recorded successfully")
  ∧ r_machineId <$> records (postStoppage emptyDb missingRq 0 0).2 = ["m1"]
  ∧ (postAssignment emptyDb assignRq).1
    = (200, Message "Production assignment updated successfully")
  ∧ r_machineId <$> records (postAssignment emptyDb assignRq).2 = ["m1"].
Proof. repeat split; reflexivity. Qed.

(** ** Expansion of an assignment to the shift (C6) *)

Section ShiftExpansion.

Variables (shifts : list Shift) (hour : Z).

Lemma hoursToUpdate_no_shift flag :
  find (shiftContains hour) shifts = None →
  hoursToUpdate shifts hour flag = [hour].
Proof. intros H. unfold hoursToUpdate. rewrite H. by destruct flag. Qed.

Lemma hoursToUpdate_night_late shift startHour endHour :
  find (shiftContains hour) shifts = Some shift →
  startHourOf shift = Some startHour → endHourOf shift = Some endHour →
  endHour < startHour → startHour ≤ hour →
  hoursToUpdate shifts hour true = seqZ startHour (24 - startHour).
Proof.
  intros Hf Hs He Hlt Hge. unfold hoursToUpdate. rewrite Hf, Hs, He.
  unfold Js.ge, Js.le, Js.lt, hoursFrom.
  rewrite (proj2 (Z.leb_gt _ _)) by lia.
  by rewrite (proj2 (Z.leb_le _ _)) by lia.
Qed.

Lemma hoursToUpdate_night_early shift startHour endHour :
  find (shiftContains hour) shifts = Some shift →
  startHourOf shift = Some startHour → endHourOf shift = Some endHour →
  endHour < startHour → hour < endHour →
  hoursToUpdate shifts hour true = seqZ 0 endHour.
Proof.
  intros Hf Hs He Hlt Hge. unfold hoursToUpdate. rewrite Hf, Hs, He.
  unfold Js.ge, Js.le, Js.lt, hoursFrom.
  rewrite !(proj2 (Z.leb_gt _ _)) by lia.
  rewrite (proj2 (Z.ltb_lt _ _)) by lia.
  by rewrite Z.sub_0_r.
Qed.

(** A shift that was found contains the hour. *)
Lemma found_shift_contains shift startHour endHour :
  find (shiftContains hour) shifts = Some shift →
  startHourOf shift = Some startHour → endHourOf shift = Some endHour →
  endHour < startHour → startHour ≤ hour ∨ hour < endHour.
Proof.
  intros [_ Hc]%find_some Hs He Hlt.
  unfold shiftContains in Hc. rewrite Hs, He in Hc.
  unfold Js.ge, Js.le, Js.lt in Hc.
  rewrite (proj2 (Z.leb_gt _ _)) in Hc by lia.
  apply orb_true_iff in Hc as [?%Z.leb_le|?%Z.ltb_lt]; lia.
Qed.

End ShiftExpansion.

(** C6: for a shift that crosses midnight the expansion from the hour of
    the request is [startHour, 24) when the hour is at or after the start
    and [0, endHour) when it is before the end, and never both; when no
    shift contains the hour only that hour is updated; for the 22:00 to
    06:00 shift and hour 23 the hours are 22 and 23. *)
Theorem midnight_shift_expansion shifts hour :
  (∀ shift startHour endHour,
     find (shiftContains hour) shifts = Some shift →
     startHourOf shift = Some startHour → endHourOf shift = Some endHour →
     endHour < startHour →
     (startHour ≤ hour →
      hoursToUpdate shifts hour true = seqZ startHour (24 - startHour))
     ∧ (hour < endHour → hoursToUpdate shifts hour true = seqZ 0 endHour)
     ∧ (startHour ≤ hour ∨ hour < endHour)
     ∧ ¬ (startHour ≤ hour ∧ hour < endHour)
     ∧ (∀ h, h ∈ hoursToUpdate shifts hour true →
             if decide (startHour ≤ hour) then startHour ≤ h < 24
             else 0 ≤ h < endHour))
  ∧ (find (shiftContains hour) shifts = None →
     ∀ flag, hoursToUpdate shifts hour flag = [hour])
  ∧ hoursToUpdate [nightShift] 23 true = [22; 23].
Proof.
  split; [|split; [|reflexivity]].
  - intros shift a b Hf Hs He Hlt.
    pose proof (found_shift_contains shifts hour shift a b Hf Hs He Hlt) as Hin.
    split; [by eapply hoursToUpdate_night_late|].
    split; [by eapply hoursToUpdate_night_early|].
    split; [done|]. split; [lia|].
    intros h Hh. case_decide as Hd.
    + rewrite (hoursToUpdate_night_late shifts hour shift a b) in Hh by done.
      apply elem_of_seqZ in Hh. lia.
    + rewrite (hoursToUpdate_night_early shifts hour shift a b) in Hh
        by (done || lia).
      apply elem_of_seqZ in Hh. lia.
  - intros H flag. by apply hoursToUpdate_no_shift.
Qed.

Lemma midnight_shift_expansion_witness :
  hoursToUpdate [nightShift] 23 true = seqZ 22 (24 - 22)
  ∧ hoursToUpdate [nightShift] 3 true = seqZ 0 6
  ∧ hoursToUpdate [nightShift] 10 true = [10].
Proof.
  split; [|split].
  - apply (proj1 (midnight_shift_expansion [nightShift] 23) nightShift 22 6);
      [reflexivity | reflexivity | reflexivity | lia | lia].
  - apply (proj1 (midnight_shift_expansion [nightShift] 3) nightShift 22 6);
      [reflexivity | reflexivity | reflexivity | lia | lia].
  - apply (proj1 (proj2 (midnight_shift_expansion [nightShift] 10)));
      reflexivity.
Defined.

(** ** The timeline (C5, C10) *)

Section FirstSuch.

Context {A : Type}.

(** [find] returns the first element that passes the test, and nothing
    when no element passes it. *)
Lemma find_firstSuch (f : A → bool) (P : A → Prop) (l : list A) x :
  (∀ y, f y = true ↔ P y) → firstSuch P l x → find f l = Some x.
Proof.
  intros Hf (i & Hi & Hx & Hfirst). revert i Hi Hfirst.
  induction l as [|a l IH]; intros i Hi Hfirst; [done|]. simpl.
  destruct i as [|i].
  - simpl in Hi. simplify_eq. by rewrite (proj2 (Hf x) Hx).
  - destruct (f a) eqn:Ha.
    + destruct (Hfirst 0%nat a eq_refl ltac:(lia)). by apply Hf.
    + apply (IH i); [done|]. intros j y Hj Hji.
      apply (Hfirst (S j) y); [done|lia].
Qed.

Lemma find_Some_firstSuch (f : A → bool) (P : A → Prop) (l : list A) x :
  (∀ y, f y = true ↔ P y) → find f l = Some x → firstSuch P l x.
Proof.
  intros Hf. induction l as [|a l IH]; [done|]. simpl.
  destruct (f a) eqn:Ha.
  - intros [= ->]. exists 0%nat. split; [done|]. split; [by apply Hf|].
    intros j y _ Hj. lia.
  - intros (i & Hi & Hx & Hfirst)%IH. exists (S i).
    split; [done|]. split; [done|].
    intros [|j] y Hj Hji.
    + simpl in Hj. simplify_eq. rewrite <- Hf. by rewrite Ha.
    + apply (Hfirst j y); [done|lia].
Qed.

Lemma find_none_iff (f : A → bool) (l : list A) :
  find f l = None ↔ ∀ x, x ∈ l → f x = false.
Proof.
  induction l as [|a l IH]; simpl.
  - split; [|done]. intros _ x Hx. by apply elem_of_nil in Hx.
  - destruct (f a) eqn:Ha.
    + split; [done|]. intros H. rewrite H in Ha; [done|by left].
    + rewrite IH. split.
      * intros H x [->|Hx]%elem_of_cons; auto.
      * intros H x Hx. apply H. by right.
Qed.

Lemma find_filter (p q : A → bool) (l : list A) :
  find q (List.filter p l) = find (fun x => p x && q x) l.
Proof.
  induction l as [|a l IH]; [done|]. simpl.
  destruct (p a); simpl; [|done]. by destruct (q a).
Qed.

Lemma list_find_firstSuch (P : A → Prop) `{∀ x, Decision (P x)} l i x :
  list_find P l = Some (i, x) → firstSuch P l x.
Proof. intros (Hi & Hx & Hf)%list_find_Some. exists i. eauto. Qed.

Lemma firstSuch_list_find (P : A → Prop) `{∀ x, Decision (P x)} l x :
  firstSuch P l x → ∃ i, list_find P l = Some (i, x).
Proof. intros (i & Hi & Hx & Hf). exists i. apply list_find_Some. eauto. Qed.

End FirstSuch.

Section Timeline.

Variable db : Db.

(** The status that the handler derives follows [statusRule] for all
    numbers, and the rule of the specification for numbers that are not
    negative. *)
Lemma derivedStatus_rule r s : derivedStatus r s = statusRule r s.
Proof.
  unfold derivedStatus, statusRule.
  repeat match goal with
         | |- context [Z.ltb ?a ?b] => destruct (Z.ltb_spec0 a b)
         | |- context [Z.leb ?a ?b] => destruct (Z.leb_spec0 a b)
         end; simpl; try done; lia.
Qed.

Lemma statusRule_spec r s : 0 ≤ r → 0 ≤ s → statusRule r s = specStatus r s.
Proof.
  intros Hr Hs. unfold statusRule, specStatus.
  repeat match goal with
         | |- context [Z.ltb ?a ?b] => destruct (Z.ltb_spec0 a b)
         | |- context [Z.leb ?a ?b] => destruct (Z.leb_spec0 a b)
         | |- context [Z.eqb ?a ?b] => destruct (Z.eqb_spec a b)
         end; simpl; try done; lia.
Qed.

Lemma str_or_explicit s d : s ≠ "" → Js.str_or (Some s) d = s.
Proof. intros H%String.eqb_neq. unfold Js.str_or. by rewrite H. Qed.

Lemma str_or_falsy o d : Js.truthy o = false → Js.str_or o d = d.
Proof.
  destruct o as [s|]; [|done]. simpl.
  intros H%negb_false_iff. by rewrite H.
Qed.

Lemma timelineHour_hour dayRecord hour :
  t_hour (timelineHour db dayRecord hour) = hour.
Proof. done. Qed.

Lemma timelineHour_spec dayRecord hour :
  hourEntrySpec (findHourData dayRecord hour) (timelineHour db dayRecord hour).
Proof.
  unfold hourEntrySpec, timelineHour.
  destruct (findHourData dayRecord hour) as [h|]; cbn -[sumDurations].
  - rewrite sumDurations_sumZ. repeat split.
    + intros s -> Hs. by apply str_or_explicit.
    + intros Hf. rewrite str_or_falsy by done. apply derivedStatus_rule.
  - done.
Qed.

Lemma timelineHour_no_record hour : timelineHour db None hour = emptyHour hour.
Proof. done. Qed.

Lemma or_else_fallback {A} (a b : option A) (P Q : A → Prop) :
  (∀ v, a = Some v ↔ P v) → (∀ v, b = Some v ↔ Q v) →
  fallbackSpec P Q (Js.or_else a b).
Proof.
  intros Ha Hb. unfold fallbackSpec. split; [|split].
  - intros v Hv%Ha. by rewrite Hv.
  - intros Hnone v. destruct a as [x|]; [|by apply Hb].
    by destruct (Hnone x); apply Ha.
  - destruct a as [x|]; simpl.
    + split; [done|]. intros [Hnone _]. by destruct (Hnone x); apply Ha.
    + split.
      * intros ->. split; intros v Hv; [by apply Ha in Hv|by apply Hb in Hv].
      * intros [_ Hnone]. destruct b as [y|]; [|done].
        by destruct (Hnone y); apply Hb.
Qed.

(** [populate] gives the document that the reference resolves to. *)
Lemma populateUser_spec ref u :
  populateUser db ref = Some u ↔ resolvesUser db ref u.
Proof.
  unfold populateUser, resolvesUser. destruct ref as [id|]; simpl.
  - split.
    + intros H. exists id. split; [done|].
      eapply find_Some_firstSuch; [|exact H]. intros y. apply String.eqb_eq.
    + intros (id' & [= <-] & H).
      eapply find_firstSuch; [|exact H]. intros y. apply String.eqb_eq.
  - split; [done|]. by intros (id & ? & _).
Qed.

Lemma populateMold_spec ref m :
  populateMold db ref = Some m ↔ resolvesMold db ref m.
Proof.
  unfold populateMold, resolvesMold. destruct ref as [id|]; simpl.
  - split; [by exists id|]. by intros (id' & [= <-] & H).
  - split; [done|]. by intros (id & ? & _).
Qed.

Lemma timelineHour_fallback dayRecord hour :
  fallbackSpec
    (resolvesUser db (findHourData dayRecord hour ≫= h_operatorId))
    (resolvesUser db (dayRecord ≫= r_operatorId))
    (t_operator (timelineHour db dayRecord hour))
  ∧ fallbackSpec
      (resolvesMold db (findHourData dayRecord hour ≫= h_moldId))
      (resolvesMold db (dayRecord ≫= r_moldId))
      (t_mold (timelineHour db dayRecord hour)).
Proof.
  split; apply or_else_fallback; intros v;
    (apply populateUser_spec || apply populateMold_spec).
Qed.

(** The test that the read makes on a record, the query and the
    comparison of the calendar days together, is [shownOn]. *)
Lemma shownOn_test machineId now date r :
  String.eqb (r_machineId r) machineId
  && (now - 7 * DAY <=? r_startTime r) && (r_startTime r <=? now)
  && (r_startTime r `div` DAY =? (date * DAY) `div` DAY) = true
  ↔ shownOn machineId now date r.
Proof.
  unfold shownOn. rewrite Z.div_mul by done.
  rewrite !andb_true_iff, String.eqb_eq, !Z.leb_le, Z.eqb_eq.
  pose proof (Z.div_mod (r_startTime r) DAY ltac:(done)) as Hdm.
  pose proof (Z.mod_pos_bound (r_startTime r) DAY ltac:(done)) as Hb.
  split.
  - intros [[[Hm Hlo] Hhi] Hd]. rewrite Hd in Hdm.
    split; [done|]. split; [done|]. lia.
  - intros (Hm & [Hlo Hhi] & Hday). split; [done|]. symmetry.
    apply (Z.div_unique _ _ _ (r_startTime r - date * DAY)); lia.
Qed.

(** The record that the handler takes for a day is the record of the day,
    and the slot it takes for an hour is the slot of the hour. *)
Lemma findDayRecord_spec machineId now date dayRecord :
  dayRecordOf db machineId now date dayRecord
  ↔ findDayRecord (findRecords db machineId (now - 7 * DAY) now) (date * DAY)
    = dayRecord.
Proof.
  unfold findDayRecord, findRecords. rewrite find_filter.
  destruct dayRecord as [r|]; simpl.
  - split.
    + apply find_firstSuch. intros y. apply shownOn_test.
    + apply find_Some_firstSuch. intros y. apply shownOn_test.
  - rewrite find_none_iff. split.
    + intros H r Hr. apply not_true_is_false. rewrite shownOn_test. by apply H.
    + intros H r Hr Hs. apply shownOn_test in Hs. by rewrite (H r Hr) in Hs.
Qed.

Lemma findHourData_spec dayRecord hour hourData :
  hourSlotOf dayRecord hour hourData ↔ findHourData dayRecord hour = hourData.
Proof.
  destruct hourData as [h|], dayRecord as [r|]; simpl.
  - split.
    + intros (r' & [= <-] & Hf).
      by destruct (firstSuch_list_find _ _ _ Hf) as [i ->].
    + destruct (list_find _ _) as [[i h']|] eqn:E; [|done].
      intros [= <-]. exists r. split; [done|]. by eapply list_find_firstSuch.
  - split; [by intros (r' & ? & _)|done].
  - split.
    + intros H.
      assert (list_find (fun h => h_hour h = hour) (r_hourlyData r) = None)
        as ->; [|done].
      apply list_find_None, Forall_forall. intros h Hh. by apply (H r).
    + destruct (list_find _ _) as [[i h']|] eqn:E; [done|].
      intros _ r' [= <-] h Hh. apply list_find_None in E.
      rewrite Forall_forall in E. by apply E.
  - split; [done|]. by intros _ r.
Qed.

(** Every day has its record or none, and every hour its slot or none. *)
Lemma shown_slot_exists machineId now date hour :
  ∃ dayRecord hourData,
    dayRecordOf db machineId now date dayRecord
    ∧ hourSlotOf dayRecord hour hourData.
Proof.
  eexists _, _. split; [by apply findDayRecord_spec|by apply findHourData_spec].
Qed.

Lemma d_date_timelineDay recs d : d_date (timelineDay db recs d) = d `div` DAY.
Proof. unfold timelineDay. cbn [d_date]. by rewrite Z.div_mul. Qed.

(** Every entry of every day is the entry computed for its hour from the
    first record of that calendar day. *)
Lemma timeline_entry recs startDate endDate day e :
  day ∈ buildTimeline db recs startDate endDate → e ∈ d_hours day →
  e = timelineHour db (findDayRecord recs (d_date day * DAY)) (t_hour e)
  ∧ 0 ≤ t_hour e < 24.
Proof.
  intros (d & -> & _)%list_elem_of_fmap He.
  rewrite d_date_timelineDay.
  apply list_elem_of_fmap in He as (hour & -> & Hh).
  rewrite timelineHour_hour. split; [done|].
  apply elem_of_seqZ in Hh. lia.
Qed.

(** An entry of the timeline, from the record of its day and the slot of
    its hour. *)
Lemma timeline_entry_of machineId now day e dayRecord :
  day ∈ buildTimeline db (findRecords db machineId (now - 7 * DAY) now)
          (now - 7 * DAY) now →
  e ∈ d_hours day →
  dayRecordOf db machineId now (d_date day) dayRecord →
  e = timelineHour db dayRecord (t_hour e).
Proof.
  intros Hday He Hrec. apply findDayRecord_spec in Hrec.
  destruct (timeline_entry _ _ _ _ _ Hday He) as [Heq _].
  by rewrite Hrec in Heq.
Qed.

Lemma timeline_hours recs startDate endDate day :
  day ∈ buildTimeline db recs startDate endDate →
  t_hour <$> d_hours day = seqZ 0 24.
Proof.
  intros (d & -> & _)%list_elem_of_fmap. cbn [d_hours timelineDay].
  generalize (seqZ 0 24). induction l as [|x l IH]; [done|].
  cbn [fmap list_fmap] in *. by rewrite IH.
Qed.

(** The loop of the handler runs over eight consecutive calendar days. *)
Lemma timeline_dates recs now :
  d_date <$> buildTimeline db recs (now - 7 * DAY) now
  = seqZ ((now - 7 * DAY) `div` DAY) 8.
Proof.
  unfold buildTimeline, loopDays.
  replace (now - (now - 7 * DAY)) with (7 * DAY) by lia.
  rewrite Z.div_mul by done.
  rewrite <- !list_fmap_compose.
  change (7 + 1) with 8.
  assert (∀ k, (d_date ∘ timelineDay db recs ∘ (fun k => now - 7 * DAY + k * DAY)) k
               = (now - 7 * DAY) `div` DAY + k) as Hk.
  { intros k. unfold compose. rewrite d_date_timelineDay.
    by rewrite Z.div_add. }
  erewrite list_fmap_ext; [|intros i x _; apply Hk].
  generalize ((now - 7 * DAY) `div` DAY). intros base.
  unfold seqZ. rewrite <- list_fmap_compose. apply list_fmap_ext.
  intros i x _. unfold compose. lia.
Qed.

Lemma getTimeline_ok user machineId now machine :
  checkAccess db user machineId = inl machine →
  getTimeline db user machineId now
  = ((200,
      TimelineBody
        (buildTimeline db (findRecords db machineId (now - 7 * DAY) now)
           (now - 7 * DAY) now)),
     db).
Proof. intros H. unfold getTimeline. by rewrite H. Qed.

End Timeline.

(** C5, as amended: when the requester may read the machine, the timeline
    has the eight calendar days of the window in order, each with the
    hours 0 to 23 in order.  With no record of the machine in the window
    every entry is zero-filled and inactive.  The entry of an hour of a day
    is that of the first slot of that hour in the first stored record shown
    on that day: it has the counters and the stoppages of the slot, its
    stoppage minutes are the sum of the durations of these stoppages, an
    explicit status of the slot is kept, and without one the status is
    inactive when neither the running nor the stoppage minutes are
    positive, else stoppage when the stoppage minutes exceed the running
    minutes, else running; without such a record or slot the entry is
    zero-filled and inactive.  On minutes that are not negative the rule
    is the one of the specification. *)
Theorem timeline_dense_grid db user machineId now machine :
  checkAccess db user machineId = inl machine →
  ∃ t,
    getTimeline db user machineId now = ((200, TimelineBody t), db)
    ∧ d_date <$> t = seqZ ((now - 7 * DAY) `div` DAY) 8
    ∧ (now - 7 * DAY) `div` DAY + 7 = now `div` DAY
    ∧ (∀ day, day ∈ t → t_hour <$> d_hours day = seqZ 0 24)
    ∧ ((∀ r, r ∈ records db → r_machineId r = machineId →
             ¬ now - 7 * DAY ≤ r_startTime r ≤ now) →
       ∀ day e, day ∈ t → e ∈ d_hours day → e = emptyHour (t_hour e))
    ∧ (∀ day e dayRecord hourData,
         day ∈ t → e ∈ d_hours day →
         dayRecordOf db machineId now (d_date day) dayRecord →
         hourSlotOf dayRecord (t_hour e) hourData →
         hourEntrySpec hourData e)
    ∧ (∀ date hour, ∃ dayRecord hourData,
         dayRecordOf db machineId now date dayRecord
         ∧ hourSlotOf dayRecord hour hourData)
    ∧ (∀ r s, 0 ≤ r → 0 ≤ s → statusRule r s = specStatus r s).
Proof.
  intros Hacc. eexists. split; [by eapply getTimeline_ok|].
  split; [apply timeline_dates|].
  split.
  { replace (now - 7 * DAY) with (now + (-7) * DAY) by lia.
    rewrite Z.div_add by done. lia. }
  split; [intros day; apply timeline_hours|].
  split; [|split; [|split]].
  - intros Hnone day e Hday He.
    rewrite (timeline_entry_of db machineId now day e None Hday He); [done|].
    intros r Hr (Hm & Hw & _). by apply (Hnone r).
  - intros day e dayRecord hourData Hday He Hrec Hslot.
    rewrite (timeline_entry_of db machineId now day e dayRecord Hday He Hrec).
    apply findHourData_spec in Hslot as <-. apply timelineHour_spec.
  - intros date hour. apply shown_slot_exists.
  - apply statusRule_spec.
Qed.

Lemma plantRecord_shown :
  dayRecordOf plantDb "m1" plantNow 19723 (Some plantRecord).
Proof.
  exists 0%nat. split; [reflexivity|]. split.
  - split; [reflexivity|]. vm_compute. repeat split; discriminate.
  - intros j y _ Hj. lia.
Defined.

Lemma plantSlot_shown : hourSlotOf (Some plantRecord) 8 (Some plantSlot).
Proof.
  exists plantRecord. split; [reflexivity|].
  exists 0%nat. split; [reflexivity|]. split; [reflexivity|].
  intros j y _ Hj. lia.
Defined.

Lemma timeline_dense_grid_witness :
  checkAccess plantDb anyUser "m1"
  = inl {| m_name := "Press 1"; m_status := "running";
           m_departmentId := Some "d1" |}
  ∧ ∃ t,
      getTimeline plantDb anyUser "m1" plantNow = ((200, TimelineBody t), plantDb)
      ∧ d_date <$> t = seqZ ((plantNow - 7 * DAY) `div` DAY) 8
      ∧ (∀ day, day ∈ t → t_hour <$> d_hours day = seqZ 0 24)
      ∧ (∀ day e, day ∈ t → e ∈ d_hours day →
           d_date day = 19723 → t_hour e = 8 →
           hourEntrySpec (Some plantSlot) e).
Proof.
  split; [reflexivity|].
  destruct (timeline_dense_grid plantDb anyUser "m1" plantNow _ eq_refl)
    as (t & Hreply & Hdates & _ & Hhours & _ & Hentry & _).
  exists t. split; [exact Hreply|]. split; [exact Hdates|].
  split; [exact Hhours|].
  intros day e Hday He Hd Hh.
  apply (Hentry day e (Some plantRecord) (Some plantSlot) Hday He).
  - rewrite Hd. exact plantRecord_shown.
  - rewrite Hh. exact plantSlot_shown.
Defined.

(** C5 as stated fails on a negative number of minutes: hour 8 of the
    stored day has no status of its own, did not run, and its one stoppage
    has the duration -5.  The rule of the specification makes the hour
    running, the timeline says inactive. *)
Lemma timeline_status_negative_minutes :
  ∃ t day e,
    getTimeline negativeDb anyUser "m1" plantNow
    = ((200, TimelineBody t), negativeDb)
    ∧ t !! 7%nat = Some day ∧ d_date day = 19723
    ∧ d_hours day !! 8%nat = Some e ∧ t_hour e = 8
    ∧ hourSlotOf (Some (set_hourlyData plantRecord [negativeSlot])) 8
        (Some negativeSlot)
    ∧ h_status negativeSlot = None
    ∧ t_runningMinutes e = 0 ∧ t_stoppageMinutes e = -5
    ∧ specStatus (t_runningMinutes e) (t_stoppageMinutes e) = "running"
    ∧ t_status e = "inactive".
Proof.
  eexists _, _, _. split; [reflexivity|].
  split; [reflexivity|]. split; [reflexivity|].
  split; [reflexivity|]. split; [reflexivity|]. split.
  { exists (set_hourlyData plantRecord [negativeSlot]). split; [done|].
    exists 0%nat. split; [done|]. split; [done|]. intros j y _ Hj. lia. }
  repeat split; reflexivity.
Qed.

(** The scenario of the specification: hour 8 of the stored day ran 50
    minutes and has one stoppage of 10 minutes, and no status of its own;
    its entry is running, with the operator of the slot and the mold of
    the record. *)
Example timeline_plant_hour8 :
  let e := timelineHour plantDb (Some plantRecord) 8 in
  t_status e = "running" ∧ t_runningMinutes e = 50 ∧ t_stoppageMinutes e = 10
  ∧ t_operator e = Some {| ud_id := "u1"; ud_username := "ann" |}
  ∧ t_mold e = Some {| productionCapacityPerHour := Some 120 |}.
Proof. repeat split; reflexivity. Qed.

(** C10, as amended: in every entry of the timeline the operator is the
    user that the operator of the slot of the hour resolves to, when the
    slot has an operator and it resolves, and otherwise the user that the
    operator of the record of the day resolves to; it is missing only when
    neither resolves.  The same holds for the mold.  The slot is the first
    slot of the hour in the first stored record shown on the day; for an
    hour without a slot, or whose slot has no operator, the operator is
    the one that the operator of the record resolves to. *)
Theorem timeline_operator_mold_fallback db user machineId now machine :
  checkAccess db user machineId = inl machine →
  ∃ t,
    getTimeline db user machineId now = ((200, TimelineBody t), db)
    ∧ ∀ day e dayRecord hourData,
        day ∈ t → e ∈ d_hours day →
        dayRecordOf db machineId now (d_date day) dayRecord →
        hourSlotOf dayRecord (t_hour e) hourData →
        fallbackSpec
          (resolvesUser db (hourData ≫= h_operatorId))
          (resolvesUser db (dayRecord ≫= r_operatorId))
          (t_operator e)
        ∧ fallbackSpec
            (resolvesMold db (hourData ≫= h_moldId))
            (resolvesMold db (dayRecord ≫= r_moldId))
            (t_mold e)
        ∧ (hourData ≫= h_operatorId = None →
           ∀ u, t_operator e = Some u
                ↔ resolvesUser db (dayRecord ≫= r_operatorId) u)
        ∧ (hourData ≫= h_moldId = None →
           ∀ m, t_mold e = Some m
                ↔ resolvesMold db (dayRecord ≫= r_moldId) m).
Proof.
  intros Hacc. eexists. split; [by eapply getTimeline_ok|].
  intros day e dayRecord hourData Hday He Hrec Hslot.
  pose proof (timeline_entry_of db machineId now day e dayRecord Hday He Hrec)
    as Heq.
  destruct (timelineHour_fallback db dayRecord (t_hour e)) as [Hop Hmold].
  rewrite <- Heq in Hop, Hmold.
  apply findHourData_spec in Hslot. rewrite Hslot in Hop, Hmold.
  split; [exact Hop|]. split; [exact Hmold|].
  split; intros Hnone.
  - apply Hop. rewrite Hnone. by intros v (id & ? & _).
  - apply Hmold. rewrite Hnone. by intros v (id & ? & _).
Qed.

Lemma timeline_operator_mold_fallback_witness :
  checkAccess plantDb anyUser "m1"
  = inl {| m_name := "Press 1"; m_status := "running";
           m_departmentId := Some "d1" |}
  ∧ ∃ t,
      getTimeline plantDb anyUser "m1" plantNow = ((200, TimelineBody t), plantDb)
      ∧ ∀ day e, day ∈ t → e ∈ d_hours day →
          d_date day = 19723 → t_hour e = 8 →
          t_operator e = Some {| ud_id := "u1"; ud_username := "ann" |}
          ∧ t_mold e = Some {| productionCapacityPerHour := Some 120 |}.
Proof.
  split; [reflexivity|].
  destruct (timeline_operator_mold_fallback plantDb anyUser "m1" plantNow _
              eq_refl) as (t & Hreply & Hall).
  exists t. split; [exact Hreply|].
  intros day e Hday He Hd Hh.
  destruct (Hall day e (Some plantRecord) (Some plantSlot) Hday He)
    as ((Hop & _) & _ & _ & Hmold).
  - rewrite Hd. exact plantRecord_shown.
  - rewrite Hh. exact plantSlot_shown.
  - split.
    + apply Hop. exists "u1". split; [reflexivity|].
      exists 0%nat. split; [reflexivity|]. split; [reflexivity|].
      intros j y _ Hj. lia.
    + apply (Hmold eq_refl). exists "k1". split; reflexivity.
Defined.

(** C10 as stated fails on a reference that does not resolve: the slot of
    hour 8 has the operator ["u9"], which is no stored user, and the record
    of the day has the operator ["u2"]; the slot has an operator of its
    own, yet the entry shows the operator of the record. *)
Lemma slot_operator_dangling_falls_back :
  ∃ t day e,
    getTimeline danglingDb anyUser "m1" plantNow
    = ((200, TimelineBody t), danglingDb)
    ∧ t !! 7%nat = Some day ∧ d_date day = 19723
    ∧ d_hours day !! 8%nat = Some e ∧ t_hour e = 8
    ∧ hourSlotOf (Some (set_hourlyData plantRecord [danglingSlot])) 8
        (Some danglingSlot)
    ∧ h_operatorId danglingSlot = Some "u9"
    ∧ ud_id <$> users danglingDb = ["u1"; "u2"]
    ∧ r_operatorId (set_hourlyData plantRecord [danglingSlot]) = Some "u2"
    ∧ t_operator e = Some {| ud_id := "u2"; ud_username := "bob" |}.
Proof.
  eexists _, _, _. split; [reflexivity|].
  split; [reflexivity|]. split; [reflexivity|].
  split; [reflexivity|]. split; [reflexivity|]. split.
  { exists (set_hourlyData plantRecord [danglingSlot]). split; [done|].
    exists 0%nat. split; [done|]. split; [done|]. intros j y _ Hj. lia. }
  repeat split; reflexivity.
Qed.

(** ** Frame of a production assignment (C8) *)

Section Assignment.

Variables (hour : Z) (defectiveUnits : option Z).
Variables (validOperatorId validMoldId : option ObjectId).

Local Abbreviation kept := (keptSlot hour defectiveUnits).
Local Abbreviation created :=
  (createdSlot hour defectiveUnits validOperatorId validMoldId).
Local Abbreviation step :=
  (assignHour hour defectiveUnits validOperatorId validMoldId).

Lemma keptSlot_hour h h' : kept h h' → h_hour h' = h_hour h.
Proof. by intros [->|[_ ->]]. Qed.

Lemma keptSlot_assignment h h' :
  kept h h' →
  h_operatorId h' = h_operatorId h ∧ h_moldId h' = h_moldId h.
Proof. by intros [->|[_ ->]]. Qed.

Lemma keptSlot_trans h1 h2 h3 : kept h1 h2 → kept h2 h3 → kept h1 h3.
Proof.
  intros [->|[H1 ->]] [->|[H2 ->]]; unfold keptSlot; auto.
Qed.

Lemma createdSlot_kept h h' : created h → kept h h' → created h'.
Proof.
  intros Hc Hk. unfold createdSlot. rewrite (keptSlot_hour _ _ Hk).
  by eapply keptSlot_trans.
Qed.

(** One turn of the loop: the slots that were there stay at their places
    and are kept, and what has been pushed is a created slot. *)
Lemma assignHour_step hs targetHour :
  (∀ j x, hs !! j = Some x → ∃ x', step hs targetHour !! j = Some x' ∧ kept x x')
  ∧ (∀ j x', (length hs ≤ j)%nat → step hs targetHour !! j = Some x' → created x').
Proof.
  unfold assignHour, findOrPushSlot.
  destruct (list_find _ hs) as [[i x0]|] eqn:Hfind.
  - apply list_find_Some in Hfind as (Hi & Hx0 & _).
    destruct (_ && _) eqn:Hcond; cbn [writeHourData].
    + apply andb_true_iff in Hcond as [Heq%Z.eqb_eq _]. split.
      * intros j x Hj. destruct (decide (j = i)) as [->|Hne].
        -- rewrite list_lookup_alter_eq, Hj. eexists. split; [done|].
           right. split; [|done]. rewrite Hi in Hj. by simplify_eq.
        -- rewrite list_lookup_alter_ne by done. exists x. split; [done|by left].
      * intros j x' Hj Hl. apply lookup_lt_Some in Hl.
        rewrite length_alter in Hl. lia.
    + split.
      * intros j x Hj. exists x. split; [done|by left].
      * intros j x' Hj Hl. apply lookup_lt_Some in Hl. lia.
  - assert (∀ b : bool,
              (if b
               then writeHourData
                      (fun h => set_h_defectiveUnits h defectiveUnits) Detached
                      (hs ++ [newAssignmentSlot targetHour validOperatorId
                                validMoldId])
               else hs ++ [newAssignmentSlot targetHour validOperatorId
                             validMoldId])
              = hs ++ [newAssignmentSlot targetHour validOperatorId validMoldId])
      as -> by (by intros []).
    split.
    + intros j x Hj. exists x. split; [|by left].
      rewrite lookup_app_l; [done|by eapply lookup_lt_Some].
    + intros j x' Hj Hl. rewrite lookup_app_r in Hl by done.
      destruct (j - length hs)%nat; [|done]. simpl in Hl. simplify_eq.
      by left.
Qed.

Lemma assignHour_length hs targetHour :
  (length hs ≤ length (step hs targetHour))%nat.
Proof.
  unfold assignHour, findOrPushSlot.
  destruct (list_find _ hs) as [[i x0]|]; destruct (_ && _);
    cbn [writeHourData]; rewrite ?length_alter, ?length_app; simpl; lia.
Qed.

(** The whole loop, from the slots [hs0] the record had. *)
Lemma assignHours_frame hours hs0 :
  (∀ j x, hs0 !! j = Some x →
          ∃ x', fold_left step hours hs0 !! j = Some x' ∧ kept x x')
  ∧ (∀ j x', (length hs0 ≤ j)%nat →
             fold_left step hours hs0 !! j = Some x' → created x').
Proof.
  revert hs0. induction hours as [|t hours IH]; intros hs0; simpl.
  - split.
    + intros j x Hj. exists x. split; [done|by left].
    + intros j x' Hj Hl. apply lookup_lt_Some in Hl. lia.
  - destruct (IH (step hs0 t)) as [IHk IHc].
    destruct (assignHour_step hs0 t) as [Sk Sc]. split.
    + intros j x Hj. destruct (Sk j x Hj) as (x1 & Hx1 & Hk1).
      destruct (IHk j x1 Hx1) as (x2 & Hx2 & Hk2).
      exists x2. split; [done|]. by eapply keptSlot_trans.
    + intros j x' Hj Hl.
      destruct (step hs0 t !! j) as [x1|] eqn:Hx1.
      * destruct (IHk j x1 Hx1) as (x2 & Hx2 & Hk2).
        rewrite Hx2 in Hl. simplify_eq.
        eapply createdSlot_kept; [|done]. by eapply Sc.
      * apply lookup_ge_None in Hx1. by eapply IHc.
Qed.

End Assignment.

Lemma postAssignment_ok db rq op mold :
  resolveOperator db (aq_operatorId rq) = inl op →
  resolveMold (aq_moldId rq) = inl mold →
  postAssignment db rq
  = ((200, Message "Production assignment updated successfully"),
     save db (findOne db (aq_machineId rq) (aq_date rq))
       (assignmentRecord db rq op mold)).
Proof. intros H1 H2. unfold postAssignment. by rewrite H1, H2. Qed.

(** C8: after an assignment whose operator and mold resolve, the stored
    record of the day keeps every slot it had at its place, with the same
    operator and mold, changed at most in the defective units and only in
    a slot of the requested hour; the slots after them are the created
    ones and carry the operator and the mold of the request; and the
    defective units of the record are the sum over its slots. *)
Theorem assignment_frame db rq op mold :
  resolveOperator db (aq_operatorId rq) = inl op →
  resolveMold (aq_moldId rq) = inl mold →
  ∃ i r1,
    (postAssignment db rq).1
    = (200, Message "Production assignment updated successfully")
    ∧ findOne (postAssignment db rq).2 (aq_machineId rq) (aq_date rq)
      = Some (i, r1)
    ∧ (∀ j h,
         r_hourlyData (findOrCreate db (aq_machineId rq) (aq_date rq)) !! j
         = Some h →
         ∃ h', r_hourlyData r1 !! j = Some h'
               ∧ h_operatorId h' = h_operatorId h
               ∧ h_moldId h' = h_moldId h
               ∧ keptSlot (aq_hour rq) (aq_defectiveUnits rq) h h')
    ∧ (∀ j h',
         (length (r_hourlyData (findOrCreate db (aq_machineId rq) (aq_date rq)))
          ≤ j)%nat →
         r_hourlyData r1 !! j = Some h' →
         h_operatorId h' = op ∧ h_moldId h' = mold
         ∧ createdSlot (aq_hour rq) (aq_defectiveUnits rq) op mold h')
    ∧ r_defectiveUnits r1
      = sumZ ((fun h => Js.or0 (h_defectiveUnits h)) <$> r_hourlyData r1).
Proof.
  intros Hop Hmold. rewrite (postAssignment_ok db rq op mold Hop Hmold).
  destruct (findOne_save db (aq_machineId rq) (aq_date rq) _
              (assignmentRecord_onDay db rq op mold)) as [i Hi].
  exists i, (assignmentRecord db rq op mold).
  split; [done|]. split; [exact Hi|].
  unfold assignmentRecord. cbn [r_hourlyData r_defectiveUnits
    set_r_defectiveUnits set_hourlyData].
  destruct (assignHours_frame (aq_hour rq) (aq_defectiveUnits rq) op mold
              (hoursToUpdate (default [] (config db)) (aq_hour rq)
                 (aq_applyToShift rq))
              (r_hourlyData (findOrCreate db (aq_machineId rq) (aq_date rq))))
    as [Hk Hc].
  split; [|split].
  - intros j h Hj. destruct (Hk j h Hj) as (h' & Hh' & Hkept).
    exists h'. split; [done|].
    destruct (keptSlot_assignment _ _ _ _ Hkept) as [? ?]. done.
  - intros j h' Hj Hh'. pose proof (Hc j h' Hj Hh') as Hcr.
    destruct (keptSlot_assignment _ _ _ _ Hcr) as [? ?]. done.
  - apply sumDefective_sumZ.
Qed.

Lemma assignment_frame_witness :
  resolveOperator plantDb (aq_operatorId shiftRq) = inl (Some "u1")
  ∧ resolveMold (aq_moldId shiftRq) = inl None
  ∧ ∃ i r1,
      findOne (postAssignment plantDb shiftRq).2 "m1" 19723 = Some (i, r1)
      ∧ (∀ j h, r_hourlyData plantRecord !! j = Some h →
                ∃ h', r_hourlyData r1 !! j = Some h'
                      ∧ h_operatorId h' = h_operatorId h
                      ∧ h_moldId h' = h_moldId h
                      ∧ keptSlot 23 (Some 4) h h')
      ∧ r_defectiveUnits r1
        = sumZ ((fun h => Js.or0 (h_defectiveUnits h)) <$> r_hourlyData r1).
Proof.
  split; [reflexivity|]. split; [reflexivity|].
  destruct (assignment_frame plantDb shiftRq (Some "u1") None eq_refl eq_refl)
    as (i & r1 & _ & Hfind & Hkept & _ & Hsum).
  exists i, r1. split; [exact Hfind|]. split; [exact Hkept|exact Hsum].
Defined.

(** The stored record after the assignment to the night shift from hour
    23: the slot of hour 8 is as it was and hours 22 and 23 are created
    with the operator; the defective units of the request are written to
    the object of hour 23 after it was pushed, so that the stored slot has
    none, and it takes the same request again to store them.  The record
    has the sum of its slots each time. *)
Example assignment_plant_shift :
  (fun r => (h_hour <$> r_hourlyData r, h_operatorId <$> r_hourlyData r,
             h_defectiveUnits <$> r_hourlyData r, r_defectiveUnits r))
    <$> records (postAssignment plantDb shiftRq).2
  = [([8; 22; 23], [Some "u1"; Some "u1"; Some "u1"],
      [Some 2; Some 0; Some 0], 2)]
  ∧ (fun r => (h_defectiveUnits <$> r_hourlyData r, r_defectiveUnits r))
      <$> records (postAssignment (postAssignment plantDb shiftRq).2 shiftRq).2
    = [([Some 2; Some 0; Some 4], 6)].
Proof. split; reflexivity. Qed.

(** ** The statistics (C2, C7) *)

Section Statistics.

Local Open Scope Qc_scope.

Variable db : Db.

Lemma ofZ_nonzero z : z ≠ 0%Z → ofZ z ≠ 0.
Proof.
  intros Hz Heq. apply Hz.
  assert (inject_Z z == 0%Q)%Q as H.
  { apply Qred_eq_iff. by injection Heq. }
  unfold Qeq in H. simpl in H. lia.
Qed.

Lemma positive_nonzero q : positive q = true → q ≠ 0.
Proof. intros H ->. discriminate H. Qed.

Lemma jsdiv_nonzero a b : b ≠ 0 → jsdiv a b = Some (a / b).
Proof. intros H. unfold jsdiv. by destruct (Qc_eq_dec b 0). Qed.

Lemma sumQc_app l1 l2 : sumQc (l1 ++ l2) = sumQc l1 + sumQc l2.
Proof.
  unfold sumQc. induction l1 as [|x l1 IH]; cbn [foldr app].
  - by rewrite Qcplus_0_l.
  - rewrite IH. apply Qcplus_assoc.
Qed.

(** The nested [forEach] visits the hours of all records in order. *)
Lemma fold_records_hours {T} (f : T → HourSlot → T) recs (t0 : T) :
  fold_left (fun t record => fold_left f (r_hourlyData record) t) recs t0
  = fold_left f (allHours recs) t0.
Proof.
  unfold allHours. revert t0.
  induction recs as [|r recs IH]; intros t0; [done|].
  cbn [fold_left mbind list_bind]. by rewrite fold_left_app, IH.
Qed.

(** *** The inner loop over the stoppages *)

Lemma countStoppage_fold ss t :
  let t' := fold_left countStoppage ss t in
  totalExpectedUnits t' = totalExpectedUnits t
  ∧ breakdownStoppages t'
    = (breakdownStoppages t
       + Z.of_nat (length (filter (fun s => s_reason s = "breakdown") ss)))%Z
  ∧ totalBreakdownMinutes t'
    = (totalBreakdownMinutes t
       + sumZ ((fun s => Js.or0 (s_duration s))
                 <$> filter (fun s => s_reason s = "breakdown") ss))%Z.
Proof.
  revert t. induction ss as [|s ss IH]; intros t; cbn [fold_left].
  - rewrite filter_nil. unfold sumZ. cbn. repeat split; lia.
  - destruct (IH (countStoppage t s)) as (IH1 & IH2 & IH3).
    rewrite IH1, IH2, IH3. rewrite filter_cons. unfold countStoppage.
    destruct (String.eqb_spec (s_reason s) "breakdown") as [Hb|Hb].
    + rewrite decide_True by done. unfold sumZ.
      cbn [totalExpectedUnits breakdownStoppages totalBreakdownMinutes
           length fmap list_fmap foldr].
      repeat split; lia.
    + rewrite decide_False by done. done.
Qed.

(** *** The first pass over the hours *)

Lemma capacityOf_raw h :
  capacityOf db h
  = match rawCapacity db h with
    | Some c => if (c =? 0)%Z then None else Some c
    | None => None
    end.
Proof. done. Qed.

Lemma countHour_fold hs t :
  let t' := fold_left (countHour db) hs t in
  totalExpectedUnits t'
  = totalExpectedUnits t + sumQc (runningShare db <$> hs)
  ∧ breakdownStoppages t'
    = (breakdownStoppages t
       + Z.of_nat (length (filter (fun s => s_reason s = "breakdown")
                             (hs ≫= h_stoppages))))%Z
  ∧ totalBreakdownMinutes t'
    = (totalBreakdownMinutes t
       + sumZ ((fun s => Js.or0 (s_duration s))
                 <$> filter (fun s => s_reason s = "breakdown")
                       (hs ≫= h_stoppages)))%Z.
Proof.
  revert t. induction hs as [|h hs IH]; intros t; cbn [fold_left].
  - unfold sumQc, sumZ. cbn. rewrite Qcplus_0_r. repeat split; lia.
  - destruct (IH (countHour db t h)) as (IH1 & IH2 & IH3).
    rewrite IH1, IH2, IH3. clear IH IH1 IH2 IH3.
    unfold countHour.
    match goal with |- context [fold_left countStoppage ?ss ?t1] =>
      destruct (countStoppage_fold ss t1) as (S1 & S2 & S3) end.
    rewrite S1, S2, S3. clear S1 S2 S3.
    cbn [totalExpectedUnits breakdownStoppages totalBreakdownMinutes
         fmap list_fmap mbind list_bind].
    rewrite filter_app, length_app, fmap_app, sumZ_app.
    split; [|split; lia].
    unfold sumQc at 2. cbn [foldr]. fold (sumQc (runningShare db <$> hs)).
    rewrite Qcplus_assoc. f_equal.
    rewrite capacityOf_raw. unfold runningShare.
    destruct (rawCapacity db h) as [c|]; [|by rewrite Qcplus_0_r].
    destruct (Z.eqb_spec c 0) as [->|]; [|done].
    unfold Qcdiv. change (ofZ 0) with 0. by rewrite !Qcmult_0_l, Qcplus_0_r.
Qed.

(** *** The second pass over the hours *)

Lemma addCapacity_fold hs e :
  fold_left (addCapacity db) hs e = e + sumQc (flatShare db <$> hs).
Proof.
  revert e. induction hs as [|h hs IH]; intros e; cbn [fold_left].
  - unfold sumQc. cbn. by rewrite Qcplus_0_r.
  - rewrite IH. unfold sumQc at 2. cbn [fmap list_fmap foldr].
    fold (sumQc (flatShare db <$> hs)).
    rewrite Qcplus_assoc. f_equal.
    unfold addCapacity, flatShare. rewrite capacityOf_raw.
    destruct (rawCapacity db h) as [c|]; [|by rewrite Qcplus_0_r].
    destruct (Z.eqb_spec c 0) as [->|]; [|done].
    change (ofZ 0) with 0. by rewrite Qcplus_0_r.
Qed.

Lemma firstPass_totals recs :
  totalExpectedUnits (firstPass db recs)
  = sumQc (runningShare db <$> allHours recs)
  ∧ breakdownStoppages (firstPass db recs)
    = Z.of_nat (length (breakdowns recs))
  ∧ totalBreakdownMinutes (firstPass db recs)
    = sumZ ((fun s => Js.or0 (s_duration s)) <$> breakdowns recs).
Proof.
  unfold firstPass. rewrite fold_records_hours.
  destruct (countHour_fold (allHours recs) zeroTotals) as (H1 & H2 & H3).
  rewrite H1, H2, H3. cbn [zeroTotals totalExpectedUnits breakdownStoppages
    totalBreakdownMinutes]. rewrite Qcplus_0_l. done.
Qed.

Lemma performance_guarded recs :
  performance (computeStats db recs)
  = if positive (expectedUnits (computeStats db recs))
    then Some (ofZ (totalUnitsProduced (computeStats db recs))
               / expectedUnits (computeStats db recs))
    else Some 0.
Proof.
  unfold computeStats.
  cbn [performance expectedUnits totalUnitsProduced].
  destruct (positive _) eqn:Hpos; [|done].
  by apply jsdiv_nonzero, positive_nonzero.
Qed.

Lemma expectedUnits_double recs :
  expectedUnits (computeStats db recs)
  = sumQc (runningShare db <$> allHours recs)
    + sumQc (flatShare db <$> allHours recs).
Proof.
  unfold computeStats. cbn [expectedUnits]. unfold secondPass.
  rewrite fold_records_hours, addCapacity_fold.
  by rewrite (proj1 (firstPass_totals recs)).
Qed.

End Statistics.

(** C2: the expected units are the sum, over all the hours of the record
    set, of the capacity per minute times the running minutes, plus the
    sum over the same hours of the flat capacity per hour; the performance
    is the units produced over that total when it is positive. *)
Theorem expected_units_accumulate_twice db recs :
  expectedUnits (computeStats db recs)
  = (sumQc (runningShare db <$> allHours recs)
     + sumQc (flatShare db <$> allHours recs))%Qc
  ∧ totalUnitsProduced (computeStats db recs) = sumZ (r_unitsProduced <$> recs)
  ∧ performance (computeStats db recs)
    = if positive (expectedUnits (computeStats db recs))
      then Some (ofZ (totalUnitsProduced (computeStats db recs))
                 / expectedUnits (computeStats db recs))%Qc
      else Some 0%Qc.
Proof.
  split; [apply expectedUnits_double|]. split.
  - unfold computeStats. cbn [totalUnitsProduced].
    rewrite fold_left_add_shift. lia.
  - apply performance_guarded.
Qed.

(** The scenario of the specification: 480 running minutes, 120 minutes of
    stoppage, 1000 units of which 50 defective, a mold of 120 units per
    hour on eight hours.  The expected units are 8 * (120 / 60 * 60) plus
    8 * 120, and the percentages follow. *)
Example oee_scenario :
  let r := computeStats plantDb [oeeRecord] in
  expectedUnits r = ofZ 1920
  ∧ performance r = Some (Q2Qc (1000 # 1920))
  ∧ st_performance (statsReply
                      {| m_name := "Press 1"; m_status := "running";
                         m_departmentId := Some "d1" |} r) = Some 52
  ∧ st_availability (statsReply
                      {| m_name := "Press 1"; m_status := "running";
                         m_departmentId := Some "d1" |} r) = Some 80
  ∧ st_quality (statsReply
                      {| m_name := "Press 1"; m_status := "running";
                         m_departmentId := Some "d1" |} r) = Some 95
  ∧ st_oee (statsReply
                      {| m_name := "Press 1"; m_status := "running";
                         m_departmentId := Some "d1" |} r) = Some 40.
Proof.
  cbv zeta. split; [apply Qc_is_canon; reflexivity|].
  split; [f_equal; apply Qc_is_canon; reflexivity|].
  repeat split; vm_compute; reflexivity.
Qed.

(** C7: every ratio of the statistics is a finite number, raw and
    rounded; the availability is 0 when there are no running and no
    stoppage minutes, the quality is 0 when nothing was produced, the
    performance is 0 when no units are expected, the MTBF and the MTTR are
    0 when there is no breakdown; and the breakdowns counted, with their
    minutes, are exactly the stoppages whose reason is breakdown. *)
Theorem ratios_never_nan db recs :
  let r := computeStats db recs in
  (is_Some (availability r) ∧ is_Some (quality r) ∧ is_Some (performance r)
   ∧ is_Some (oee r) ∧ is_Some (mtbf r) ∧ is_Some (mttr r))
  ∧ (∀ machine,
       let reply := statsReply machine r in
       is_Some (st_availability reply) ∧ is_Some (st_quality reply)
       ∧ is_Some (st_performance reply) ∧ is_Some (st_oee reply)
       ∧ is_Some (st_mtbf reply) ∧ is_Some (st_mttr reply))
  ∧ (totalRunningMinutes (totals r) + totalStoppageMinutes (totals r) = 0 →
     availability r = Some 0%Qc)
  ∧ (totalUnitsProduced r = 0 → quality r = Some 0%Qc)
  ∧ (expectedUnits r = 0%Qc → performance r = Some 0%Qc)
  ∧ (breakdownStoppages (totals r) = 0 →
     mtbf r = Some 0%Qc ∧ mttr r = Some 0%Qc)
  ∧ breakdownStoppages (totals r) = Z.of_nat (length (breakdowns recs))
  ∧ totalBreakdownMinutes (totals r)
    = sumZ ((fun s => Js.or0 (s_duration s)) <$> breakdowns recs).
Proof.
  intros r.
  assert (is_Some (availability r)) as Ha.
  { subst r. unfold computeStats. cbn [availability].
    destruct (Z.ltb_spec0 0 (totalRunningMinutes (firstPass db recs)
                             + totalStoppageMinutes (firstPass db recs)));
      [|done].
    rewrite jsdiv_nonzero; [done|]. apply ofZ_nonzero. lia. }
  assert (is_Some (quality r)) as Hq.
  { subst r. unfold computeStats. cbn [quality].
    match goal with |- context [(0 <? ?u)%Z] =>
      destruct (Z.ltb_spec0 0 u); [|done] end.
    rewrite jsdiv_nonzero; [done|]. apply ofZ_nonzero. lia. }
  assert (is_Some (performance r)) as Hp.
  { subst r. rewrite performance_guarded.
    by destruct (positive _). }
  assert (is_Some (mtbf r) ∧ is_Some (mttr r)) as [Hb Ht].
  { subst r. unfold computeStats. cbn [mtbf mttr].
    destruct (Z.ltb_spec0 0 (breakdownStoppages (firstPass db recs)));
      [|done].
    rewrite !jsdiv_nonzero; [done| |]; apply ofZ_nonzero; lia. }
  assert (is_Some (oee r)) as Ho.
  { destruct Ha as [a Ha], Hq as [q Hq], Hp as [p Hp].
    subst r. unfold computeStats in *. cbn [availability quality performance oee] in *.
    rewrite Ha, Hq, Hp. done. }
  split; [done|]. split.
  { intros machine reply. subst reply. unfold statsReply, roundPercent, round.
    cbn [st_availability st_quality st_performance st_oee st_mtbf st_mttr].
    rewrite !fmap_is_Some. done. }
  split.
  { intros H0. subst r. unfold computeStats in *.
    cbn [availability totals] in *. by rewrite H0. }
  split.
  { intros H0. subst r. unfold computeStats in *.
    cbn [quality totalUnitsProduced] in *. by rewrite H0. }
  split.
  { intros H0. subst r.
    rewrite performance_guarded.
    by rewrite H0. }
  split.
  { intros H0. subst r. unfold computeStats in *. cbn [mtbf mttr totals] in *.
    by rewrite H0. }
  subst r. unfold computeStats. cbn [totals].
  split; apply firstPass_totals.
Qed.

Lemma ratios_never_nan_witness :
  totalRunningMinutes (totals (computeStats emptyDb []))
  + totalStoppageMinutes (totals (computeStats emptyDb [])) = 0
  ∧ availability (computeStats emptyDb []) = Some 0%Qc
  ∧ quality (computeStats emptyDb []) = Some 0%Qc
  ∧ performance (computeStats emptyDb []) = Some 0%Qc
  ∧ mtbf (computeStats emptyDb []) = Some 0%Qc
  ∧ mttr (computeStats emptyDb []) = Some 0%Qc.
Proof.
  pose proof (ratios_never_nan emptyDb []) as H. cbv zeta in H.
  destruct H as (_ & _ & Ha & Hq & Hp & Hb & _).
  split; [reflexivity|].
  split; [apply Ha; reflexivity|].
  split; [apply Hq; reflexivity|].
  split; [apply Hp; reflexivity|].
  apply Hb. reflexivity.
Defined.

(** * Further properties of the handlers *)

(** ** Appending a stoppage *)

(** A submission without a pending reference that passes the validation
    is answered 201.  When the hour has a stored slot, the submission
    appends its stoppage to the stoppages of that slot, recomputes the
    minutes of stoppage of the slot as the sum of the durations of its
    stoppages, sets the status to stoppage and leaves the rest of the slot
    alone.  When the hour has no stored slot, the slot that is stored is
    the new slot as it was pushed: the stoppage and the minutes are written
    to the pushed object and do not reach the record. *)
Theorem stoppage_append_recomputes_minutes db rq t1 t2 :
  Js.truthy (sq_pendingStoppageId rq) = false →
  sapMissing rq = false → sapMalformed rq = false →
  (postStoppage db rq t1 t2).1 = (201, Message "Stoppage recorded successfully")
  ∧ (∀ h,
       slotOf db (sq_machineId rq) (sq_date rq) (sq_hour rq) = Some h →
       ∃ h' st,
         slotOf (postStoppage db rq t1 t2).2
           (sq_machineId rq) (sq_date rq) (sq_hour rq) = Some h'
         ∧ h_stoppages h' = h_stoppages h ++ [st]
         ∧ s_reason st = sq_reason rq
         ∧ s_description st = sq_description rq
         ∧ s_duration st = Some (sq_duration rq)
         ∧ s_isPending st = false ∧ s_isClassified st = true
         ∧ h_stoppageMinutes h'
           = Some (sumZ ((fun s => Js.or0 (s_duration s)) <$> h_stoppages h'))
         ∧ h_stoppageMinutes h'
           = Some (sumZ ((fun s => Js.or0 (s_duration s)) <$> h_stoppages h)
                   + sq_duration rq)
         ∧ h_status h' = Some "stoppage"
         ∧ h_hour h' = sq_hour rq
         ∧ h_unitsProduced h' = h_unitsProduced h
         ∧ h_defectiveUnits h' = h_defectiveUnits h
         ∧ h_runningMinutes h' = h_runningMinutes h
         ∧ h_operatorId h' = h_operatorId h
         ∧ h_moldId h' = h_moldId h)
  ∧ (slotOf db (sq_machineId rq) (sq_date rq) (sq_hour rq) = None →
     slotOf (postStoppage db rq t1 t2).2
       (sq_machineId rq) (sq_date rq) (sq_hour rq)
     = Some (newStoppageSlot (sq_hour rq))).
Proof.
  intros Hp H1 H2.
  destruct (postStoppage_slot db rq t1 t2 H1 H2) as [Hreply Hslot].
  unfold stoppageSlot in Hslot. split; [done|]. split.
  - intros h Hh. rewrite Hh in Hslot.
    exists (stoppageOnSlot rq t1 t2 h), (newStoppage rq).
    split; [done|].
    destruct (stoppageOnSlot_append_minutes rq t1 t2 h Hp) as [Happ Hmin].
    split; [done|]. do 5 (split; [done|]). split; [done|]. split.
    { rewrite Hmin, Happ, fmap_app, sumZ_app. f_equal.
      unfold sumZ. cbn. lia. }
    pose proof (slotOf_hour _ _ _ _ _ Hh) as Hhour.
    unfold stoppageOnSlot. rewrite Hp. by repeat split.
  - intros Hn. by rewrite Hn in Hslot.
Qed.

Lemma stoppage_append_recomputes_minutes_witness :
  (∃ h' st,
     slotOf (postStoppage pendingDb paddedRq 0 0).2 "m1" 19723 8 = Some h'
     ∧ h_stoppages h' = [pendingStop; st]
     ∧ s_duration st = Some 10
     ∧ h_stoppageMinutes h' = Some 10)
  ∧ slotOf (postStoppage emptyDb paddedRq 0 0).2 "m1" 19723 8
    = Some (newStoppageSlot 8).
Proof.
  destruct (stoppage_append_recomputes_minutes pendingDb paddedRq 0 0
              eq_refl eq_refl eq_refl) as (_ & Hstored & _).
  destruct (stoppage_append_recomputes_minutes emptyDb paddedRq 0 0
              eq_refl eq_refl eq_refl) as (_ & _ & Hnew).
  split; [|exact (Hnew eq_refl)].
  destruct (Hstored pendingSlot eq_refl)
    as (h' & st & Hslot & Happ & _ & _ & Hd & _ & _ & _ & Hmin & _).
  exists h', st. split; [exact Hslot|]. split; [exact Happ|].
  split; [exact Hd|exact Hmin].
Defined.

(** ** The validation, both ways *)

Section TrimDigits.

Lemma digit_not_whitespace c : Js.isDigit c = true → Js.isWhiteSpace c = false.
Proof. destruct c as [[] [] [] [] [] [] [] []]; vm_compute; congruence. Qed.

Lemma trimStart_digits s : Js.allDigits s = true → Js.trimStart s = s.
Proof.
  destruct s as [|c s]; [done|]. simpl.
  intros [Hc _]%andb_true_iff. by rewrite digit_not_whitespace.
Qed.

Lemma trimEnd_digits s : Js.allDigits s = true → Js.trimEnd s = s.
Proof.
  induction s as [|c s IH]; [done|]. simpl.
  intros [Hc Hs]%andb_true_iff. rewrite (IH Hs).
  destruct s; [|done]. by rewrite digit_not_whitespace.
Qed.

(** Trimming does nothing to a string of digits. *)
Lemma trim_digits s : Js.allDigits s = true → Js.trim s = s.
Proof.
  intros H. unfold Js.trim. rewrite trimStart_digits by done.
  by apply trimEnd_digits.
Qed.

End TrimDigits.

Lemma validation_fails_iff rq :
  sapMissing rq || sapMalformed rq = true
  ↔ sq_reason rq = "breakdown" ∧ sapRejected (sq_sapNotificationNumber rq).
Proof.
  unfold sapMissing, sapMalformed, sapRejected, Js.digitsOnly.
  destruct (String.eqb_spec (sq_reason rq) "breakdown") as [Hr|Hr];
    [|simpl; split; [done|tauto]].
  simpl. destruct (sq_sapNotificationNumber rq) as [s|]; simpl; [|tauto].
  destruct (String.eqb_spec s "") as [->|Hs]; simpl.
  { split; [|done]. intros _. split; [done|]. by left. }
  destruct (String.eqb_spec (Js.trim s) "") as [Ht|Ht]; simpl.
  { split; [|done]. intros _. split; [done|]. by left. }
  destruct (Js.allDigits (Js.trim s)); simpl.
  - split; [done|]. intros [_ [?|?]]; done.
  - split; [|done]. intros _. split; [done|]. by right.
Qed.

(** A stoppage submission is answered 400 exactly when its reason is
    breakdown and its SAP notification number is missing, blank once
    trimmed, or not all digits once trimmed; every other submission is
    answered 201; and a submission answered 400 leaves the store as it
    was. *)
Theorem stoppage_rejected_iff db rq t1 t2 :
  ((postStoppage db rq t1 t2).1.1 = 400
   ↔ sq_reason rq = "breakdown" ∧ sapRejected (sq_sapNotificationNumber rq))
  ∧ ((postStoppage db rq t1 t2).1 = (201, Message "Stoppage recorded successfully")
     ↔ ¬ (sq_reason rq = "breakdown"
          ∧ sapRejected (sq_sapNotificationNumber rq)))
  ∧ ((postStoppage db rq t1 t2).1.1 = 400 → (postStoppage db rq t1 t2).2 = db).
Proof.
  rewrite <- validation_fails_iff. unfold postStoppage.
  destruct (sapMissing rq), (sapMalformed rq); simpl;
    (split; [|split]); try done; split; try done; intros H; by destruct H.
Qed.

(** A breakdown whose SAP notification number is a non-empty string of
    digits is accepted. *)
Theorem breakdown_digits_accepted db rq t1 t2 s :
  sq_reason rq = "breakdown" →
  sq_sapNotificationNumber rq = Some s →
  s ≠ "" → Js.allDigits s = true →
  (postStoppage db rq t1 t2).1 = (201, Message "Stoppage recorded successfully").
Proof.
  intros Hr Hs Hne Hd.
  assert (sapMissing rq || sapMalformed rq = false) as Hv.
  { apply not_true_is_false. rewrite validation_fails_iff, Hs.
    intros [_ Hrej]. simpl in Hrej.
    rewrite trim_digits in Hrej by done. destruct Hrej; congruence. }
  apply orb_false_iff in Hv as [H1 H2]. by rewrite validation_passes.
Qed.

Lemma breakdown_digits_accepted_witness :
  (postStoppage emptyDb (breakdownRq (Some "4711")) 0 0).1
  = (201, Message "Stoppage recorded successfully").
Proof.
  apply (breakdown_digits_accepted emptyDb (breakdownRq (Some "4711")) 0 0
           "4711"); [reflexivity | reflexivity | discriminate | reflexivity].
Defined.

(** ** What a write leaves alone *)

Section SaveFrame.

Variables (db : Db) (machineId : ObjectId) (date : Z) (r1 : ProductionRecord).

Local Abbreviation db' := (save db (findOne db machineId date) r1).

Lemma save_collections : sameCollections db db'.
Proof. unfold save. by destruct (findOne _ _ _) as [[??]|]. Qed.

Lemma save_other_day j r :
  records db !! j = Some r → ¬ onDay machineId date r →
  records db' !! j = Some r.
Proof.
  intros Hj Hr. rewrite save_other; [done| |by eapply lookup_lt_Some].
  intros i r0 Hfind ->. unfold findOne in Hfind.
  apply list_find_Some in Hfind as (Hi & Hon & _).
  rewrite Hi in Hj. by simplify_eq.
Qed.

Lemma save_length :
  (length (records db) ≤ length (records db') ≤ length (records db) + 1)%nat
  ∧ (is_Some (findOne db machineId date) →
     length (records db') = length (records db)).
Proof.
  unfold save. destruct (findOne _ _ _) as [[i r0]|]; simpl.
  - rewrite length_insert. split; [lia|done].
  - rewrite length_app. simpl. split; [lia|]. by intros [? ?].
Qed.

Lemma save_elem r :
  r ∈ records db' → r = r1 ∨ r ∈ records db.
Proof.
  unfold save. destruct (findOne _ _ _) as [[i r0]|]; simpl.
  - intros [j Hj]%list_elem_of_lookup.
    apply list_lookup_insert_Some in Hj as [(_ & -> & _)|[_ Hj]]; [by left|].
    right. apply list_elem_of_lookup. eauto.
  - intros [?|Hr%list_elem_of_singleton]%elem_of_app; [by right|by left].
Qed.

End SaveFrame.

Lemma postStoppage_store db rq t1 t2 :
  (postStoppage db rq t1 t2).2 = db
  ∨ (postStoppage db rq t1 t2).2
    = save db (findOne db (sq_machineId rq) (sq_date rq))
        (stoppageRecord db rq t1 t2).
Proof.
  unfold postStoppage. destruct (sapMissing rq), (sapMalformed rq); auto.
Qed.

Lemma postAssignment_store db rq :
  (postAssignment db rq).2 = db
  ∨ ∃ op mold,
      (postAssignment db rq).2
      = save db (findOne db (aq_machineId rq) (aq_date rq))
          (assignmentRecord db rq op mold).
Proof.
  unfold postAssignment.
  destruct (resolveOperator _ _) as [op|]; [|auto].
  destruct (resolveMold _) as [mold|]; [|auto]. right. eauto.
Qed.

(** A write touches one record at most: the machines, the molds, the users
    and the configuration are as before, the records of other machines and
    of other days are as before at their places, and the collection grows
    by one record at most, and not at all when the machine already has a
    record of the day.  This holds for the stoppage submission and for the
    production assignment, accepted or not. *)
Theorem writes_touch_one_record db sq t1 t2 aq :
  (sameCollections db (postStoppage db sq t1 t2).2
   ∧ (∀ j r, records db !! j = Some r →
             ¬ onDay (sq_machineId sq) (sq_date sq) r →
             records (postStoppage db sq t1 t2).2 !! j = Some r)
   ∧ (length (records db) ≤ length (records (postStoppage db sq t1 t2).2)
      ≤ length (records db) + 1)%nat
   ∧ (is_Some (findOne db (sq_machineId sq) (sq_date sq)) →
      length (records (postStoppage db sq t1 t2).2) = length (records db)))
  ∧ (sameCollections db (postAssignment db aq).2
     ∧ (∀ j r, records db !! j = Some r →
               ¬ onDay (aq_machineId aq) (aq_date aq) r →
               records (postAssignment db aq).2 !! j = Some r)
     ∧ (length (records db) ≤ length (records (postAssignment db aq).2)
        ≤ length (records db) + 1)%nat
     ∧ (is_Some (findOne db (aq_machineId aq) (aq_date aq)) →
        length (records (postAssignment db aq).2) = length (records db))).
Proof.
  split.
  - destruct (postStoppage_store db sq t1 t2) as [->| ->].
    + repeat split; (done || lia).
    + split; [apply save_collections|]. split; [apply save_other_day|].
      apply save_length.
  - destruct (postAssignment_store db aq) as [->|(op & mold & ->)].
    + repeat split; (done || lia).
    + split; [apply save_collections|]. split; [apply save_other_day|].
      apply save_length.
Qed.

Lemma writes_touch_one_record_witness :
  length (records (postStoppage pendingDb finalizeRq 0 0).2)
  = length (records pendingDb)
  ∧ length (records (postAssignment plantDb shiftRq).2)
    = length (records plantDb).
Proof.
  destruct (writes_touch_one_record pendingDb finalizeRq 0 0 assignRq)
    as [(_ & _ & _ & HS) _].
  destruct (writes_touch_one_record plantDb finalizeRq 0 0 shiftRq)
    as [_ (_ & _ & _ & HA)].
  split; [apply HS|apply HA]; vm_compute; eauto.
Defined.

(** Once a write for a machine and a day has succeeded, the record of
    that day exists: a later stoppage or assignment for the same machine
    and day works on it and adds no record. *)
Theorem later_writes_reuse_the_record db sq1 t1 t2 sq2 t3 t4 aq2 :
  sapMissing sq1 = false → sapMalformed sq1 = false →
  sq_machineId sq2 = sq_machineId sq1 → sq_date sq2 = sq_date sq1 →
  aq_machineId aq2 = sq_machineId sq1 → aq_date aq2 = sq_date sq1 →
  let db1 := (postStoppage db sq1 t1 t2).2 in
  length (records (postStoppage db1 sq2 t3 t4).2) = length (records db1)
  ∧ length (records (postAssignment db1 aq2).2) = length (records db1).
Proof.
  intros H1 H2 Hm Hd Hma Hda db1.
  assert (is_Some (findOne db1 (sq_machineId sq1) (sq_date sq1))) as Hsome.
  { subst db1. rewrite validation_passes by done. cbn [snd].
    destruct (findOne_save db (sq_machineId sq1) (sq_date sq1) _
                (stoppageRecord_onDay db sq1 t1 t2)) as [i ->]. eauto. }
  split.
  - destruct (postStoppage_store db1 sq2 t3 t4) as [->| ->]; [done|].
    apply save_length. by rewrite Hm, Hd.
  - destruct (postAssignment_store db1 aq2) as [->|(op & mold & ->)]; [done|].
    apply save_length. by rewrite Hma, Hda.
Qed.

Lemma later_writes_reuse_the_record_witness :
  length (records (postStoppage (postStoppage emptyDb missingRq 0 0).2
                     paddedRq 0 0).2) = 1%nat
  ∧ length (records (postAssignment (postStoppage emptyDb missingRq 0 0).2
                       assignRq).2) = 1%nat.
Proof.
  apply (later_writes_reuse_the_record emptyDb missingRq 0 0 paddedRq 0 0
           assignRq); reflexivity.
Defined.

(** ** One slot per hour *)

Section DistinctHours.

Lemma alter_hours (f : HourSlot → HourSlot) (i : nat) (hs : list HourSlot) :
  (∀ x, h_hour (f x) = h_hour x) →
  h_hour <$> alter f i hs = h_hour <$> hs.
Proof.
  intros Hf. revert i. induction hs as [|h hs IH]; intros [|i]; try done.
  - cbn. by rewrite Hf.
  - cbn. f_equal. apply IH.
Qed.

Lemma writeHourData_hours (f : HourSlot → HourSlot) hourData
  (hs : list HourSlot) :
  (∀ x, h_hour (f x) = h_hour x) →
  h_hour <$> writeHourData f hourData hs = h_hour <$> hs.
Proof. intros Hf. destruct hourData; [by apply alter_hours|done]. Qed.

Lemma findOrPushSlot_hours hour fresh hs :
  h_hour fresh = hour →
  NoDup (h_hour <$> hs) →
  NoDup (h_hour <$> (findOrPushSlot hour fresh hs).2).
Proof.
  intros Hf Hnd. unfold findOrPushSlot.
  destruct (list_find _ hs) as [[i h]|] eqn:E; [done|]. simpl.
  rewrite fmap_app. apply NoDup_app. split; [done|]. split.
  - intros x [h [-> Hh]]%list_elem_of_fmap Hx%list_elem_of_singleton.
    apply list_find_None in E. rewrite Forall_forall in E.
    apply (E h Hh). simpl in Hx. congruence.
  - apply NoDup_singleton.
Qed.

Lemma stoppageRecord_hours db rq t1 t2 :
  NoDup (hoursOf (findOrCreate db (sq_machineId rq) (sq_date rq))) →
  NoDup (hoursOf (stoppageRecord db rq t1 t2)).
Proof.
  intros Hnd. unfold hoursOf, stoppageRecord.
  pose proof (findOrPushSlot_hours (sq_hour rq) (newStoppageSlot (sq_hour rq))
                _ eq_refl Hnd) as H.
  destruct (findOrPushSlot _ _ _) as [i hs]. simpl in *.
  rewrite writeHourData_hours; [done|]. apply stoppageOnSlot_hour.
Qed.

Lemma assignHour_hours hour du op mold hs targetHour :
  NoDup (h_hour <$> hs) →
  NoDup (h_hour <$> assignHour hour du op mold hs targetHour).
Proof.
  intros Hnd. unfold assignHour.
  pose proof (findOrPushSlot_hours targetHour
                (newAssignmentSlot targetHour op mold) hs eq_refl Hnd) as H.
  destruct (findOrPushSlot _ _ _) as [i hs1]. simpl in *.
  destruct (_ && _); [|done]. by rewrite writeHourData_hours.
Qed.

Lemma assignmentRecord_hours db rq op mold :
  NoDup (hoursOf (findOrCreate db (aq_machineId rq) (aq_date rq))) →
  NoDup (hoursOf (assignmentRecord db rq op mold)).
Proof.
  unfold hoursOf, assignmentRecord.
  cbn [r_hourlyData set_r_defectiveUnits set_hourlyData].
  generalize (r_hourlyData (findOrCreate db (aq_machineId rq) (aq_date rq))).
  generalize (hoursToUpdate (default [] (config db)) (aq_hour rq)
                (aq_applyToShift rq)).
  intros hours. induction hours as [|t hours IH]; intros hs Hnd; [done|].
  simpl. apply IH. by apply assignHour_hours.
Qed.

Lemma findOrCreate_hours db machineId date :
  distinctHours db → NoDup (hoursOf (findOrCreate db machineId date)).
Proof.
  intros Hdb. unfold findOrCreate, findOne.
  destruct (list_find _ _) as [[i r]|] eqn:E.
  - apply list_find_Some in E as (Hi & _ & _).
    apply Hdb. apply list_elem_of_lookup. eauto.
  - apply NoDup_nil_2.
Qed.

End DistinctHours.

(** If every record of the store has at most one slot per hour, it is
    still so after a stoppage submission and after a production
    assignment: a slot is pushed only for an hour that has none. *)
Theorem writes_keep_one_slot_per_hour db sq t1 t2 aq :
  distinctHours db →
  distinctHours (postStoppage db sq t1 t2).2
  ∧ distinctHours (postAssignment db aq).2.
Proof.
  intros Hdb. split.
  - destruct (postStoppage_store db sq t1 t2) as [->| ->]; [done|].
    intros r [->|Hr]%save_elem; [|by apply Hdb].
    by apply stoppageRecord_hours, findOrCreate_hours.
  - destruct (postAssignment_store db aq) as [->|(op & mold & ->)]; [done|].
    intros r [->|Hr]%save_elem; [|by apply Hdb].
    by apply assignmentRecord_hours, findOrCreate_hours.
Qed.

Lemma emptyDb_distinctHours : distinctHours emptyDb.
Proof. intros r Hr. by apply elem_of_nil in Hr. Qed.

Lemma writes_keep_one_slot_per_hour_witness :
  distinctHours (postStoppage emptyDb missingRq 0 0).2
  ∧ distinctHours (postAssignment emptyDb shiftRq).2.
Proof.
  apply (writes_keep_one_slot_per_hour emptyDb missingRq 0 0 shiftRq).
  exact emptyDb_distinctHours.
Defined.

(** ** The record of a stoppage submission *)

Lemma stoppageOnSlot_production rq t1 t2 h :
  h_unitsProduced (stoppageOnSlot rq t1 t2 h) = h_unitsProduced h
  ∧ h_defectiveUnits (stoppageOnSlot rq t1 t2 h) = h_defectiveUnits h
  ∧ h_runningMinutes (stoppageOnSlot rq t1 t2 h) = h_runningMinutes h
  ∧ h_operatorId (stoppageOnSlot rq t1 t2 h) = h_operatorId h
  ∧ h_moldId (stoppageOnSlot rq t1 t2 h) = h_moldId h.
Proof.
  unfold stoppageOnSlot.
  destruct (Js.truthy _); [destruct (list_find _ _) as [[??]|]|]; done.
Qed.

(** An accepted stoppage submission changes, in the record of the day,
    the slot of its hour only: the header of the record and its defective
    units are those of the record found or created, the slots of the
    other hours stay where they are, unchanged, and one slot at most is
    added; and in the slot of its hour, whichever way the stoppage is
    recorded, the units produced, the defective units, the running
    minutes, the operator and the mold are as before. *)
Theorem stoppage_record_frame db rq t1 t2 :
  sapMissing rq = false → sapMalformed rq = false →
  ∃ i r1,
    findOne (postStoppage db rq t1 t2).2 (sq_machineId rq) (sq_date rq)
    = Some (i, r1)
    ∧ sameHeader (findOrCreate db (sq_machineId rq) (sq_date rq)) r1
    ∧ r_defectiveUnits r1
      = r_defectiveUnits (findOrCreate db (sq_machineId rq) (sq_date rq))
    ∧ (∀ k h,
         r_hourlyData (findOrCreate db (sq_machineId rq) (sq_date rq)) !! k
         = Some h →
         h_hour h ≠ sq_hour rq → r_hourlyData r1 !! k = Some h)
    ∧ (length (r_hourlyData (findOrCreate db (sq_machineId rq) (sq_date rq)))
       ≤ length (r_hourlyData r1)
       ≤ length (r_hourlyData (findOrCreate db (sq_machineId rq) (sq_date rq)))
         + 1)%nat
    ∧ ∃ h', findHourData (Some r1) (sq_hour rq) = Some h'
            ∧ h_unitsProduced h' = h_unitsProduced (stoppageTarget db rq)
            ∧ h_defectiveUnits h' = h_defectiveUnits (stoppageTarget db rq)
            ∧ h_runningMinutes h' = h_runningMinutes (stoppageTarget db rq)
            ∧ h_operatorId h' = h_operatorId (stoppageTarget db rq)
            ∧ h_moldId h' = h_moldId (stoppageTarget db rq).
Proof.
  intros H1 H2. rewrite validation_passes by done. cbn [snd].
  destruct (findOne_save db (sq_machineId rq) (sq_date rq) _
              (stoppageRecord_onDay db rq t1 t2)) as [i Hi].
  exists i, (stoppageRecord db rq t1 t2). split; [done|].
  assert (∃ h', findHourData (Some (stoppageRecord db rq t1 t2)) (sq_hour rq)
                = Some h'
            ∧ h_unitsProduced h' = h_unitsProduced (stoppageTarget db rq)
            ∧ h_defectiveUnits h' = h_defectiveUnits (stoppageTarget db rq)
            ∧ h_runningMinutes h' = h_runningMinutes (stoppageTarget db rq)
            ∧ h_operatorId h' = h_operatorId (stoppageTarget db rq)
            ∧ h_moldId h' = h_moldId (stoppageTarget db rq)) as Hlast.
  { exists (stoppageSlot db rq t1 t2). split.
    - unfold findHourData. cbn [mbind option_bind].
      by destruct (stoppageRecord_slot db rq t1 t2) as [j ->].
    - unfold stoppageSlot. rewrite stoppageTarget_slotOf.
      destruct (slotOf db _ _ _) as [h|]; [|done].
      apply stoppageOnSlot_production. }
  revert Hlast. generalize (findHourData (Some (stoppageRecord db rq t1 t2))
                              (sq_hour rq)). intros found Hlast.
  unfold stoppageRecord, findOrPushSlot.
  destruct (list_find _ (r_hourlyData _)) as [[j h0]|] eqn:E;
    cbn [writeHourData r_hourlyData set_hourlyData].
  - split; [done|]. split; [done|]. split; [|split; [|exact Hlast]].
    + intros k h Hk Hne. rewrite list_lookup_alter_ne; [done|].
      intros ->. apply list_find_Some in E as (Hj & Hh & _).
      rewrite Hj in Hk. by simplify_eq.
    + rewrite length_alter. lia.
  - split; [done|]. split; [done|]. split; [|split; [|exact Hlast]].
    + intros k h Hk Hne. pose proof (lookup_lt_Some _ _ _ Hk) as Hlt.
      by rewrite lookup_app_l.
    + rewrite length_app. simpl. lia.
Qed.

Lemma stoppage_record_frame_witness :
  ∃ i r1,
    findOne (postStoppage plantDb (stoppageData
               {| f_reason := "other"; f_description := "";
                  f_duration := 5; f_sapNotificationNumber := "" |}
               "m1" 19723 9) 0 0).2 "m1" 19723 = Some (i, r1)
    ∧ r_hourlyData r1 !! 0%nat = Some plantSlot.
Proof.
  destruct (stoppage_record_frame plantDb
              (stoppageData
                 {| f_reason := "other"; f_description := "";
                    f_duration := 5; f_sapNotificationNumber := "" |}
                 "m1" 19723 9) 0 0 eq_refl eq_refl)
    as (i & r1 & Hfind & _ & _ & Hslots & _).
  exists i, r1. split; [exact Hfind|].
  apply (Hslots 0%nat plantSlot); [reflexivity|discriminate].
Defined.

(** ** The hours of an assignment *)

Section HoursToUpdate.

Variables (shifts : list Shift) (hour : Z).

Lemma hoursFrom_NoDup a b : NoDup (hoursFrom a b).
Proof.
  unfold hoursFrom. destruct a, b; try apply NoDup_nil_2. apply NoDup_seqZ.
Qed.

Lemma hoursToUpdate_NoDup flag : NoDup (hoursToUpdate shifts hour flag).
Proof.
  unfold hoursToUpdate.
  destruct flag; [|apply NoDup_singleton].
  destruct (find _ _); [|apply NoDup_singleton].
  repeat case_match; (apply hoursFrom_NoDup || apply NoDup_nil_2).
Qed.

Lemma hoursToUpdate_same_day shift startHour endHour :
  find (shiftContains hour) shifts = Some shift →
  startHourOf shift = Some startHour → endHourOf shift = Some endHour →
  startHour ≤ endHour →
  hoursToUpdate shifts hour true = seqZ startHour (endHour - startHour)
  ∧ startHour ≤ hour < endHour.
Proof.
  intros Hf Hs He Hle. pose proof Hf as [_ Hc]%find_some.
  unfold hoursToUpdate. rewrite Hf. unfold shiftContains in Hc.
  rewrite Hs, He in *. unfold Js.le, Js.ge, Js.lt, hoursFrom in *.
  rewrite (proj2 (Z.leb_le startHour endHour)) in * by done.
  split; [done|].
  apply andb_true_iff in Hc as [?%Z.leb_le ?%Z.ltb_lt]. lia.
Qed.

Lemma hoursToUpdate_contains flag :
  0 ≤ hour < 24 → hour ∈ hoursToUpdate shifts hour flag.
Proof.
  intros Hh. unfold hoursToUpdate.
  destruct flag; [|apply list_elem_of_singleton; done].
  destruct (find _ _) as [shift|] eqn:Hf; [|by apply list_elem_of_singleton].
  apply find_some in Hf as [_ Hc]. unfold shiftContains in Hc.
  unfold Js.le, Js.ge, Js.lt, hoursFrom in *.
  destruct (startHourOf shift) as [a|], (endHourOf shift) as [b|];
    simpl in *; try done;
    repeat match goal with
      | H : context [Z.leb ?x ?y] |- _ => destruct (Z.leb_spec x y)
      | H : context [Z.ltb ?x ?y] |- _ => destruct (Z.ltb_spec x y)
      | |- context [Z.leb ?x ?y] => destruct (Z.leb_spec x y)
      | |- context [Z.ltb ?x ?y] => destruct (Z.ltb_spec x y)
      end; simpl in *; try done; apply elem_of_seqZ; lia.
Qed.

End HoursToUpdate.

(** For a shift that does not cross midnight the assignment to the shift
    updates exactly the hours from the start hour to the end hour
    excluded, and the hour of the request is one of them. *)
Theorem same_day_shift_expansion shifts hour shift startHour endHour :
  find (shiftContains hour) shifts = Some shift →
  startHourOf shift = Some startHour → endHourOf shift = Some endHour →
  startHour ≤ endHour →
  hoursToUpdate shifts hour true = seqZ startHour (endHour - startHour)
  ∧ startHour ≤ hour < endHour.
Proof. apply hoursToUpdate_same_day. Qed.

Lemma same_day_shift_expansion_witness :
  hoursToUpdate [ {| sh_startTime := "06:00"; sh_endTime := "14:30" |} ] 9 true
  = seqZ 6 (14 - 6)
  ∧ 6 ≤ 9 < 14.
Proof.
  apply (same_day_shift_expansion
           [ {| sh_startTime := "06:00"; sh_endTime := "14:30" |} ] 9
           {| sh_startTime := "06:00"; sh_endTime := "14:30" |} 6 14);
    [reflexivity | reflexivity | reflexivity | lia].
Defined.

(** Whatever the shifts are, even with times that do not parse, the
    hours that an assignment updates are pairwise distinct, and for an hour
    of the day, 0 to 23, the hour of the request is one of them. *)
Theorem requested_hour_is_updated shifts hour flag :
  NoDup (hoursToUpdate shifts hour flag)
  ∧ (0 ≤ hour < 24 → hour ∈ hoursToUpdate shifts hour flag).
Proof.
  split; [apply hoursToUpdate_NoDup|apply hoursToUpdate_contains].
Qed.

Lemma requested_hour_is_updated_witness :
  3 ∈ hoursToUpdate [nightShift; {| sh_startTime := "x"; sh_endTime := "8" |}]
        3 true.
Proof.
  apply (proj2 (requested_hour_is_updated
                  [nightShift; {| sh_startTime := "x"; sh_endTime := "8" |}]
                  3 true)). lia.
Defined.

(** ** The slots of the updated hours *)

Section AssignmentSlots.

Variables (hour : Z) (defectiveUnits : option Z).
Variables (validOperatorId validMoldId : option ObjectId).

Local Abbreviation kept := (keptSlot hour defectiveUnits).
Local Abbreviation step :=
  (assignHour hour defectiveUnits validOperatorId validMoldId).
Local Abbreviation slotAt t := (fun h : HourSlot => h_hour h = t).
Local Abbreviation carries := (carriesDefective hour defectiveUnits).
Local Abbreviation fresh t :=
  (newAssignmentSlot t validOperatorId validMoldId).

Lemma kept_carries h h' : kept h h' → carries h → carries h'.
Proof. intros [->|[_ ->]] Hc; [done|]. by intros _ _. Qed.

Lemma set_h_defectiveUnits_id h :
  set_h_defectiveUnits h (h_defectiveUnits h) = h.
Proof. by destruct h. Qed.

(** A slot that is kept and carries the defective units of the request
    is the slot it was with these defective units. *)
Lemma kept_carries_set h h' d :
  defectiveUnits = Some d → h_hour h = hour → kept h h' → carries h' →
  h' = set_h_defectiveUnits h (Some d).
Proof.
  intros Hd Hh [->|[_ ->]] Hc; [|by rewrite Hd].
  rewrite <- Hd, <- (Hc Hh); [|by rewrite Hd].
  symmetry. apply set_h_defectiveUnits_id.
Qed.

(** The turn of the loop for an hour whose slot is stored: the slot stays
    at its place and afterwards carries the defective units. *)
Lemma assignHour_find_stored hs t i h :
  list_find (slotAt t) hs = Some (i, h) →
  ∃ h', list_find (slotAt t) (step hs t) = Some (i, h')
        ∧ carries h' ∧ kept h h'.
Proof.
  intros Hfind. unfold assignHour, findOrPushSlot. rewrite Hfind.
  pose proof Hfind as (_ & Hh & _)%list_find_Some.
  destruct (_ && _) eqn:Hcond; cbn [writeHourData].
  - apply andb_true_iff in Hcond as [Ht%Z.eqb_eq _].
    eexists. split; [by apply (list_find_alter_hour t)|].
    split; [by intros _ _|]. right. split; [congruence|done].
  - exists h. split; [done|]. split; [|by left].
    intros Hhour Hsome. assert ((t =? hour) = true) as Ht
      by (apply Z.eqb_eq; congruence).
    by rewrite Ht, bool_decide_eq_true_2 in Hcond.
Qed.

(** The turn of the loop for an hour that has no slot: the new slot is
    stored as it was pushed. *)
Lemma assignHour_find_pushed hs t :
  list_find (slotAt t) hs = None →
  list_find (slotAt t) (step hs t) = Some (length hs, fresh t).
Proof.
  intros Hfind. unfold assignHour, findOrPushSlot. rewrite Hfind.
  destruct (_ && _); cbn [writeHourData]; by apply list_find_pushed.
Qed.

Lemma list_find_alter_other x (f : HourSlot → HourSlot) (i : nat)
  (hs : list HourSlot) h :
  (∀ y, h_hour (f y) = h_hour y) →
  hs !! i = Some h → h_hour h ≠ x →
  list_find (slotAt x) (alter f i hs) = list_find (slotAt x) hs.
Proof.
  intros Hf. revert i. induction hs as [|a hs IH]; intros [|i] Hi Hne;
    try done; cbn in *.
  - simplify_eq. rewrite Hf. by rewrite !decide_False.
  - destruct (decide (h_hour a = x)); [done|].
    change (list_fmap _ _ ?g ?l) with (g <$> l).
    change (list_alter f i hs) with (alter f i hs).
    by rewrite (IH i).
Qed.

(** A turn of the loop does not touch the first slot of another hour. *)
Lemma assignHour_find_other hs t x :
  x ≠ t → list_find (slotAt x) (step hs t) = list_find (slotAt x) hs.
Proof.
  intros Hne. unfold assignHour, findOrPushSlot.
  destruct (list_find (slotAt t) hs) as [[i h]|] eqn:Hfind.
  - apply list_find_Some in Hfind as (Hi & Hh & _).
    destruct (_ && _); cbn [writeHourData]; [|done].
    apply (list_find_alter_other x _ i hs h); [done|done|congruence].
  - destruct (_ && _); cbn [writeHourData];
      by apply list_find_pushed_other.
Qed.

Lemma assignHour_find_kept hs t x i h :
  list_find (slotAt x) hs = Some (i, h) →
  ∃ h', list_find (slotAt x) (step hs t) = Some (i, h') ∧ kept h h'.
Proof.
  intros (Hi & Hx & Hfirst)%list_find_Some.
  destruct (assignHour_step hour defectiveUnits validOperatorId validMoldId
              hs t) as [Hk _].
  destruct (Hk i h Hi) as (h' & Hh' & Hkept).
  exists h'. split; [|done]. apply list_find_Some.
  split; [done|]. split.
  - by rewrite (keptSlot_hour _ _ _ _ Hkept).
  - intros j y' Hj Hji.
    destruct (lookup_lt_is_Some_2 hs j) as [y Hy].
    { apply lookup_lt_Some in Hi. lia. }
    destruct (Hk j y Hy) as (y'' & Hy'' & Hky).
    rewrite Hy'' in Hj. simplify_eq.
    rewrite (keptSlot_hour _ _ _ _ Hky). by eapply Hfirst.
Qed.

Lemma assignHours_find_kept hours hs x i h :
  list_find (slotAt x) hs = Some (i, h) →
  ∃ h', list_find (slotAt x) (fold_left step hours hs) = Some (i, h')
        ∧ kept h h'.
Proof.
  revert hs h. induction hours as [|t hours IH]; intros hs h Hfind; simpl.
  - exists h. split; [done|by left].
  - destruct (assignHour_find_kept hs t x i h Hfind) as (h1 & H1 & K1).
    destruct (IH _ _ H1) as (h2 & H2 & K2).
    exists h2. split; [done|]. by eapply keptSlot_trans.
Qed.

Lemma assignHours_find_other hours hs x :
  x ∉ hours →
  list_find (slotAt x) (fold_left step hours hs) = list_find (slotAt x) hs.
Proof.
  revert hs. induction hours as [|t hours IH]; intros hs Hx; [done|]. simpl.
  apply not_elem_of_cons in Hx as [Hne Hx].
  rewrite IH by done. by apply assignHour_find_other.
Qed.

(** After the loop, the stored slot of an updated hour is at its place
    and carries the defective units of the request. *)
Lemma assignHours_find_stored hours hs t i h :
  t ∈ hours → list_find (slotAt t) hs = Some (i, h) →
  ∃ h', list_find (slotAt t) (fold_left step hours hs) = Some (i, h')
        ∧ carries h' ∧ kept h h'.
Proof.
  revert hs h. induction hours as [|a hours IH]; intros hs h Ht Hfind.
  - by apply elem_of_nil in Ht.
  - simpl. destruct (decide (a = t)) as [->|Hne].
    + destruct (assignHour_find_stored hs t i h Hfind) as (h1 & H1 & C1 & K1).
      destruct (assignHours_find_kept hours _ t i h1 H1) as (h2 & H2 & K2).
      exists h2. split; [done|]. split; [by eapply kept_carries|].
      by eapply keptSlot_trans.
    + apply elem_of_cons in Ht as [Ht|Ht]; [congruence|].
      destruct (assignHour_find_kept hs a t i h Hfind) as (h1 & H1 & K1).
      destruct (IH _ _ Ht H1) as (h2 & H2 & C2 & K2).
      exists h2. split; [done|]. split; [done|]. by eapply keptSlot_trans.
Qed.

(** After the loop over distinct hours, the slot of an updated hour that
    had none is the new slot as it was pushed. *)
Lemma assignHours_find_created hours hs t :
  NoDup hours → t ∈ hours → list_find (slotAt t) hs = None →
  ∃ i, list_find (slotAt t) (fold_left step hours hs) = Some (i, fresh t).
Proof.
  revert hs. induction hours as [|a hours IH]; intros hs Hnd Ht Hfind.
  - by apply elem_of_nil in Ht.
  - apply NoDup_cons in Hnd as [Ha Hnd]. simpl.
    destruct (decide (a = t)) as [->|Hne].
    + exists (length hs). rewrite assignHours_find_other by done.
      by apply assignHour_find_pushed.
    + apply elem_of_cons in Ht as [Ht|Ht]; [congruence|].
      apply IH; [done|done|].
      rewrite assignHour_find_other by done. done.
Qed.

(** After the loop every hour of the list has a slot. *)
Lemma assignHours_find hours hs t :
  t ∈ hours →
  ∃ i h, list_find (slotAt t) (fold_left step hours hs) = Some (i, h).
Proof.
  revert hs. induction hours as [|a hours IH]; intros hs Ht.
  - by apply elem_of_nil in Ht.
  - simpl. apply elem_of_cons in Ht as [->|Ht]; [|by apply IH].
    assert (∃ i h, list_find (slotAt a) (step hs a) = Some (i, h))
      as (i & h & Hfind).
    { destruct (list_find (slotAt a) hs) as [[i h]|] eqn:E.
      - destruct (assignHour_find_stored hs a i h E) as (h' & ? & _). eauto.
      - rewrite (assignHour_find_pushed hs a E). eauto. }
    destruct (assignHours_find_kept hours _ a i h Hfind) as (h' & Hf' & _).
    eauto.
Qed.

(** A turn of the loop for an hour that has its slot, carrying the
    defective units, changes nothing. *)
Lemma assignHour_fixed hs t i h :
  list_find (slotAt t) hs = Some (i, h) → carries h → step hs t = hs.
Proof.
  intros Hfind Hc. unfold assignHour, findOrPushSlot. rewrite Hfind.
  destruct (_ && _) eqn:Hcond; cbn [writeHourData]; [|done].
  apply andb_true_iff in Hcond as [Ht%Z.eqb_eq Hd%bool_decide_eq_true].
  apply list_find_Some in Hfind as (Hi & Hh & _).
  apply list_eq. intros j. destruct (decide (j = i)) as [->|Hne].
  - rewrite list_lookup_alter_eq, Hi. simpl. f_equal.
    rewrite <- (Hc (eq_trans Hh Ht) Hd). apply set_h_defectiveUnits_id.
  - by rewrite list_lookup_alter_ne.
Qed.

Lemma assignHours_fixed hours hs :
  (∀ t, t ∈ hours → ∃ i h, list_find (slotAt t) hs = Some (i, h) ∧ carries h) →
  fold_left step hours hs = hs.
Proof.
  induction hours as [|a hours IH]; intros Hall; [done|]. simpl.
  destruct (Hall a) as (i & h & Hfind & Hc); [by left|].
  rewrite (assignHour_fixed hs a i h Hfind Hc).
  apply IH. intros t Ht. apply Hall. by right.
Qed.

(** Running the loop again over the same hours changes nothing when the
    request gives no defective units, or its hour is not among the hours,
    or the slot of its hour was stored before the first run. *)
Lemma assignHours_idempotent hours hs :
  defectiveUnits = None ∨ hour ∉ hours
  ∨ is_Some (list_find (slotAt hour) hs) →
  fold_left step hours (fold_left step hours hs) = fold_left step hours hs.
Proof.
  intros Hpre. apply assignHours_fixed. intros t Ht.
  destruct (assignHours_find hours hs t Ht) as (i & h & Hfind).
  exists i, h. split; [done|].
  intros Hh Hsome.
  pose proof Hfind as (_ & Hhour & _)%list_find_Some.
  rewrite Hh in Hhour. subst t.
  destruct Hpre as [Hnone|[Hnot|[[j h0] Hstored]]].
  - rewrite Hnone in Hsome. by destruct Hsome.
  - done.
  - destruct (assignHours_find_stored hours hs hour j h0 Ht Hstored)
      as (h' & Hf' & Hc & _).
    rewrite Hfind in Hf'. simplify_eq. by apply Hc.
Qed.

(** From the second run on, running the loop again changes nothing. *)
Lemma assignHours_stable hours hs :
  fold_left step hours (fold_left step hours (fold_left step hours hs))
  = fold_left step hours (fold_left step hours hs).
Proof.
  apply assignHours_idempotent.
  destruct (decide (hour ∈ hours)) as [Hin|Hnot]; [|by right; left].
  right; right. destruct (assignHours_find hours hs hour Hin) as (i & h & ->).
  eauto.
Qed.

End AssignmentSlots.

(** The stored slots of a day after an assignment whose operator and mold
    resolve: every updated hour has one; the slot of the requested hour
    that was stored before has the defective units of the request; the
    slot of the requested hour that was not is the new slot. *)
Lemma postAssignment_slots db rq op mold :
  resolveOperator db (aq_operatorId rq) = inl op →
  resolveMold (aq_moldId rq) = inl mold →
  (∀ t, t ∈ hoursToUpdate (default [] (config db)) (aq_hour rq)
                (aq_applyToShift rq) →
        is_Some (slotOf (postAssignment db rq).2
                   (aq_machineId rq) (aq_date rq) t))
  ∧ (0 ≤ aq_hour rq < 24 →
     (∀ h d,
        slotOf db (aq_machineId rq) (aq_date rq) (aq_hour rq) = Some h →
        aq_defectiveUnits rq = Some d →
        slotOf (postAssignment db rq).2
          (aq_machineId rq) (aq_date rq) (aq_hour rq)
        = Some (set_h_defectiveUnits h (Some d)))
     ∧ (slotOf db (aq_machineId rq) (aq_date rq) (aq_hour rq) = None →
        slotOf (postAssignment db rq).2
          (aq_machineId rq) (aq_date rq) (aq_hour rq)
        = Some (newAssignmentSlot (aq_hour rq) op mold))).
Proof.
  intros Hop Hmold. rewrite (postAssignment_ok db rq op mold Hop Hmold).
  cbn [snd].
  assert (∀ x, slotOf (save db (findOne db (aq_machineId rq) (aq_date rq))
                         (assignmentRecord db rq op mold))
                 (aq_machineId rq) (aq_date rq) x
               = snd <$> list_find (fun h => h_hour h = x)
                           (r_hourlyData (assignmentRecord db rq op mold)))
    as Hsaved.
  { intros x. apply slotOf_save, assignmentRecord_onDay. }
  rewrite slotOf_findOrCreate.
  unfold assignmentRecord in Hsaved.
  cbn [r_hourlyData set_r_defectiveUnits set_hourlyData] in Hsaved.
  split.
  - intros t Ht. rewrite Hsaved.
    destruct (assignHours_find (aq_hour rq) (aq_defectiveUnits rq) op mold _
                (r_hourlyData (findOrCreate db (aq_machineId rq) (aq_date rq)))
                t Ht) as (j & h & ->). simpl. eauto.
  - intros Hh.
    pose proof (hoursToUpdate_contains (default [] (config db)) (aq_hour rq)
                  (aq_applyToShift rq) Hh) as Hin.
    rewrite Hsaved. split.
    + intros h d Hstored Hd.
      destruct (list_find _ (r_hourlyData (findOrCreate _ _ _)))
        as [[j h0]|] eqn:E; [|done].
      simpl in Hstored. simplify_eq.
      destruct (assignHours_find_stored (aq_hour rq) (aq_defectiveUnits rq)
                  op mold _ _ _ j h Hin E) as (h' & -> & Hc & Hk).
      simpl. f_equal.
      apply (kept_carries_set (aq_hour rq) (aq_defectiveUnits rq));
        [done| |done|done].
      apply list_find_Some in E. tauto.
    + intros Hnone.
      destruct (list_find _ (r_hourlyData (findOrCreate _ _ _)))
        as [[j h0]|] eqn:E; [done|].
      destruct (assignHours_find_created (aq_hour rq) (aq_defectiveUnits rq)
                  op mold _ _ (aq_hour rq)
                  (hoursToUpdate_NoDup _ _ _) Hin E) as (i & ->).
      done.
Qed.

(** After an accepted assignment every hour that was to be updated has a
    stored slot.  When the hour of the request is an hour of the day, its
    slot, if it was stored before, is that slot with the defective units
    of the request; if it was not, it is the new slot with the operator
    and the mold of the request and no defective units: those of the
    request are written to the pushed object and do not reach the
    record. *)
Theorem assignment_creates_the_slots db rq op mold :
  resolveOperator db (aq_operatorId rq) = inl op →
  resolveMold (aq_moldId rq) = inl mold →
  (∀ t, t ∈ hoursToUpdate (default [] (config db)) (aq_hour rq)
                (aq_applyToShift rq) →
        is_Some (slotOf (postAssignment db rq).2
                   (aq_machineId rq) (aq_date rq) t))
  ∧ (0 ≤ aq_hour rq < 24 →
     (∀ h d,
        slotOf db (aq_machineId rq) (aq_date rq) (aq_hour rq) = Some h →
        aq_defectiveUnits rq = Some d →
        slotOf (postAssignment db rq).2
          (aq_machineId rq) (aq_date rq) (aq_hour rq)
        = Some (set_h_defectiveUnits h (Some d)))
     ∧ (slotOf db (aq_machineId rq) (aq_date rq) (aq_hour rq) = None →
        ∃ h', slotOf (postAssignment db rq).2
                (aq_machineId rq) (aq_date rq) (aq_hour rq) = Some h'
              ∧ h_operatorId h' = op ∧ h_moldId h' = mold
              ∧ h_defectiveUnits h' = Some 0
              ∧ h_unitsProduced h' = Some 0
              ∧ h_status h' = Some "inactive"
              ∧ h_stoppages h' = [])).
Proof.
  intros Hop Hmold.
  destruct (postAssignment_slots db rq op mold Hop Hmold) as [Hall Hreq].
  split; [exact Hall|]. intros Hh. destruct (Hreq Hh) as [Hstored Hnew].
  split; [exact Hstored|]. intros Hnone. eexists. split; [by apply Hnew|].
  by repeat split.
Qed.

Lemma assignment_creates_the_slots_witness :
  is_Some (slotOf (postAssignment plantDb shiftRq).2 "m1" 19723 22)
  ∧ (∃ h', slotOf (postAssignment plantDb shiftRq).2 "m1" 19723 23 = Some h'
           ∧ h_operatorId h' = Some "u1" ∧ h_defectiveUnits h' = Some 0)
  ∧ slotOf (postAssignment plantDb defectRq).2 "m1" 19723 8
    = Some (set_h_defectiveUnits plantSlot (Some 4)).
Proof.
  destruct (assignment_creates_the_slots plantDb shiftRq (Some "u1") None
              eq_refl eq_refl) as (Hall & Hreq).
  destruct (assignment_creates_the_slots plantDb defectRq None None
              eq_refl eq_refl) as (_ & Hreq8).
  split; [|split].
  - apply Hall. vm_compute. apply list_elem_of_In. simpl. tauto.
  - destruct Hreq as [_ Hnew]; [simpl; lia|].
    destruct (Hnew eq_refl) as (h' & Hslot & Ho & _ & Hd & _).
    exists h'. split; [exact Hslot|]. split; [exact Ho|exact Hd].
  - destruct Hreq8 as [Hstored _]; [simpl; lia|].
    apply (Hstored plantSlot 4); reflexivity.
Defined.

(** A production assignment that is repeated.  Sent again to the store it
    produced, it gets the same reply and leaves that store as it is when
    it gives no defective units or the slot of its hour was stored before
    it was first sent; and whatever the store was, the third sending
    changes nothing that the second left.  The first repetition can change
    the store: the defective units that a first sending leaves out of the
    slot it creates are stored by the second. *)
Theorem assignment_idempotent db rq :
  (aq_defectiveUnits rq = None
   ∨ is_Some (slotOf db (aq_machineId rq) (aq_date rq) (aq_hour rq)) →
   postAssignment (postAssignment db rq).2 rq = postAssignment db rq)
  ∧ postAssignment
      (postAssignment (postAssignment db rq).2 rq).2 rq
    = postAssignment (postAssignment db rq).2 rq.
Proof.
  assert (∀ db0,
            aq_defectiveUnits rq = None
            ∨ aq_hour rq ∉ hoursToUpdate (default [] (config db0)) (aq_hour rq)
                             (aq_applyToShift rq)
            ∨ is_Some (slotOf db0 (aq_machineId rq) (aq_date rq) (aq_hour rq)) →
            postAssignment (postAssignment db0 rq).2 rq = postAssignment db0 rq)
    as Hrepeat.
  { intros db0 Hpre.
    destruct (resolveOperator db0 (aq_operatorId rq)) as [op|msg] eqn:Hop.
    2: { assert (postAssignment db0 rq = ((400, Message msg), db0)) as E
           by (unfold postAssignment; by rewrite Hop).
         rewrite E. exact E. }
    destruct (resolveMold (aq_moldId rq)) as [mold|msg] eqn:Hmold.
    2: { assert (postAssignment db0 rq = ((400, Message msg), db0)) as E
           by (unfold postAssignment; by rewrite Hop, Hmold).
         rewrite E. exact E. }
    rewrite (postAssignment_ok db0 rq op mold Hop Hmold). cbn [fst snd].
    destruct (findOne_save db0 (aq_machineId rq) (aq_date rq) _
                (assignmentRecord_onDay db0 rq op mold)) as [i Hi].
    set (db1 := save db0 (findOne db0 (aq_machineId rq) (aq_date rq))
                  (assignmentRecord db0 rq op mold)) in *.
    assert (sameCollections db0 db1) as (_ & _ & Husers & Hconfig)
      by apply save_collections.
    assert (resolveOperator db1 (aq_operatorId rq) = inl op) as Hop1.
    { unfold resolveOperator in *. by rewrite Husers. }
    rewrite (postAssignment_ok db1 rq op mold Hop1 Hmold). f_equal.
    assert (assignmentRecord db1 rq op mold = assignmentRecord db0 rq op mold)
      as Hrec.
    { unfold assignmentRecord at 1. unfold findOrCreate. rewrite Hi, Hconfig.
      unfold assignmentRecord.
      cbn [r_hourlyData set_r_defectiveUnits set_hourlyData].
      rewrite assignHours_idempotent; [done|].
      rewrite slotOf_findOrCreate in Hpre.
      destruct Hpre as [?|[?|Hsome]]; [by left|by right; left|].
      right; right. apply fmap_is_Some in Hsome. exact Hsome. }
    rewrite Hrec, Hi. unfold save.
    apply list_find_Some in Hi as (Hi & _).
    rewrite list_insert_id by done. unfold db1, save.
    by destruct (findOne db0 _ _) as [[??]|]. }
  split.
  - intros [Hnone|Hsome]; apply Hrepeat; [by left|by right; right].
  - destruct (resolveOperator db (aq_operatorId rq)) as [op|msg] eqn:Hop.
    2: { assert (postAssignment db rq = ((400, Message msg), db)) as E
           by (unfold postAssignment; by rewrite Hop).
         rewrite !E. cbn [snd]. rewrite !E. cbn [snd]. exact E. }
    destruct (resolveMold (aq_moldId rq)) as [mold|msg] eqn:Hmold.
    2: { assert (postAssignment db rq = ((400, Message msg), db)) as E
           by (unfold postAssignment; by rewrite Hop, Hmold).
         rewrite !E. cbn [snd]. rewrite !E. cbn [snd]. exact E. }
    apply Hrepeat.
    assert (config (postAssignment db rq).2 = config db) as ->.
    { rewrite (postAssignment_ok db rq op mold Hop Hmold). cbn [snd].
      apply save_collections. }
    destruct (decide (aq_hour rq
                      ∈ hoursToUpdate (default [] (config db)) (aq_hour rq)
                          (aq_applyToShift rq))) as [Hin|Hnot];
      [|by right; left].
    right; right. by apply (postAssignment_slots db rq op mold Hop Hmold).
Qed.

Lemma assignment_idempotent_witness :
  postAssignment (postAssignment plantDb defectRq).2 defectRq
  = postAssignment plantDb defectRq.
Proof.
  apply (proj1 (assignment_idempotent plantDb defectRq)).
  right. exists plantSlot. reflexivity.
Defined.

(** The first repetition does change the store when the first sending
    created the slot of its hour: after the first sending the slot of hour
    23 has no defective units and the record none, after the second the
    slot has the 4 of the request and the record their sum. *)
Example assignment_first_repetition :
  (fun r => (h_defectiveUnits <$> r_hourlyData r, r_defectiveUnits r))
    <$> records (postAssignment emptyDb assignRq).2
  = [([Some 0], 0)]
  ∧ (fun r => (h_defectiveUnits <$> r_hourlyData r, r_defectiveUnits r))
      <$> records (postAssignment (postAssignment emptyDb assignRq).2
                     assignRq).2
    = [([Some 4], 4)].
Proof. split; reflexivity. Qed.

(** ** Rejected assignments *)

Section Resolve.

Variable db : Db.

Lemma resolveOperator_error operatorId :
  (∃ msg, resolveOperator db operatorId = inr msg)
  ↔ operatorUnknown db operatorId.
Proof.
  unfold resolveOperator, operatorUnknown.
  destruct (provided operatorId); [|split; [by intros [? ?]|by intros [? _]]].
  destruct (isValidObjectId _);
    [split; [by intros [? ?]|by intros (_ & ? & _)]|].
  destruct (find _ _) as [u|] eqn:E.
  - split; [by intros [? ?]|]. intros (_ & _ & Hall).
    apply find_some in E as [Hin Heq]. apply String.eqb_eq in Heq.
    apply list_elem_of_In in Hin. by destruct (Hall u Hin).
  - split; [|eauto]. intros _. split; [done|]. split; [done|].
    intros u Hu. rewrite find_none_iff in E. specialize (E u Hu).
    by apply String.eqb_neq in E.
Qed.

Lemma resolveOperator_message operatorId msg :
  resolveOperator db operatorId = inr msg → msg = "Invalid operator specified".
Proof. unfold resolveOperator. repeat case_match; congruence. Qed.

Lemma resolveMold_error moldId :
  (∃ msg, resolveMold moldId = inr msg) ↔ moldMalformed moldId.
Proof.
  unfold resolveMold, moldMalformed.
  destruct (provided moldId); [|split; [by intros [? ?]|by intros [? _]]].
  destruct (isValidObjectId _); [split; [by intros [? ?]|by intros [_ ?]]|].
  split; eauto.
Qed.

Lemma resolveMold_message moldId msg :
  resolveMold moldId = inr msg → msg = "Invalid mold ID specified".
Proof. unfold resolveMold. repeat case_match; congruence. Qed.

End Resolve.

(** A production assignment is answered 400 exactly when its operator is
    given and is neither a well-formed id nor the name of a user, or its
    mold is given and is not a well-formed id; the operator is judged
    first; a 400 leaves the store as it was; every other assignment is
    answered 200. *)
Theorem assignment_rejected_iff db rq :
  ((postAssignment db rq).1.1 = 400
   ↔ operatorUnknown db (aq_operatorId rq) ∨ moldMalformed (aq_moldId rq))
  ∧ (operatorUnknown db (aq_operatorId rq) →
     postAssignment db rq = ((400, Message "Invalid operator specified"), db))
  ∧ (¬ operatorUnknown db (aq_operatorId rq) → moldMalformed (aq_moldId rq) →
     postAssignment db rq = ((400, Message "Invalid mold ID specified"), db))
  ∧ ((postAssignment db rq).1.1 = 400 ∨ (postAssignment db rq).1.1 = 200).
Proof.
  rewrite <- resolveOperator_error, <- resolveMold_error.
  unfold postAssignment.
  destruct (resolveOperator db (aq_operatorId rq)) as [op|msg] eqn:Hop.
  - destruct (resolveMold (aq_moldId rq)) as [mold|msg] eqn:Hmold; simpl.
    + split; [|split; [|split]]; try (by right).
      * split; [done|]. intros [[? ?]|[? ?]]; done.
      * by intros [? ?].
      * by intros _ [? ?].
    + apply resolveMold_message in Hmold as ->.
      split; [|split; [|split]]; try (by left).
      * split; eauto.
      * by intros [? ?].
      * done.
  - apply resolveOperator_message in Hop as ->. simpl.
    split; [|split; [|split]]; try (by left).
    + split; eauto.
    + done.
    + intros H. destruct H. eauto.
Qed.

(** ** Who may read *)

(** For a machine that resolves, the two read handlers answer 200 to
    every requester who is not an operator and to an operator of the
    department of the machine, and 403 to an operator of another department
    or of none; they never change the store. *)
Theorem read_access_control db user machineId now period machine dep :
  machines db !! machineId = Some machine →
  m_departmentId machine = Some dep →
  (u_role user ≠ "operator" ∨ u_departmentId user = Some dep →
   (getTimeline db user machineId now).1.1 = 200
   ∧ (getMachineStats db user machineId period now).1.1 = 200)
  ∧ (u_role user = "operator" → u_departmentId user ≠ Some dep →
     (getTimeline db user machineId now).1
     = (403, Message "Access denied to this machine")
     ∧ (getMachineStats db user machineId period now).1
       = (403, Message "Access denied to this machine"))
  ∧ (getTimeline db user machineId now).2 = db
  ∧ (getMachineStats db user machineId period now).2 = db.
Proof.
  intros Hm Hdep. unfold getTimeline, getMachineStats, checkAccess.
  rewrite Hm, Hdep.
  destruct (String.eqb_spec (u_role user) "operator") as [Hr|Hr].
  - destruct (decide (u_departmentId user = Some dep)) as [Hd|Hd].
    + rewrite bool_decide_eq_true_2 by done. by repeat split.
    + rewrite bool_decide_eq_false_2 by done.
      split; [intros [?|?]; done|]. by repeat split.
  - split; [done|]. by repeat split.
Qed.

Lemma read_access_control_witness :
  (getTimeline plantDb {| u_role := "operator"; u_departmentId := Some "d2" |}
     "m1" plantNow).1
  = (403, Message "Access denied to this machine")
  ∧ (getMachineStats plantDb
       {| u_role := "operator"; u_departmentId := Some "d2" |}
       "m1" None plantNow).1
    = (403, Message "Access denied to this machine").
Proof.
  apply (proj1 (proj2 (read_access_control plantDb
           {| u_role := "operator"; u_departmentId := Some "d2" |}
           "m1" plantNow None
           {| m_name := "Press 1"; m_status := "running";
              m_departmentId := Some "d1" |} "d1" eq_refl eq_refl)));
    [reflexivity|discriminate].
Defined.

(** ** The colour of a cell *)

Lemma getStatusColor_red isDarkMode status hasStoppages :
  getStatusColor isDarkMode status hasStoppages = red isDarkMode
  ↔ hasStoppages = true ∨ status = "stoppage".
Proof.
  unfold getStatusColor, red.
  destruct hasStoppages; [split; [by left|done]|].
  destruct (String.eqb_spec status "running") as [->|H1].
  { destruct isDarkMode; split; (done || intros [?|?]; done). }
  destruct (String.eqb_spec status "stoppage") as [->|H2].
  { split; [by right|done]. }
  destruct (String.eqb_spec status "stopped_yet_producing") as [->|H3].
  { destruct isDarkMode; split; (done || intros [?|?]; done). }
  destruct (String.eqb_spec status "inactive") as [->|H4].
  { destruct isDarkMode; split; (done || intros [?|?]; done). }
  destruct isDarkMode; split; (done || intros [?|?]; done).
Qed.

(** An hour cell is red exactly when the hour has stoppages or its status
    is stoppage, in the light and in the dark theme. *)
Theorem cell_red_iff isDarkMode status hasStoppages :
  getStatusColor isDarkMode status hasStoppages = red isDarkMode
  ↔ hasStoppages = true ∨ status = "stoppage".
Proof. apply getStatusColor_red. Qed.

(** ** Reading back what was written *)

Section ReadBack.

Lemma find_of_list_find {A} (P : A → Prop) `{∀ x, Decision (P x)}
  (f : A → bool) (l : list A) i x :
  list_find P l = Some (i, x) → f x = true →
  (∀ y, y ∈ l → f y = true → P y) →
  find f l = Some x.
Proof.
  revert i. induction l as [|a l IH]; intros i Hfind Hx Hall; [done|].
  cbn in Hfind. simpl. destruct (decide (P a)) as [Ha|Ha].
  - simplify_eq. by rewrite Hx.
  - destruct (f a) eqn:Hfa.
    { destruct Ha. apply Hall; [by left|done]. }
    destruct (list_find P l) as [[j y]|] eqn:E; [|done].
    simpl in Hfind. simplify_eq. apply (IH j); [done|done|].
    intros z Hz. apply Hall. by right.
Qed.

Lemma onDay_div machineId date r :
  onDay machineId date r → r_startTime r `div` DAY = date.
Proof.
  intros (_ & Hlo & Hhi). symmetry.
  apply (Z.div_unique _ _ _ (r_startTime r - date * DAY)); unfold DAY in *; lia.
Qed.

Variables (db : Db) (machineId : ObjectId) (date : Z) (r1 : ProductionRecord).
Variable now : Z.

Local Abbreviation db' := (save db (findOne db machineId date) r1).

Hypothesis Hday : onDay machineId date r1.
Hypothesis Hwindow : now - 7 * DAY ≤ r_startTime r1 ≤ now.
Hypothesis Hsingle :
  ∀ r, r ∈ records db → r_machineId r = machineId →
       r_startTime r `div` DAY = date → onDay machineId date r.

(** The timeline finds the saved record as the record of its day. *)
Lemma saved_record_is_day_record :
  findDayRecord (findRecords db' machineId (now - 7 * DAY) now) (date * DAY)
  = Some r1.
Proof.
  unfold findDayRecord, findRecords. rewrite find_filter.
  destruct (findOne_save db machineId date r1 Hday) as [i Hi].
  unfold findOne in Hi.
  apply (find_of_list_find (onDay machineId date) _ _ i); [exact Hi| |].
  - destruct Hday as (Hm & _). rewrite Hm, String.eqb_refl. simpl.
    rewrite (proj2 (Z.leb_le _ _)) by lia.
    rewrite (proj2 (Z.leb_le _ _)) by lia. simpl.
    rewrite (onDay_div _ _ _ Hday), Z.div_mul by done. apply Z.eqb_refl.
  - intros y Hy Hf.
    apply andb_true_iff in Hf as [Hf Hq].
    apply andb_true_iff in Hf as [Hf _].
    apply andb_true_iff in Hf as [Hm%String.eqb_eq _].
    apply Z.eqb_eq in Hq. rewrite Z.div_mul in Hq by done.
    apply save_elem in Hy as [->|Hy]; [done|]. by apply Hsingle.
Qed.

(** The day of the saved record is one of the eight days of the window. *)
Lemma saved_day_in_window :
  ∃ d, d ∈ loopDays (now - 7 * DAY) now ∧ d `div` DAY = date.
Proof.
  pose proof (onDay_div _ _ _ Hday) as Hdiv.
  exists (now - 7 * DAY + (date - (now - 7 * DAY) `div` DAY) * DAY). split.
  - unfold loopDays. apply list_elem_of_fmap.
    exists (date - (now - 7 * DAY) `div` DAY). split; [done|].
    apply elem_of_seqZ.
    replace (now - (now - 7 * DAY)) with (7 * DAY) by lia.
    rewrite Z.div_mul by done.
    assert ((now - 7 * DAY) `div` DAY ≤ date).
    { rewrite <- Hdiv. apply Z.div_le_mono; [done|lia]. }
    assert (date ≤ (now - 7 * DAY) `div` DAY + 7).
    { rewrite <- Hdiv.
      replace ((now - 7 * DAY) `div` DAY + 7) with (now `div` DAY).
      - apply Z.div_le_mono; [done|lia].
      - replace (now - 7 * DAY) with (now + (-7) * DAY) by lia.
        rewrite Z.div_add by done. lia. }
    lia.
  - rewrite Z.div_add by done. lia.
Qed.

End ReadBack.

Lemma checkAccess_collections db db' user machineId :
  sameCollections db db' →
  checkAccess db' user machineId = checkAccess db user machineId.
Proof. intros (Hm & _). unfold checkAccess. by rewrite Hm. Qed.

Lemma stoppageRecord_startTime db rq t1 t2 :
  r_startTime (stoppageRecord db rq t1 t2)
  = r_startTime (findOrCreate db (sq_machineId rq) (sq_date rq)).
Proof. unfold stoppageRecord. by destruct (findOrPushSlot _ _ _). Qed.

(** An accepted stoppage shows in the timeline read afterwards.  When the
    record of the day starts within the seven day window and the machine
    has no other record on that calendar day than those the write handlers
    find, the timeline has the day, its entry for the hour has status
    stoppage and its cell is red.  The entry lists the stoppages of the
    slot of the hour as it is stored after the submission, with the sum of
    their durations; when the hour had no stored slot before, that is no
    stoppage and no minute of stoppage, the submitted stoppage having been
    left out of the record. *)
Theorem submitted_stoppage_shows_in_timeline
  db rq t1 t2 user now machine isDarkMode :
  sapMissing rq = false → sapMalformed rq = false →
  checkAccess db user (sq_machineId rq) = inl machine →
  0 ≤ sq_hour rq < 24 →
  now - 7 * DAY
  ≤ r_startTime (findOrCreate db (sq_machineId rq) (sq_date rq)) ≤ now →
  (∀ r, r ∈ records db → r_machineId r = sq_machineId rq →
        r_startTime r `div` DAY = sq_date rq →
        onDay (sq_machineId rq) (sq_date rq) r) →
  ∃ t day e,
    getTimeline (postStoppage db rq t1 t2).2 user (sq_machineId rq) now
    = ((200, TimelineBody t), (postStoppage db rq t1 t2).2)
    ∧ day ∈ t ∧ d_date day = sq_date rq
    ∧ e ∈ d_hours day ∧ t_hour e = sq_hour rq
    ∧ t_status e = "stoppage"
    ∧ hourColor isDarkMode e = red isDarkMode
    ∧ t_stoppageMinutes e
      = sumZ ((fun s => Js.or0 (s_duration s)) <$> t_stoppages e)
    ∧ (∃ h', slotOf (postStoppage db rq t1 t2).2
               (sq_machineId rq) (sq_date rq) (sq_hour rq) = Some h'
             ∧ t_stoppages e = h_stoppages h'
             ∧ t_unitsProduced e = Js.or0 (h_unitsProduced h')
             ∧ t_defectiveUnits e = Js.or0 (h_defectiveUnits h'))
    ∧ (slotOf db (sq_machineId rq) (sq_date rq) (sq_hour rq) = None →
       t_stoppages e = [] ∧ t_stoppageMinutes e = 0).
Proof.
  intros H1 H2 Hacc Hhour Hwin Hsingle.
  destruct (postStoppage_slot db rq t1 t2 H1 H2) as [_ Hstored].
  rewrite validation_passes in * by done. cbn [snd] in *.
  set (r1 := stoppageRecord db rq t1 t2).
  set (db' := save db (findOne db (sq_machineId rq) (sq_date rq)) r1).
  assert (onDay (sq_machineId rq) (sq_date rq) r1) as Hday
    by apply stoppageRecord_onDay.
  assert (now - 7 * DAY ≤ r_startTime r1 ≤ now) as Hwin1.
  { unfold r1. by rewrite stoppageRecord_startTime. }
  pose proof (saved_record_is_day_record db _ _ r1 now Hday Hwin1 Hsingle)
    as Hrec.
  destruct (saved_day_in_window (sq_machineId rq) (sq_date rq) r1 now Hday Hwin1)
    as (d & Hd & Hdiv).
  set (recs := findRecords db' (sq_machineId rq) (now - 7 * DAY) now) in *.
  exists (buildTimeline db' recs (now - 7 * DAY) now),
         (timelineDay db' recs d),
         (timelineHour db' (Some r1) (sq_hour rq)).
  split.
  { apply (getTimeline_ok db' user _ now machine).
    rewrite (checkAccess_collections db db'); [done|apply save_collections]. }
  split; [by apply list_elem_of_fmap_2|].
  split; [by rewrite d_date_timelineDay|].
  split.
  { unfold timelineDay. cbn [d_hours]. rewrite Hdiv.
    change (findDayRecord recs (sq_date rq * DAY)) with (findDayRecord
      (findRecords (save db (findOne db (sq_machineId rq) (sq_date rq)) r1)
         (sq_machineId rq) (now - 7 * DAY) now) (sq_date rq * DAY)).
    rewrite Hrec.
    apply list_elem_of_fmap_2. apply elem_of_seqZ. lia. }
  split; [done|].
  destruct (stoppageRecord_slot db rq t1 t2) as [j Hslot]. fold r1 in Hslot.
  assert (findHourData (Some r1) (sq_hour rq)
          = Some (stoppageSlot db rq t1 t2)) as Hdata.
  { unfold findHourData. cbn [mbind option_bind]. by rewrite Hslot. }
  assert (h_status (stoppageSlot db rq t1 t2) = Some "stoppage") as Hst.
  { unfold stoppageSlot. by destruct (slotOf db _ _ _). }
  assert (t_status (timelineHour db' (Some r1) (sq_hour rq)) = "stoppage")
    as Hstatus.
  { unfold timelineHour. rewrite Hdata. cbn [t_status mbind option_bind].
    by rewrite Hst. }
  split; [done|]. split.
  { unfold hourColor. apply getStatusColor_red. by right. }
  split.
  { unfold timelineHour. rewrite Hdata.
    cbn [t_stoppageMinutes t_stoppages fmap option_fmap option_map default].
    apply sumDurations_sumZ. }
  split.
  { exists (stoppageSlot db rq t1 t2). split; [exact Hstored|].
    unfold timelineHour. by rewrite Hdata. }
  unfold timelineHour. rewrite Hdata.
  cbn [t_stoppageMinutes t_stoppages fmap option_fmap option_map default].
  unfold stoppageSlot. by intros ->.
Qed.

Lemma submitted_stoppage_shows_in_timeline_witness :
  ∃ t day e,
    getTimeline (postStoppage plantDb paddedRq 0 0).2 anyUser "m1" plantNow
    = ((200, TimelineBody t), (postStoppage plantDb paddedRq 0 0).2)
    ∧ day ∈ t ∧ d_date day = 19723
    ∧ e ∈ d_hours day ∧ t_hour e = 8
    ∧ t_status e = "stoppage"
    ∧ hourColor false e = "bg-red-500"
    ∧ (s_duration <$> t_stoppages e) = [Some 10; Some 10].
Proof.
  destruct (submitted_stoppage_shows_in_timeline plantDb paddedRq 0 0 anyUser
              plantNow _ false eq_refl eq_refl eq_refl)
    as (t & day & e & Hreply & Hday & Hdate & He & Hh & Hs & Hc & _
        & (h' & Hslot & Hst & _) & _).
  - simpl. lia.
  - vm_compute. split; discriminate.
  - intros r Hr Hm Hdiv.
    apply list_elem_of_singleton in Hr as ->.
    split; [done|]. vm_compute. split; [discriminate|done].
  - exists t, day, e. repeat split; try done.
    rewrite Hst. vm_compute in Hslot. by injection Hslot as <-.
Defined.

(** An accepted assignment shows in the timeline read afterwards: under
    the same conditions on the window and on the records of the day, the
    entry of the requested hour has the defective units of the request
    when the hour had a stored slot, and none when the assignment created
    the slot. *)
Theorem assigned_defects_show_in_timeline db rq op mold user now machine d :
  resolveOperator db (aq_operatorId rq) = inl op →
  resolveMold (aq_moldId rq) = inl mold →
  aq_defectiveUnits rq = Some d →
  checkAccess db user (aq_machineId rq) = inl machine →
  0 ≤ aq_hour rq < 24 →
  now - 7 * DAY
  ≤ r_startTime (findOrCreate db (aq_machineId rq) (aq_date rq)) ≤ now →
  (∀ r, r ∈ records db → r_machineId r = aq_machineId rq →
        r_startTime r `div` DAY = aq_date rq →
        onDay (aq_machineId rq) (aq_date rq) r) →
  ∃ t day e,
    getTimeline (postAssignment db rq).2 user (aq_machineId rq) now
    = ((200, TimelineBody t), (postAssignment db rq).2)
    ∧ day ∈ t ∧ d_date day = aq_date rq
    ∧ e ∈ d_hours day ∧ t_hour e = aq_hour rq
    ∧ (is_Some (slotOf db (aq_machineId rq) (aq_date rq) (aq_hour rq)) →
       t_defectiveUnits e = d)
    ∧ (slotOf db (aq_machineId rq) (aq_date rq) (aq_hour rq) = None →
       t_defectiveUnits e = 0).
Proof.
  intros Hop Hmold Hdef Hacc Hhour Hwin Hsingle.
  destruct (postAssignment_slots db rq op mold Hop Hmold) as [_ Hreq].
  destruct (Hreq Hhour) as [Hstored Hnew]. clear Hreq.
  rewrite (postAssignment_ok db rq op mold Hop Hmold) in *. cbn [snd] in *.
  set (r1 := assignmentRecord db rq op mold) in *.
  set (db' := save db (findOne db (aq_machineId rq) (aq_date rq)) r1) in *.
  assert (onDay (aq_machineId rq) (aq_date rq) r1) as Hday
    by apply assignmentRecord_onDay.
  pose proof (saved_record_is_day_record db _ _ r1 now Hday Hwin Hsingle)
    as Hrec.
  destruct (saved_day_in_window (aq_machineId rq) (aq_date rq) r1 now Hday Hwin)
    as (dd & Hd & Hdiv).
  exists (buildTimeline db'
            (findRecords db' (aq_machineId rq) (now - 7 * DAY) now)
            (now - 7 * DAY) now),
         (timelineDay db'
            (findRecords db' (aq_machineId rq) (now - 7 * DAY) now) dd),
         (timelineHour db' (Some r1) (aq_hour rq)).
  split.
  { apply (getTimeline_ok db' user _ now machine).
    rewrite (checkAccess_collections db db'); [done|apply save_collections]. }
  split; [by apply list_elem_of_fmap_2|].
  split; [by rewrite d_date_timelineDay|].
  split.
  { unfold timelineDay. cbn [d_hours]. rewrite Hdiv. unfold db'.
    rewrite Hrec. apply list_elem_of_fmap_2. apply elem_of_seqZ. lia. }
  split; [done|].
  assert (findHourData (Some r1) (aq_hour rq)
          = slotOf db' (aq_machineId rq) (aq_date rq) (aq_hour rq)) as Hdata.
  { unfold db'. by rewrite slotOf_save. }
  unfold timelineHour. rewrite Hdata. cbn [t_defectiveUnits].
  split.
  - intros [h Hh]. by rewrite (Hstored h d Hh Hdef).
  - intros Hnone. by rewrite (Hnew Hnone).
Qed.

Lemma assigned_defects_show_in_timeline_witness :
  ∃ t day e,
    getTimeline (postAssignment plantDb defectRq).2 anyUser "m1" plantNow
    = ((200, TimelineBody t), (postAssignment plantDb defectRq).2)
    ∧ day ∈ t ∧ d_date day = 19723
    ∧ e ∈ d_hours day ∧ t_hour e = 8
    ∧ t_defectiveUnits e = 4.
Proof.
  destruct (assigned_defects_show_in_timeline plantDb defectRq None None
              anyUser plantNow
              {| m_name := "Press 1"; m_status := "running";
                 m_departmentId := Some "d1" |} 4
              eq_refl eq_refl eq_refl eq_refl)
    as (t & day & e & Hreply & Hday & Hdate & He & Hh & Hstored & _).
  - simpl. lia.
  - vm_compute. split; discriminate.
  - intros r Hr Hm Hdiv.
    apply list_elem_of_singleton in Hr as ->.
    split; [done|]. vm_compute. split; [discriminate|done].
  - exists t, day, e. repeat split; try done.
    apply Hstored. exists plantSlot. reflexivity.
Defined.

(** ** The oldest day of the timeline *)

(** The window of the timeline starts seven days before now, at the same
    time of day, and a record is read only if it starts within the window.
    So when the records of the machine start at midnight, as those are that
    the write handlers create, and now is not midnight, the first of the
    eight days of the timeline is blank whatever was recorded on it. *)
Theorem oldest_day_is_blank db user machineId now machine :
  checkAccess db user machineId = inl machine →
  now `mod` DAY ≠ 0 →
  (∀ r, r ∈ records db → r_machineId r = machineId →
        r_startTime r `mod` DAY = 0) →
  ∃ day rest,
    getTimeline db user machineId now = ((200, TimelineBody (day :: rest)), db)
    ∧ d_date day = (now - 7 * DAY) `div` DAY
    ∧ d_hours day = emptyHour <$> seqZ 0 24.
Proof.
  intros Hacc Hnow Hmid.
  rewrite (getTimeline_ok db user machineId now machine Hacc).
  unfold buildTimeline, loopDays.
  replace (now - (now - 7 * DAY)) with (7 * DAY) by lia.
  rewrite Z.div_mul by done. change (7 + 1) with 8.
  rewrite (seqZ_cons 0 8) by done. cbn [fmap list_fmap].
  eexists _, _. split; [reflexivity|].
  rewrite Z.mul_0_l, Z.add_0_r.
  split; [apply d_date_timelineDay|].
  unfold timelineDay. cbn [d_hours].
  assert (findDayRecord (findRecords db machineId (now - 7 * DAY) now)
            ((now - 7 * DAY) `div` DAY * DAY) = None) as ->; [|done].
  unfold findDayRecord. apply find_none_iff. intros r Hr.
  apply list_elem_of_In, filter_In in Hr as [Hin Hp].
  apply list_elem_of_In in Hin.
  apply andb_true_iff in Hp as [Hp _].
  apply andb_true_iff in Hp as [Hm%String.eqb_eq Hlo%Z.leb_le].
  specialize (Hmid r Hin Hm).
  apply Z.eqb_neq. rewrite Z.div_mul by done. intros Heq.
  pose proof (Z.div_mod (r_startTime r) DAY ltac:(done)) as Er.
  pose proof (Z.div_mod (now - 7 * DAY) DAY ltac:(done)) as Es.
  pose proof (Z.mod_pos_bound (now - 7 * DAY) DAY ltac:(done)) as Hb.
  assert ((now - 7 * DAY) `mod` DAY = now `mod` DAY) as Hmod.
  { replace (now - 7 * DAY) with (now + (-7) * DAY) by lia.
    apply Z_mod_plus_full. }
  rewrite Heq, Hmid in Er. rewrite Hmod in *. lia.
Qed.

Lemma oldest_day_is_blank_witness :
  ∃ day rest,
    getTimeline plantDb anyUser "m1" (plantNow + 7 * DAY)
    = ((200, TimelineBody (day :: rest)), plantDb)
    ∧ d_date day = 19723
    ∧ d_hours day = emptyHour <$> seqZ 0 24.
Proof.
  destruct (oldest_day_is_blank plantDb anyUser "m1" (plantNow + 7 * DAY) _
              eq_refl) as (day & rest & H1 & H2 & H3).
  - vm_compute. discriminate.
  - intros r Hr _. apply list_elem_of_singleton in Hr as ->. reflexivity.
  - exists day, rest. split; [exact H1|]. split; [|exact H3].
    rewrite H2. reflexivity.
Defined.

(** ** What the stoppage form sends *)

(** A stoppage sent by the form carries no pending reference.  With the
    submit button enabled, and a reason other than breakdown or a SAP
    number of digits, it is accepted, and its reason is not empty and its
    duration not zero.  When the hour has a stored slot the stoppage is
    appended to it with the reason and the duration of the form, and the
    minutes of stoppage of the slot are again the sum of the durations of
    its stoppages.  When the hour has no stored slot the new slot is
    stored without the stoppage, although the form is told of a
    success. *)
Theorem form_submission_appends f machineId day hour db t1 t2 :
  submitDisabled f = false →
  f_reason f ≠ "breakdown"
  ∨ Js.digitsOnly (Js.trim (f_sapNotificationNumber f)) = true →
  (postStoppage db (stoppageData f machineId day hour) t1 t2).1
  = (201, Message "Stoppage recorded successfully")
  ∧ f_reason f ≠ "" ∧ f_duration f ≠ 0
  ∧ (∀ h,
       slotOf db machineId day hour = Some h →
       ∃ h' st,
         slotOf (postStoppage db (stoppageData f machineId day hour) t1 t2).2
           machineId day hour = Some h'
         ∧ h_stoppages h' = h_stoppages h ++ [st]
         ∧ s_reason st = f_reason f
         ∧ s_duration st = Some (f_duration f)
         ∧ h_stoppageMinutes h'
           = Some (sumZ ((fun s => Js.or0 (s_duration s)) <$> h_stoppages h')))
  ∧ (slotOf db machineId day hour = None →
     slotOf (postStoppage db (stoppageData f machineId day hour) t1 t2).2
       machineId day hour
     = Some (newStoppageSlot hour)).
Proof.
  intros Hen Hok. set (rq := stoppageData f machineId day hour).
  apply orb_false_iff in Hen as [Hen _].
  apply orb_false_iff in Hen as [Hreason%String.eqb_neq Hdur%Z.eqb_neq].
  assert (sapMissing rq || sapMalformed rq = false) as Hv.
  { apply not_true_is_false. rewrite validation_fails_iff.
    intros [Hb Hrej]. simpl in Hb, Hrej. destruct Hok as [?|Hd]; [done|].
    unfold Js.digitsOnly in Hd.
    apply andb_true_iff in Hd as [Hne%negb_true_iff%String.eqb_neq Hd].
    destruct Hrej; congruence. }
  apply orb_false_iff in Hv as [H1 H2].
  destruct (postStoppage_slot db rq t1 t2 H1 H2) as [Hreply Hslot].
  unfold stoppageSlot in Hslot.
  change (sq_machineId rq) with machineId in Hslot.
  change (sq_date rq) with day in Hslot.
  change (sq_hour rq) with hour in Hslot.
  split; [done|]. split; [done|]. split; [done|]. split.
  - intros h Hh. rewrite Hh in Hslot.
    destruct (stoppageOnSlot_append_minutes rq t1 t2 h eq_refl)
      as [Happ Hmin].
    exists (stoppageOnSlot rq t1 t2 h), (newStoppage rq).
    by repeat split.
  - intros Hn. by rewrite Hn in Hslot.
Qed.

Lemma form_submission_appends_witness :
  ∃ h' st,
    slotOf (postStoppage plantDb
              (stoppageData {| f_reason := "breakdown"; f_description := "";
                               f_duration := 7;
                               f_sapNotificationNumber := "4711" |}
                 "m1" 19723 8) 0 0).2 "m1" 19723 8 = Some h'
    ∧ h_stoppages h' = h_stoppages plantSlot ++ [st]
    ∧ h_stoppageMinutes h' = Some 17.
Proof.
  destruct (form_submission_appends
              {| f_reason := "breakdown"; f_description := "";
                 f_duration := 7; f_sapNotificationNumber := "4711" |}
              "m1" 19723 8 plantDb 0 0 eq_refl (or_intror eq_refl))
    as (_ & _ & _ & Hstored & _).
  destruct (Hstored plantSlot eq_refl)
    as (h' & st & Hslot & Happ & _ & Hd & Hmin).
  exists h', st. split; [exact Hslot|]. split; [exact Happ|].
  rewrite Hmin, Happ, fmap_app, sumZ_app. simpl. rewrite Hd. reflexivity.
Defined.

(** ** The totals of the statistics *)

Section Totals.

Variable db : Db.

Lemma countStoppage_fold_minutes ss t :
  let t' := fold_left countStoppage ss t in
  totalRunningMinutes t' = totalRunningMinutes t
  ∧ totalStoppageMinutes t' = totalStoppageMinutes t
  ∧ totalStoppages t' = totalStoppages t.
Proof.
  revert t. induction ss as [|s ss IH]; intros t; cbn [fold_left]; [done|].
  destruct (IH (countStoppage t s)) as (-> & -> & ->).
  unfold countStoppage. by destruct (String.eqb _ _).
Qed.

Lemma countHour_fold_minutes hs t :
  let t' := fold_left (countHour db) hs t in
  totalRunningMinutes t'
  = totalRunningMinutes t
    + sumZ ((fun h => Js.or0 (h_runningMinutes h)) <$> hs)
  ∧ totalStoppageMinutes t'
    = totalStoppageMinutes t
      + sumZ ((fun h => Js.or0 (h_stoppageMinutes h)) <$> hs)
  ∧ totalStoppages t'
    = totalStoppages t + Z.of_nat (length (hs ≫= h_stoppages)).
Proof.
  revert t. induction hs as [|h hs IH]; intros t; cbn [fold_left].
  - unfold sumZ. cbn. repeat split; lia.
  - destruct (IH (countHour db t h)) as (-> & -> & ->). clear IH.
    unfold countHour.
    match goal with |- context [fold_left countStoppage ?ss ?t1] =>
      destruct (countStoppage_fold_minutes ss t1) as (-> & -> & ->) end.
    cbn [totalRunningMinutes totalStoppageMinutes totalStoppages
         fmap list_fmap mbind list_bind].
    rewrite length_app. unfold sumZ. cbn [foldr]. repeat split; lia.
Qed.

Lemma firstPass_minutes recs :
  totalRunningMinutes (firstPass db recs)
  = sumZ ((fun h => Js.or0 (h_runningMinutes h)) <$> allHours recs)
  ∧ totalStoppageMinutes (firstPass db recs)
    = sumZ ((fun h => Js.or0 (h_stoppageMinutes h)) <$> allHours recs)
  ∧ totalStoppages (firstPass db recs)
    = Z.of_nat (length (allStoppages recs)).
Proof.
  unfold firstPass. rewrite fold_records_hours.
  destruct (countHour_fold_minutes (allHours recs) zeroTotals)
    as (-> & -> & ->). done.
Qed.

End Totals.

(** The running minutes of the statistics are the sum of the running
    minutes of all the slots of the record set, the stoppage minutes are
    the sum of the stored stoppage minutes of the slots, not of the
    durations of their stoppages, the units produced and the defective
    units are the sums of the counters of the records, not of the slots,
    and the reply gives these numbers as they are. *)
Theorem statistics_totals db recs machine :
  let reply := statsReply machine (computeStats db recs) in
  st_totalRunningMinutes reply
  = sumZ ((fun h => Js.or0 (h_runningMinutes h)) <$> allHours recs)
  ∧ st_totalStoppageMinutes reply
    = sumZ ((fun h => Js.or0 (h_stoppageMinutes h)) <$> allHours recs)
  ∧ st_totalUnitsProduced reply = sumZ (r_unitsProduced <$> recs)
  ∧ st_totalDefectiveUnits reply = sumZ (r_defectiveUnits <$> recs)
  ∧ st_breakdownStoppages reply = Z.of_nat (length (breakdowns recs))
  ∧ st_currentStatus reply = m_status machine.
Proof.
  cbv zeta. unfold statsReply, computeStats.
  cbn [st_totalRunningMinutes st_totalStoppageMinutes st_totalUnitsProduced
       st_totalDefectiveUnits st_breakdownStoppages st_currentStatus
       totals totalUnitsProduced totalDefectiveUnits].
  destruct (firstPass_minutes db recs) as (-> & -> & _).
  rewrite (proj1 (proj2 (firstPass_totals db recs))).
  rewrite !fold_left_add_shift. repeat split; lia.
Qed.

(** ** The range of the percentages *)

Section Percent.

Local Open Scope Q_scope.

Lemma this_ofZ z : this (ofZ z) == inject_Z z.
Proof. unfold ofZ. simpl. apply Qred_correct. Qed.

Lemma this_div (a b : Qc) : this (a / b)%Qc == this a / this b.
Proof.
  unfold Qcdiv, Qcmult, Qcinv. simpl.
  rewrite !Qred_correct. reflexivity.
Qed.

Lemma percent_bounds (x : Q) :
  0 <= x <= 1 → (0 ≤ Qfloor (x * (100 # 1) + (1 # 2)) ≤ 100)%Z.
Proof.
  intros [Hx0 Hx1]. split.
  - change 0%Z with (Qfloor (1 # 2)). apply Qfloor_resp_le. lra.
  - apply (Z.le_trans _ (Qfloor ((100 # 1) + (1 # 2)))); [|by vm_compute].
    apply Qfloor_resp_le. lra.
Qed.

Lemma ratio_bounds (a b : Z) :
  (0 ≤ a ≤ b)%Z → (0 < b)%Z → 0 <= inject_Z a / inject_Z b <= 1.
Proof.
  intros Ha Hb.
  assert (0 < inject_Z b) as Hb'.
  { change 0 with (inject_Z 0). rewrite <- Zlt_Qlt. done. }
  split.
  - apply Qle_shift_div_l; [done|]. rewrite Qmult_0_l.
    change 0 with (inject_Z 0). rewrite <- Zle_Qle. lia.
  - apply Qle_shift_div_r; [done|]. rewrite Qmult_1_l.
    rewrite <- Zle_Qle. lia.
Qed.

(** The rounded percentage of a guarded ratio of two integers. *)
Lemma roundPercent_ratio (a b : Z) :
  (0 ≤ a ≤ b)%Z →
  ∃ p, roundPercent (if (0 <? b)%Z then jsdiv (ofZ a) (ofZ b) else Some 0%Qc)
       = Some p ∧ (0 ≤ p ≤ 100)%Z.
Proof.
  intros Ha. destruct (Z.ltb_spec0 0 b) as [Hb|Hb].
  - rewrite jsdiv_nonzero by (apply ofZ_nonzero; lia).
    unfold roundPercent. cbn [fmap option_fmap option_map].
    eexists. split; [reflexivity|].
    apply (percent_bounds (this (ofZ a / ofZ b)%Qc)).
    rewrite this_div, !this_ofZ. by apply ratio_bounds.
  - exists 0%Z. split; [|lia]. reflexivity.
Qed.

End Percent.

(** The availability given in percent is between 0 and 100 when no slot
    has negative running or stoppage minutes, and the quality given in
    percent is between 0 and 100 when the defective units of the records
    are not negative and not more than the units produced. *)
Theorem percentages_within_bounds db recs machine :
  let reply := statsReply machine (computeStats db recs) in
  ((∀ h, h ∈ allHours recs →
         0 ≤ Js.or0 (h_runningMinutes h) ∧ 0 ≤ Js.or0 (h_stoppageMinutes h)) →
   ∃ a, st_availability reply = Some a ∧ 0 ≤ a ≤ 100)
  ∧ (0 ≤ sumZ (r_defectiveUnits <$> recs) ≤ sumZ (r_unitsProduced <$> recs) →
     ∃ q, st_quality reply = Some q ∧ 0 ≤ q ≤ 100).
Proof.
  cbv zeta. unfold statsReply, computeStats.
  cbn [st_availability st_quality availability quality]. split.
  - intros Hpos.
    destruct (firstPass_minutes db recs) as (Hr & Hs & _).
    assert (0 ≤ totalRunningMinutes (firstPass db recs)) as Hr0.
    { rewrite Hr. apply sumZ_nonneg, Forall_fmap, Forall_forall.
      intros h Hh. by apply Hpos. }
    assert (0 ≤ totalStoppageMinutes (firstPass db recs)) as Hs0.
    { rewrite Hs. apply sumZ_nonneg, Forall_fmap, Forall_forall.
      intros h Hh. by apply Hpos. }
    apply roundPercent_ratio. lia.
  - intros Hq. rewrite !fold_left_add_shift.
    rewrite !Z.add_0_l.
    destruct (roundPercent_ratio
                (sumZ (r_unitsProduced <$> recs)
                 - sumZ (r_defectiveUnits <$> recs))
                (sumZ (r_unitsProduced <$> recs))) as (q & Hq1 & Hq2); [lia|].
    exists q. split; [|done]. exact Hq1.
Qed.

Lemma percentages_within_bounds_witness :
  (∃ a, st_availability
          (statsReply {| m_name := "Press 1"; m_status := "running";
                         m_departmentId := Some "d1" |}
             (computeStats plantDb [oeeRecord])) = Some a ∧ 0 ≤ a ≤ 100)
  ∧ (∃ q, st_quality
            (statsReply {| m_name := "Press 1"; m_status := "running";
                           m_departmentId := Some "d1" |}
               (computeStats plantDb [oeeRecord])) = Some q ∧ 0 ≤ q ≤ 100).
Proof.
  pose proof (percentages_within_bounds plantDb [oeeRecord]
                {| m_name := "Press 1"; m_status := "running";
                   m_departmentId := Some "d1" |}) as [Ha Hq].
  split.
  - apply Ha. intros h Hh. apply list_elem_of_In in Hh. simpl in Hh.
    repeat (destruct Hh as [<-|Hh]; [simpl; lia|]). done.
  - apply Hq. vm_compute. split; discriminate.
Defined.

(** ** Instances *)

Lemma stoppage_rejected_iff_witness :
  (postStoppage emptyDb lettersRq 0 0).1.1 = 400
  ∧ (postStoppage emptyDb lettersRq 0 0).2 = emptyDb.
Proof.
  destruct (stoppage_rejected_iff emptyDb lettersRq 0 0) as (H400 & _ & Hdb).
  assert ((postStoppage emptyDb lettersRq 0 0).1.1 = 400) as H.
  { apply H400. split; [reflexivity|]. right. reflexivity. }
  split; [exact H|exact (Hdb H)].
Defined.

Lemma assignment_rejected_iff_witness :
  postAssignment plantDb
    {| aq_machineId := "m1"; aq_hour := 8; aq_date := 19723;
       aq_operatorId := Some "carl"; aq_moldId := None;
       aq_defectiveUnits := None; aq_applyToShift := false |}
  = ((400, Message "Invalid operator specified"), plantDb).
Proof.
  apply (proj1 (proj2 (assignment_rejected_iff plantDb
           {| aq_machineId := "m1"; aq_hour := 8; aq_date := 19723;
              aq_operatorId := Some "carl"; aq_moldId := None;
              aq_defectiveUnits := None; aq_applyToShift := false |}))).
  split; [reflexivity|]. split; [reflexivity|].
  intros u Hu. apply list_elem_of_In in Hu. simpl in Hu.
  destruct Hu as [<-|[<-|[]]]; discriminate.
Defined.

Lemma cell_red_iff_witness :
  getStatusColor true "running" true = red true.
Proof. apply (proj2 (cell_red_iff true "running" true)). by left. Defined.

(** ** What the operator is told *)

(** The machine view tells the operator what the server decided on a
    stoppage: the success toast exactly when the submission was accepted,
    and otherwise an error toast with the message of the validation that
    failed, the store being as before. *)
Theorem stoppage_toast_follows_the_server db id stoppage t1 t2 :
  ((handleAddStoppage db id stoppage t1 t2).1
   = ToastSuccess "Stoppage recorded successfully"
   ↔ ¬ (sq_reason stoppage = "breakdown"
        ∧ sapRejected (sq_sapNotificationNumber stoppage)))
  ∧ (sq_reason stoppage = "breakdown" →
     (∀ s, sq_sapNotificationNumber stoppage = Some s → Js.trim s = "") →
     handleAddStoppage db id stoppage t1 t2
     = (ToastError "SAP notification number is required for breakdown stoppages",
        db))
  ∧ (sq_reason stoppage = "breakdown" →
     ∀ s, sq_sapNotificationNumber stoppage = Some s →
          Js.trim s ≠ "" → Js.allDigits (Js.trim s) = false →
          handleAddStoppage db id stoppage t1 t2
          = (ToastError "SAP notification number must contain only numbers",
             db)).
Proof.
  pose proof (validation_fails_iff (withMachineId stoppage id)) as Hiff.
  cbn [sq_reason sq_sapNotificationNumber withMachineId] in Hiff.
  unfold handleAddStoppage, postStoppage.
  split; [|split].
  - rewrite <- Hiff.
    destruct (sapMissing _), (sapMalformed _); simpl;
      split; try done; intros H; by destruct H.
  - intros Hr Hs.
    assert (sapMissing (withMachineId stoppage id) = true) as ->; [|done].
    unfold sapMissing. cbn [sq_reason sq_sapNotificationNumber withMachineId].
    rewrite Hr. simpl.
    destruct (sq_sapNotificationNumber stoppage) as [s|]; [|done]. simpl.
    rewrite (Hs s eq_refl). simpl. apply orb_true_r.
  - intros Hr s Hs Hne Hd.
    assert (sapMissing (withMachineId stoppage id) = false) as ->.
    { unfold sapMissing.
      cbn [sq_reason sq_sapNotificationNumber withMachineId].
      rewrite Hr, Hs. simpl. apply String.eqb_neq in Hne. rewrite Hne.
      destruct (String.eqb_spec s "") as [->|]; done. }
    assert (sapMalformed (withMachineId stoppage id) = true) as ->; [|done].
    unfold sapMalformed, Js.digitsOnly.
    cbn [sq_reason sq_sapNotificationNumber withMachineId].
    rewrite Hr, Hs. change (default "" (Some s)) with s. rewrite Hd.
    cbn [Js.truthy]. destruct (String.eqb_spec s "") as [->|]; [done|].
    simpl. by rewrite andb_false_r.
Qed.

Lemma stoppage_toast_follows_the_server_witness :
  handleAddStoppage plantDb "m1" lettersRq 0 0
  = (ToastError "SAP notification number must contain only numbers", plantDb).
Proof.
  apply (proj2 (proj2 (stoppage_toast_follows_the_server plantDb "m1"
                         lettersRq 0 0)) eq_refl "ABC123" eq_refl);
    [discriminate|reflexivity].
Defined.

(** The machine view tells the operator what the server decided on a
    production update: the success toast exactly when the assignment was
    accepted, and otherwise an error toast that names the operator or the
    mold, the store being as before.  The form always sends a number of
    defective units: an accepted update of an hour of the day sets them
    on the slot of that hour when the slot was stored before, and leaves
    the slot it creates without defective units when it was not. *)
Theorem production_toast_follows_the_server db machineId hour date data :
  ((handleUpdateProduction db machineId hour date data).1
   = ToastSuccess "Production data updated"
   ↔ ¬ (operatorUnknown db (Some (pf_operatorId data))
        ∨ moldMalformed (Some (pf_moldId data))))
  ∧ (operatorUnknown db (Some (pf_operatorId data)) →
     handleUpdateProduction db machineId hour date data
     = (ToastError "Invalid operator specified", db))
  ∧ (¬ operatorUnknown db (Some (pf_operatorId data)) →
     moldMalformed (Some (pf_moldId data)) →
     handleUpdateProduction db machineId hour date data
     = (ToastError "Invalid mold ID specified", db))
  ∧ ((handleUpdateProduction db machineId hour date data).1
     = ToastSuccess "Production data updated" →
     0 ≤ hour < 24 →
     (∀ h, slotOf db machineId date hour = Some h →
           slotOf (handleUpdateProduction db machineId hour date data).2
             machineId date hour
           = Some (set_h_defectiveUnits h (Some (pf_defectiveUnits data))))
     ∧ (slotOf db machineId date hour = None →
        h_defectiveUnits
          <$> slotOf (handleUpdateProduction db machineId hour date data).2
                machineId date hour
        = Some (Some 0))).
Proof.
  set (rq := productionData machineId hour date data).
  pose proof (resolveOperator_error db (aq_operatorId rq)) as HO.
  pose proof (resolveMold_error (aq_moldId rq)) as HM.
  cbn [aq_operatorId aq_moldId rq productionData] in HO, HM.
  rewrite <- HO, <- HM. unfold handleUpdateProduction. fold rq.
  unfold postAssignment.
  cbn [aq_operatorId aq_moldId rq productionData].
  destruct (resolveOperator db (Some (pf_operatorId data))) as [op|msg] eqn:Hop.
  - destruct (resolveMold (Some (pf_moldId data))) as [mold|msg] eqn:Hmold.
    + split; [|split; [|split]].
      * simpl. split; [|done]. intros _ [[? ?]|[? ?]]; done.
      * by intros [? ?].
      * by intros _ [? ?].
      * intros _ Hh.
        change (request ((200, Message "Production assignment updated successfully"),
                         save db (findOne db (aq_machineId rq) (aq_date rq))
                           (assignmentRecord db rq op mold)).1)
          with (@inl Body string
                  (Message "Production assignment updated successfully")).
        cbn [fst snd].
        destruct (postAssignment_slots db rq op mold Hop Hmold) as [_ Hreq].
        destruct (Hreq Hh) as [Hstored Hnew].
        rewrite (postAssignment_ok db rq op mold Hop Hmold) in Hstored, Hnew.
        cbn [snd] in Hstored, Hnew. split.
        -- intros h Hslot. by apply (Hstored h (pf_defectiveUnits data)).
        -- intros Hnone. specialize (Hnew Hnone).
           change (slotOf
                     (save db (findOne db (aq_machineId rq) (aq_date rq))
                        (assignmentRecord db rq op mold))
                     machineId date hour
                   = Some (newAssignmentSlot hour op mold)) in Hnew.
           by rewrite Hnew.
    + apply resolveMold_message in Hmold as ->.
      split; [|split; [|split]]; simpl.
      * split; [done|]. intros H. destruct H. right. eauto.
      * by intros [? ?].
      * done.
      * done.
  - apply resolveOperator_message in Hop as ->.
    split; [|split; [|split]]; simpl.
    + split; [done|]. intros H. destruct H. left. eauto.
    + done.
    + intros H. destruct H. eauto.
    + done.
Qed.

Lemma production_toast_follows_the_server_witness :
  handleUpdateProduction plantDb "m1" 8 19723
    {| pf_operatorId := "carl"; pf_moldId := ""; pf_defectiveUnits := 3;
       pf_applyToShift := false |}
  = (ToastError "Invalid operator specified", plantDb).
Proof.
  apply (proj1 (proj2 (production_toast_follows_the_server plantDb "m1" 8
           19723
           {| pf_operatorId := "carl"; pf_moldId := ""; pf_defectiveUnits := 3;
              pf_applyToShift := false |}))).
  split; [reflexivity|]. split; [reflexivity|].
  intros u Hu. apply list_elem_of_In in Hu. simpl in Hu.
  destruct Hu as [<-|[<-|[]]]; discriminate.
Defined.

(** ** A pending reference that matches nothing *)

(** When an accepted submission carries a pending reference and the
    stored slot of the hour has no stoppage with that id and no
    unclassified stoppage, the stoppages of the slot are kept and a new one
    is appended, the minutes of stoppage of the slot staying as they were.
    The new stoppage is classified and has the reason and the duration of
    the request; for an hour from 0 to 24 it starts at that hour of the
    day and ends the submitted minutes later, and for any other hour it
    has no valid start and no valid end.  When the hour has no stored slot
    the new slot is stored without the stoppage. *)
Theorem pending_without_match_appends db rq t1 t2 p :
  sapMissing rq = false → sapMalformed rq = false →
  sq_pendingStoppageId rq = Some p → p ≠ "" →
  (∀ h,
     slotOf db (sq_machineId rq) (sq_date rq) (sq_hour rq) = Some h →
     (∀ s, s ∈ h_stoppages h →
           s_id s ≠ Some p ∧ s_reason s ≠ "unclassified") →
     ∃ h' st,
       slotOf (postStoppage db rq t1 t2).2
         (sq_machineId rq) (sq_date rq) (sq_hour rq) = Some h'
       ∧ h_stoppages h' = h_stoppages h ++ [st]
       ∧ h_stoppageMinutes h' = h_stoppageMinutes h
       ∧ s_duration st = Some (sq_duration rq)
       ∧ s_reason st = sq_reason rq
       ∧ s_isPending st = false ∧ s_isClassified st = true
       ∧ (0 ≤ sq_hour rq ≤ 24 →
          s_startTime st = Some (sq_date rq * DAY + sq_hour rq * HOUR)
          ∧ s_endTime st
            = Some (sq_date rq * DAY + sq_hour rq * HOUR
                    + sq_duration rq * MINUTE))
       ∧ (¬ 0 ≤ sq_hour rq ≤ 24 →
          s_startTime st = None ∧ s_endTime st = None))
  ∧ (slotOf db (sq_machineId rq) (sq_date rq) (sq_hour rq) = None →
     slotOf (postStoppage db rq t1 t2).2
       (sq_machineId rq) (sq_date rq) (sq_hour rq)
     = Some (newStoppageSlot (sq_hour rq))).
Proof.
  intros H1 H2 Hp Hne.
  destruct (postStoppage_slot db rq t1 t2 H1 H2) as [_ Hslot].
  unfold stoppageSlot in Hslot. split.
  - intros h Hh Hnone. rewrite Hh in Hslot.
    exists (stoppageOnSlot rq t1 t2 h), (newStoppage rq).
    split; [exact Hslot|].
    assert (Js.truthy (sq_pendingStoppageId rq) = true) as Htruthy.
    { rewrite Hp. simpl. apply String.eqb_neq in Hne. by rewrite Hne. }
    split.
    { unfold stoppageOnSlot. rewrite Htruthy, Hp. simpl.
      assert (list_find (pendingMatch p) (h_stoppages h) = None) as ->; [|done].
      apply list_find_None, Forall_forall. intros s Hs [?|?];
        by destruct (Hnone s Hs). }
    split; [by apply stoppageOnSlot_pending_minutes|].
    do 4 (split; [done|]).
    unfold newStoppage, hourStart. cbn [s_startTime s_endTime]. split.
    + intros [Hlo Hhi].
      rewrite (proj2 (Z.leb_le _ _) Hlo), (proj2 (Z.leb_le _ _) Hhi).
      cbn. split; [done|]. f_equal. unfold MINUTE. lia.
    + intros Hout.
      destruct (Z.leb_spec 0 (sq_hour rq)), (Z.leb_spec (sq_hour rq) 24);
        simpl; (done || lia).
  - intros Hn. by rewrite Hn in Hslot.
Qed.

Lemma pending_without_match_appends_witness :
  ∃ h' st,
    slotOf (postStoppage plantDb
              {| sq_machineId := "m1"; sq_hour := 8; sq_date := 19723;
                 sq_reason := "planned"; sq_description := None;
                 sq_duration := 20; sq_pendingStoppageId := Some "zz";
                 sq_sapNotificationNumber := None |} 0 0).2 "m1" 19723 8
    = Some h'
    ∧ h_stoppages h' = h_stoppages plantSlot ++ [st]
    ∧ s_duration st = Some 20
    ∧ s_startTime st = Some (19723 * DAY + 8 * HOUR).
Proof.
  destruct (pending_without_match_appends plantDb
              {| sq_machineId := "m1"; sq_hour := 8; sq_date := 19723;
                 sq_reason := "planned"; sq_description := None;
                 sq_duration := 20; sq_pendingStoppageId := Some "zz";
                 sq_sapNotificationNumber := None |} 0 0 "zz"
              eq_refl eq_refl eq_refl) as [Hstored _].
  - discriminate.
  - destruct (Hstored plantSlot eq_refl)
      as (h' & st & Hslot & Happ & _ & Hd & _ & _ & _ & Hin & _).
    + intros s Hs. apply list_elem_of_In in Hs. simpl in Hs.
      destruct Hs as [<-|[]]. split; discriminate.
    + exists h', st. split; [exact Hslot|]. split; [exact Happ|].
      split; [exact Hd|]. apply Hin. simpl. lia.
Defined.

(** ** Statistics of an empty window *)

Lemma filter_nil_iff {A} (f : A → bool) (l : list A) :
  (∀ x, x ∈ l → f x = false) → List.filter f l = [].
Proof.
  induction l as [|a l IH]; intros H; [done|]. simpl.
  rewrite (H a) by (by left). apply IH. intros x Hx. apply H. by right.
Qed.

Lemma computeStats_nil db machine :
  statsReply machine (computeStats db []) = zeroStats (m_status machine).
Proof. reflexivity. Qed.

(** A period other than 24h, 7d and 30d leaves the window empty but for
    the present instant: unless a record of the machine starts exactly
    now, the reply is the statistics of no record at all, every number
    being 0, with the status of the machine. *)
Theorem unknown_period_gives_zero_statistics
  db user machineId period now machine :
  checkAccess db user machineId = inl machine →
  period ≠ "24h" → period ≠ "7d" → period ≠ "30d" →
  (∀ r, r ∈ records db → r_machineId r = machineId → r_startTime r ≠ now) →
  getMachineStats db user machineId (Some period) now
  = ((200, StatsBody (zeroStats (m_status machine))), db).
Proof.
  intros Hacc H24 H7 H30 Hnone. unfold getMachineStats. rewrite Hacc.
  unfold periodStart. simpl default.
  apply String.eqb_neq in H24, H7, H30. rewrite H24, H7, H30.
  assert (findRecords db machineId now now = []) as ->.
  { unfold findRecords. apply filter_nil_iff. intros r Hr.
    destruct (String.eqb_spec (r_machineId r) machineId) as [Hm|]; [|done].
    simpl. specialize (Hnone r Hr Hm).
    destruct (Z.leb_spec now (r_startTime r)); [|done]. simpl.
    apply Z.leb_gt. lia. }
  by rewrite computeStats_nil.
Qed.

Lemma unknown_period_gives_zero_statistics_witness :
  getMachineStats plantDb anyUser "m1" (Some "1y") plantNow
  = ((200, StatsBody (zeroStats "running")), plantDb).
Proof.
  apply (unknown_period_gives_zero_statistics plantDb anyUser "m1" "1y"
           plantNow
           {| m_name := "Press 1"; m_status := "running";
              m_departmentId := Some "d1" |});
    try reflexivity; try discriminate.
  intros r Hr _. apply list_elem_of_singleton in Hr as ->.
  vm_compute. discriminate.
Defined.
